(** * upnp-query: a shallow embedding of [upnp-query.py] and its properties

    The script discovers a UPnP gateway with one unicast M-SEARCH datagram,
    reads the [Location] header of the reply, fetches the device description,
    walks every [serviceList/service], fetches each service's SCPD and calls,
    through SOAP, every action whose name starts with [Get] and that has no
    input argument.

    Layout of the development:
    - [PyStr]: the [str] methods the script uses ([lower], [startswith],
      [split], [rsplit], [strip]) on 8-bit characters;
    - [ET]: the fragment of [xml.etree.ElementTree] the script uses;
    - [Py]: outcomes (value or raised exception);
    - section [Run]: the script itself, as state passing over an abstract
      world (sockets, HTTP server, XML parser) that logs what the script
      prints and sends;
    - the properties. *)

From Stdlib Require Import String Ascii List ZArith Bool Lia DecimalString.
Import ListNotations.
Local Open Scope list_scope.
Local Open Scope string_scope.
Set Warnings "-register-all".

(** ** Python strings *)

Module PyStr.

(** Characters are 8-bit code points.  [str.lower] on that range maps
    [A-Z] and the Latin-1 capitals (all of 192..222 but the sign 215) to the
    code point 32 above. *)
Definition lower_char (c : ascii) : ascii :=
  let n := nat_of_ascii c in
  if ((65 <=? n) && (n <=? 90))%nat
     || ((192 <=? n) && (n <=? 222) && negb (n =? 215))%nat
  then ascii_of_nat (n + 32) else c.

Fixpoint lower (s : string) : string :=
  match s with
  | EmptyString => EmptyString
  | String c r => String (lower_char c) (lower r)
  end.

(** [s.startswith(p)] *)
Definition startswith (s p : string) : bool := String.prefix p s.

Definition CR : ascii := "013"%char.
Definition LF : ascii := "010"%char.
Definition TAB : ascii := "009"%char.
Definition CRLF : string := String CR (String LF EmptyString).

(** [s.split("\r\n")]: the pieces between the non-overlapping occurrences
    of CR LF, found from the left; never an empty list. *)
Fixpoint split_crlf (s : string) : list string :=
  match s with
  | EmptyString => [EmptyString]
  | String c r =>
      let keep :=
        match split_crlf r with
        | h :: t => String c h :: t
        | [] => [String c EmptyString]
        end in
      match r with
      | String d r' =>
          if (Ascii.eqb c CR && Ascii.eqb d LF)%bool
          then EmptyString :: split_crlf r'
          else keep
      | EmptyString => keep
      end
  end.

(** The text before and after the first occurrence of [c]. *)
Fixpoint cut (c : ascii) (s : string) : option (string * string) :=
  match s with
  | EmptyString => None
  | String a r =>
      if Ascii.eqb a c then Some (EmptyString, r)
      else match cut c r with
           | Some (h, t) => Some (String a h, t)
           | None => None
           end
  end.

(** [s.split(c, 1)] for a one-character separator. *)
Definition split1 (c : ascii) (s : string) : list string :=
  match cut c s with
  | Some (h, t) => [h; t]
  | None => [s]
  end.

(** The text before and after the last occurrence of [c]. *)
Fixpoint rcut (c : ascii) (s : string) : option (string * string) :=
  match s with
  | EmptyString => None
  | String a r =>
      match rcut c r with
      | Some (h, t) => Some (String a h, t)
      | None => if Ascii.eqb a c then Some (EmptyString, r) else None
      end
  end.

(** [s.rsplit(c, 1)] for a one-character separator. *)
Definition rsplit1 (c : ascii) (s : string) : list string :=
  match rcut c s with
  | Some (h, t) => [h; t]
  | None => [s]
  end.

(** [c.isspace()] on 8-bit code points: TAB..CR, the separators 28..31,
    space, NEL and the no-break space. *)
Definition is_space (c : ascii) : bool :=
  let n := nat_of_ascii c in
  (((9 <=? n) && (n <=? 13)) || ((28 <=? n) && (n <=? 32))
   || (n =? 133) || (n =? 160))%nat.

Fixpoint lstrip (s : string) : string :=
  match s with
  | EmptyString => EmptyString
  | String a r => if is_space a then lstrip r else s
  end.

Fixpoint rstrip (s : string) : string :=
  match s with
  | EmptyString => EmptyString
  | String a r =>
      match rstrip r with
      | EmptyString => if is_space a then EmptyString else String a EmptyString
      | r' => String a r'
      end
  end.

(** [s.strip()] *)
Definition strip (s : string) : string := rstrip (lstrip s).

Fixpoint all_space (s : string) : bool :=
  match s with
  | EmptyString => true
  | String a r => is_space a && all_space r
  end.

Fixpoint mem (c : ascii) (s : string) : bool :=
  match s with
  | EmptyString => false
  | String a r => Ascii.eqb a c || mem c r
  end.

(** [str(n)] for an [int]. *)
Definition of_Z (n : Z) : string := NilZero.string_of_int (Z.to_int n).

(** [bool(s)]: a string is true when it is not empty. *)
Definition truthy (s : string) : bool :=
  match s with EmptyString => false | _ => true end.

End PyStr.

(** ** Outcomes *)

Module Py.

(** The exception classes the script meets.  [RequestException] stands for
    [requests.exceptions.RequestException] and its subclasses, [ParseError]
    for [ET.ParseError], [SocketTimeout] for [socket.timeout], and
    [OtherException] for any other subclass of [Exception] the libraries
    raise ([OSError], [UnicodeDecodeError]). *)
Inductive exn_class :=
| RequestException | ParseError | SocketTimeout | OtherException
| AttributeError | IndexError | UnboundLocalError.

Record exn := Exn { class : exn_class; message : string }.

Inductive outcome (A : Type) :=
| Ret (a : A)
| Raise (e : exn).
Arguments Ret {A} a.
Arguments Raise {A} e.

Definition obind {A B} (x : outcome A) (f : A -> outcome B) : outcome B :=
  match x with
  | Ret a => f a
  | Raise e => Raise e
  end.

Definition class_eqb (a b : exn_class) : bool :=
  match a, b with
  | RequestException, RequestException | ParseError, ParseError
  | SocketTimeout, SocketTimeout | OtherException, OtherException
  | AttributeError, AttributeError | IndexError, IndexError
  | UnboundLocalError, UnboundLocalError => true
  | _, _ => false
  end.

(** [l[i]] *)
Definition index {A} (l : list A) (i : nat) : outcome A :=
  match nth_error l i with
  | Some a => Ret a
  | None => Raise (Exn IndexError "list index out of range")
  end.

(** [x.attr] on a value that may be [None]. *)
Definition attr {A B} (x : option A) (name : string) (get : A -> B) : outcome B :=
  match x with
  | Some a => Ret (get a)
  | None =>
      Raise (Exn AttributeError
               ("'NoneType' object has no attribute '" ++ name ++ "'"))
  end.

(** [f"{x}"] for a string that may be [None]. *)
Definition fmt (x : option string) : string :=
  match x with Some s => s | None => "None" end.

End Py.
Export Py.

Notation "x <-? c ; k" := (obind c (fun x => k))
  (at level 61, c at next level, right associativity).

(** ** Location of the device description (lines 86-92) *)

(** [line.lower().startswith("location:")] *)
Definition is_location_line (line : string) : bool :=
  PyStr.startswith (PyStr.lower line) "location:".

(** The [for ... else] over the lines of the reply: [Ret (Some location)] on
    [break], [Ret None] when the loop runs out (the [else] branch), [Raise]
    when the subscript fails. *)
Fixpoint find_location (lines : list string) : outcome (option string) :=
  match lines with
  | [] => Ret None
  | line :: rest =>
      if is_location_line line
      then part <-? index (PyStr.split1 " " line) 1 ;
           Ret (Some (PyStr.strip part))
      else find_location rest
  end.

Definition extract_location (response : string) : outcome (option string) :=
  find_location (PyStr.split_crlf response).

(** ** ElementTree *)

Module ET.

(** An element: its tag in Clark notation ([{namespace}local]), its text
    ([None] when the element has none) and its children in document
    order. *)
Inductive Element :=
| Elem (tag : string) (text : option string) (children : list Element).

Definition tag (e : Element) : string := let 'Elem t _ _ := e in t.
Definition text (e : Element) : option string := let 'Elem _ x _ := e in x.
Definition children (e : Element) : list Element := let 'Elem _ _ c := e in c.

(** A name of a path, with the mapping [{'': ns}]: the name is looked up
    in the default namespace [ns]. *)
Definition qname (ns name : string) : string := "{" ++ ns ++ "}" ++ name.

Definition has_tag (ns name : string) (e : Element) : bool :=
  String.eqb (tag e) (qname ns name).

(** [e.find(name, {'': ns})]: the first child of that name. *)
Definition find (e : Element) (name ns : string) : option Element :=
  List.find (has_tag ns name) (children e).

(** [e.iter()]: the element and its descendants, in document order. *)
Fixpoint iter (e : Element) : list Element :=
  match e with
  | Elem _ _ cs => e :: flat_map iter cs
  end.

Definition descendants (e : Element) : list Element :=
  flat_map iter (children e).

(** [e.findall(".//name", {'': ns})]: the descendants of that name, the
    element itself excluded. *)
Definition findall_desc (e : Element) (name ns : string) : list Element :=
  filter (has_tag ns name) (descendants e).

(** [e.findall(".//outer/inner", {'': ns})]: for each descendant named
    [outer], in document order, its children named [inner]. *)
Definition findall_desc_child (e : Element) (outer inner ns : string)
  : list Element :=
  flat_map (fun d => filter (has_tag ns inner) (children d))
           (findall_desc e outer ns).

End ET.

(** ** The world of the script *)

(** A [requests.Response], as far as the script reads it. [headers] is the
    text [str(response.headers)]. *)
Record response := Response {
  status_code : Z;
  reason : string;
  url : string;
  headers : string;
  content : string;
  text : string
}.

(** What the script does to the outside, in the order it does it. *)
Inductive event :=
| Print (line : string)
| SocketOpen (fd : nat)
| SetTimeout (fd : nat) (seconds : Z)
| SendTo (fd : nat) (payload : string) (ip : string) (port : Z)
| RecvFrom (fd : nat) (bufsize : Z)
| SocketClose (fd : nat)
| HttpGet (url : string) (timeout : Z)
| HttpPost (url : string) (headers : list (string * string)) (body : string)
           (timeout : Z).

Definition DQ : string := String "034"%char EmptyString.
Definition NL : string := String PyStr.LF EmptyString.

(** ** The default gateway (lines 9-27) *)

Module Gateway.

(** [s.split()]: the maximal runs of characters that are not whitespace. *)
Fixpoint split_ws (s : string) : list string :=
  match s with
  | EmptyString => []
  | String c r =>
      if PyStr.is_space c then split_ws r
      else match r with
           | EmptyString => [String c EmptyString]
           | String d _ =>
               if PyStr.is_space d then String c EmptyString :: split_ws r
               else match split_ws r with
                    | h :: t => String c h :: t
                    | [] => [String c EmptyString]
                    end
           end
  end.

(** [struct.pack('<L', n)]: the four bytes of [n], the lowest first, or
    [struct.error] when [n] does not fit 32 bits. *)
Definition pack_le32 (n : Z) : outcome (list Z) :=
  if ((0 <=? n) && (n <? 2 ^ 32))%Z
  then Ret [ Z.land n 255; Z.land (Z.shiftr n 8) 255;
             Z.land (Z.shiftr n 16) 255; Z.land (Z.shiftr n 24) 255 ]
  else Raise (Exn OtherException "'L' format requires 0 <= number <= 4294967295").

(** [socket.inet_ntoa(packed)]: the bytes in decimal, joined by dots. *)
Definition inet_ntoa (packed : list Z) : string :=
  String.concat "." (map PyStr.of_Z packed).

(** What the host answers: [platform.system()], the lines of
    [/proc/net/route] as [f.readlines()] gives them (or the exception of
    [open]), the lines of the output of [netstat -rn] as
    [result.stdout.splitlines()] gives them (or the exception of
    [subprocess.run]), and [int(s, 16)]. *)
Record Host := {
  system : string;
  route_lines : outcome (list string);
  netstat_lines : outcome (list string);
  int16 : string -> outcome Z
}.

(** The loop over the lines of [/proc/net/route] (lines 13-17): [Ret None]
    when the loop runs out. *)
Fixpoint scan_route (int16 : string -> outcome Z) (lines : list string)
  : outcome (option string) :=
  match lines with
  | [] => Ret None
  | line :: rest =>
      let fields := split_ws (PyStr.strip line) in
      destination <-? index fields 1 ;
      if negb (String.eqb destination "00000000")
      then scan_route int16 rest
      else
        flags_field <-? index fields 3 ;
        flags <-? int16 flags_field ;
        if (Z.land flags 2 =? 0)%Z
        then scan_route int16 rest
        else
          gateway_field <-? index fields 2 ;
          gateway <-? int16 gateway_field ;
          packed <-? pack_le32 gateway ;
          Ret (Some (inet_ntoa packed))
  end.

(** The loop over the lines of [netstat -rn] (lines 20-24). *)
Fixpoint scan_netstat (lines : list string) : outcome (option string) :=
  match lines with
  | [] => Ret None
  | line :: rest =>
      if PyStr.startswith line "default"
      then
        let parts := split_ws line in
        if (1 <? length parts)%nat
        then part <-? index parts 1 ; Ret (Some part)
        else scan_netstat rest
      else scan_netstat rest
  end.

(** [get_default_gateway()]: what it prints and what it returns. *)
Definition get_default_gateway (host : Host) : list event * option string :=
  let body :=
    if String.eqb (system host) "Linux"
    then lines <-? route_lines host ; scan_route (int16 host) lines
    else if String.eqb (system host) "Darwin"
    then lines <-? netstat_lines host ; scan_netstat lines
    else Ret None in
  match body with
  | Ret gateway => ([], gateway)
  | Raise e => ([Print ("Error fetching default gateway: " ++ message e)], None)
  end.

(** The line of [/proc/net/route] is passed over by the loop: its
    destination is not the default one, or its flags lack the gateway bit. *)
Definition passed_over (int16 : string -> outcome Z) (line : string) : Prop :=
  let fields := split_ws (PyStr.strip line) in
  exists destination,
    nth_error fields 1 = Some destination
    /\ (destination <> "00000000"
        \/ exists flags_field flags,
             nth_error fields 3 = Some flags_field
             /\ int16 flags_field = Ret flags
             /\ Z.land flags 2 = 0%Z).

(** [int(s, 16)] on a string of hexadecimal digits, for the hosts below;
    anything else is a [ValueError]. *)
Definition hex_digit (c : ascii) : option Z :=
  let n := Z.of_nat (nat_of_ascii c) in
  if ((48 <=? n) && (n <=? 57))%Z then Some (n - 48)%Z
  else if ((65 <=? n) && (n <=? 70))%Z then Some (n - 55)%Z
  else if ((97 <=? n) && (n <=? 102))%Z then Some (n - 87)%Z
  else None.

Fixpoint hex_value (acc : Z) (s : string) : option Z :=
  match s with
  | EmptyString => Some acc
  | String c r =>
      match hex_digit c with
      | Some d => hex_value (16 * acc + d) r
      | None => None
      end
  end.

Definition hex_int (s : string) : outcome Z :=
  match s with
  | EmptyString => Raise (Exn OtherException "invalid literal for int() with base 16: ''")
  | _ =>
      match hex_value 0 s with
      | Some n => Ret n
      | None =>
          Raise (Exn OtherException
                   ("invalid literal for int() with base 16: '" ++ s ++ "'"))
      end
  end.

Definition route_header : string :=
  "Iface	Destination	Gateway 	Flags	RefCnt	Use	Metric	Mask		MTU	Window	IRTT".

(** A Linux host whose routing table has a local route before the default
    route through 192.168.1.1. *)
Definition linux_host : Host := {|
  system := "Linux";
  route_lines :=
    Ret [ route_header ++ NL;
          "eth0	0001A8C0	00000000	0001	0	0	100	00FFFFFF	0	0	0" ++ NL;
          "eth0	00000000	0101A8C0	0003	0	0	100	00000000	0	0	0" ++ NL ];
  netstat_lines := Raise (Exn OtherException "[Errno 2] No such file or directory: 'netstat'");
  int16 := hex_int
|}.

(** The same host with an empty line at the head of the table. *)
Definition linux_host_blank_line : Host := {|
  system := "Linux";
  route_lines :=
    Ret [ NL;
          "eth0	00000000	0101A8C0	0003	0	0	100	00000000	0	0	0" ++ NL ];
  netstat_lines := Raise (Exn OtherException "[Errno 2] No such file or directory: 'netstat'");
  int16 := hex_int
|}.

Definition darwin_host : Host := {|
  system := "Darwin";
  route_lines := Raise (Exn OtherException "[Errno 2] No such file or directory: '/proc/net/route'");
  netstat_lines :=
    Ret [ "Routing tables"; ""; "Internet:";
          "Destination        Gateway            Flags        Netif Expire";
          "default            192.168.1.1        UGScg          en0";
          "127                127.0.0.1          UCS            lo0";
          "default            fe80::1%en0        UGcg           en0" ];
  int16 := hex_int
|}.

End Gateway.

(** ** The outside *)

(** The answers of the outside, over a world state [W] the script cannot
    see: the host that [get_default_gateway] asks, the socket calls, the
    codec, the HTTP server and the XML parser. *)
Record Env (W : Type) := {
  env_host : W -> Gateway.Host * W;
  env_socket : W -> option exn * W;
  env_sendto : string -> string -> Z -> W -> option exn * W;
  env_recvfrom : Z -> W -> outcome string * W;
  env_encode : string -> string;
  env_decode : string -> outcome string;
  env_get : string -> W -> outcome response * W;
  env_post : string -> list (string * string) -> string -> W
             -> outcome response * W;
  env_fromstring : string -> outcome ET.Element
}.
Arguments env_host {W}.
Arguments env_socket {W}.
Arguments env_sendto {W}.
Arguments env_recvfrom {W}.
Arguments env_encode {W}.
Arguments env_decode {W}.
Arguments env_get {W}.
Arguments env_post {W}.
Arguments env_fromstring {W}.

(** What [get_default_gateway()] returns on the host of this world. *)
Definition env_gateway {W : Type} (env : Env W) (w : W) : option string * W :=
  let '(host, w') := env_host env w in
  (snd (Gateway.get_default_gateway host), w').

Record state (W : Type) := State {
  world : W;
  log : list event;
  open_socks : list nat;
  next_fd : nat
}.
Arguments State {W}.
Arguments world {W}.
Arguments log {W}.
Arguments open_socks {W}.
Arguments next_fd {W}.

(** State passing with exceptions. *)
Definition M (W A : Type) : Type := state W -> outcome A * state W.

Definition ret {W A} (a : A) : M W A := fun st => (Ret a, st).

Definition raise {W A} (e : exn) : M W A := fun st => (Raise e, st).

Definition bind {W A B} (c : M W A) (k : A -> M W B) : M W B :=
  fun st =>
    match c st with
    | (Ret a, st1) => k a st1
    | (Raise e, st1) => (Raise e, st1)
    end.

Notation "x <- c ;; k" := (bind c (fun x => k))
  (at level 61, c at next level, right associativity).
Notation "c ;; k" := (bind c (fun _ => k))
  (at level 61, right associativity).

Definition lift {W A} (x : outcome A) : M W A := fun st => (x, st).

Definition emit {W} (e : event) : M W unit :=
  fun st => (Ret tt, State (world st) (log st ++ [e])%list (open_socks st) (next_fd st)).

Definition print {W} (line : string) : M W unit := emit (Print line).

(** [try: body except ...]: [handler e] is the clause that catches [e],
    if one does. *)
Definition try_except {W A} (body : M W A) (handler : exn -> option (M W A))
  : M W A :=
  fun st =>
    match body st with
    | (Ret a, st1) => (Ret a, st1)
    | (Raise e, st1) =>
        match handler e with
        | Some h => h st1
        | None => (Raise e, st1)
        end
    end.

(** [try: body finally: final]: [final] runs on every exit of [body]; what
    it raises replaces the outcome of [body]. *)
Definition try_finally {W A} (body : M W A) (final : M W unit) : M W A :=
  fun st =>
    match body st with
    | (r, st1) =>
        match final st1 with
        | (Ret _, st2) => (r, st2)
        | (Raise e, st2) => (Raise e, st2)
        end
    end.

(** [for x in l: body x] *)
Fixpoint for_each {W A} (l : list A) (body : A -> M W unit) : M W unit :=
  match l with
  | [] => ret tt
  | x :: rest => body x ;; for_each rest body
  end.

(** [for x in l: acc = body acc x], for a loop that updates local
    variables. *)
Fixpoint for_fold {W A S} (l : list A) (acc : S) (body : S -> A -> M W S)
  : M W S :=
  match l with
  | [] => ret acc
  | x :: rest => acc' <- body acc x ;; for_fold rest acc' body
  end.

(** [bool(x)] for a string that may be [None]. *)
Definition truthy (x : option string) : bool :=
  match x with
  | Some s => PyStr.truthy s
  | None => false
  end.


(** ** The script *)

Section Run.

Context {W : Type} (env : Env W).

Local Abbreviation M := (M W).

(** *** Calls into the libraries *)

(** [get_default_gateway()] (lines 9-27), on the host of this world: what
    it prints goes to the log; it raises nothing. *)
Definition get_default_gateway : M (option string) :=
  fun st =>
    let '(host, w) := env_host env (world st) in
    let '(printed, gateway) := Gateway.get_default_gateway host in
    (Ret gateway, State w (log st ++ printed)%list (open_socks st) (next_fd st)).

(** [socket.socket(AF_INET, SOCK_DGRAM, IPPROTO_UDP)] *)
Definition socket_socket : M nat :=
  fun st =>
    let '(r, w) := env_socket env (world st) in
    match r with
    | Some e => (Raise e, State w (log st) (open_socks st) (next_fd st))
    | None =>
        let fd := next_fd st in
        (Ret fd,
         State w (log st ++ [SocketOpen fd])%list (fd :: open_socks st) (S fd))
    end.

(** [sock.settimeout(seconds)] *)
Definition settimeout (fd : nat) (seconds : Z) : M unit :=
  emit (SetTimeout fd seconds).

(** [sock.sendto(payload, (ip, port))] *)
Definition sendto (fd : nat) (payload ip : string) (port : Z) : M unit :=
  fun st =>
    let '(r, w) := env_sendto env payload ip port (world st) in
    let st1 :=
      State w (log st ++ [SendTo fd payload ip port])%list (open_socks st)
            (next_fd st) in
    match r with
    | Some e => (Raise e, st1)
    | None => (Ret tt, st1)
    end.

(** [sock.recvfrom(bufsize)], the sender's address dropped. *)
Definition recvfrom (fd : nat) (bufsize : Z) : M string :=
  fun st =>
    let '(r, w) := env_recvfrom env bufsize (world st) in
    (r, State w (log st ++ [RecvFrom fd bufsize])%list (open_socks st) (next_fd st)).

(** [sock.close()]: the descriptor leaves the open ones. *)
Definition sock_close (fd : nat) : M unit :=
  fun st =>
    (Ret tt,
     State (world st) (log st ++ [SocketClose fd])%list
           (remove Nat.eq_dec fd (open_socks st)) (next_fd st)).

(** [requests.get(url, timeout=t)] *)
Definition requests_get (url : string) (timeout : Z) : M response :=
  fun st =>
    let '(r, w) := env_get env url (world st) in
    (r, State w (log st ++ [HttpGet url timeout])%list (open_socks st) (next_fd st)).

(** [requests.post(url, data=body, headers=hs, timeout=t)] *)
Definition requests_post (url : string) (body : string)
           (hs : list (string * string)) (timeout : Z) : M response :=
  fun st =>
    let '(r, w) := env_post env url hs body (world st) in
    (r, State w (log st ++ [HttpPost url hs body timeout])%list (open_socks st)
              (next_fd st)).

(** [response.raise_for_status()]: an [HTTPError], which is a
    [RequestException], for the statuses 400..599. *)
Definition raise_for_status (r : response) : outcome unit :=
  let code := status_code r in
  let msg (kind : string) :=
    PyStr.of_Z code ++ " " ++ kind ++ " Error: " ++ reason r
      ++ " for url: " ++ url r in
  if ((400 <=? code) && (code <? 500))%Z
  then Raise (Exn RequestException (msg "Client"))
  else if ((500 <=? code) && (code <? 600))%Z
  then Raise (Exn RequestException (msg "Server"))
  else Ret tt.

(** *** [send_udp_request] (lines 29-42) *)

(** The [except] clauses of [send_udp_request], in their order; both fall
    through to the [return None] after the statement. *)
Definition udp_handlers (e : exn) : option (M (option string)) :=
  if class_eqb (class e) SocketTimeout
  then Some (print "No response from the gateway." ;; ret None)
  else Some (print ("Error sending UDP request: " ++ message e) ;; ret None).

(** The [finally] clause: [sock.close()], where [sock] is bound only if
    [socket.socket] returned. *)
Definition udp_finally (sock : option nat) : M unit :=
  match sock with
  | Some fd => sock_close fd
  | None =>
      raise (Exn UnboundLocalError
               "cannot access local variable 'sock' where it is not associated with a value")
  end.

(** The first statement of the [try] block binds [sock]; when it raises,
    [sock] stays unbound and the [finally] clause fails on it.  The value is
    that of the [return] inside the [try] block, or the [None] returned
    after a handler. *)
Definition send_udp_request (ip : string) (port : Z) (message : string)
  : M (option string) :=
  fun st =>
    let '(created, st1) := socket_socket st in
    let sock := match created with Ret fd => Some fd | Raise _ => None end in
    let body : M (option string) :=
      fd <- lift created ;;
      settimeout fd 5 ;;
      sendto fd (env_encode env message) ip port ;;
      response <- recvfrom fd 65507 ;;
      decoded <- lift (env_decode env response) ;;
      ret (Some decoded) in
    try_finally (try_except body udp_handlers) (udp_finally sock) st1.

(** *** [get_upnp_description] (lines 44-46) *)

Definition msearch (gateway_ip : string) (port : Z) : string :=
  "M-SEARCH * HTTP/1.1" ++ PyStr.CRLF
  ++ "ST: upnp:rootdevice" ++ PyStr.CRLF
  ++ "MX: 2" ++ PyStr.CRLF
  ++ "MAN: " ++ DQ ++ "ssdp:discover" ++ DQ ++ PyStr.CRLF
  ++ "HOST: " ++ gateway_ip ++ ":" ++ PyStr.of_Z port ++ PyStr.CRLF
  ++ PyStr.CRLF.

Definition get_upnp_description (gateway_ip : string) (port : Z)
  : M (option string) :=
  send_udp_request gateway_ip port (msearch gateway_ip port).

(** *** [perform_soap_request] (lines 48-69) *)

Definition soap_body (service_type action_name arguments : string) : string :=
  "<?xml version=" ++ DQ ++ "1.0" ++ DQ ++ "?>" ++ NL
  ++ "    <s:Envelope xmlns:s=" ++ DQ
  ++ "http://schemas.xmlsoap.org/soap/envelope/" ++ DQ
  ++ " s:encodingStyle=" ++ DQ
  ++ "http://schemas.xmlsoap.org/soap/encoding/" ++ DQ ++ ">" ++ NL
  ++ "        <s:Body>" ++ NL
  ++ "            <u:" ++ action_name ++ " xmlns:u=" ++ DQ ++ service_type
  ++ DQ ++ ">" ++ NL
  ++ "                " ++ arguments ++ NL
  ++ "            </u:" ++ action_name ++ ">" ++ NL
  ++ "        </s:Body>" ++ NL
  ++ "    </s:Envelope>".

Definition soap_headers (service_type action_name : string)
  : list (string * string) :=
  [ ("Content-Type", "text/xml; charset=utf-8");
    ("SOAPAction", DQ ++ service_type ++ "#" ++ action_name ++ DQ) ].

Definition soap_handlers (e : exn) : option (M (option string)) :=
  if class_eqb (class e) RequestException
  then Some (print ("Error during SOAP request: " ++ message e) ;; ret None)
  else None.

Definition perform_soap_request (control_url service_type action_name
                                 arguments : string) : M (option string) :=
  try_except
    (response <- requests_post control_url
                   (soap_body service_type action_name arguments)
                   (soap_headers service_type action_name) 5 ;;
     lift (raise_for_status response) ;;
     ret (Some (text response)))
    soap_handlers.

(** *** [get_upnp_actions] (lines 71-154) *)

Definition device_ns : string := "urn:schemas-upnp-org:device-1-0".
Definition scpd_ns : string := "urn:schemas-upnp-org:service-1-0".

(** [element.find(name, {'': ns}).text] *)
Definition find_text (e : ET.Element) (name ns : string)
  : outcome (option string) :=
  attr (ET.find e name ns) "text" ET.text.

(** [location.rsplit('/', 1)[0]] followed by the path (lines 119-120). *)
Definition join_url (location : string) (path : option string)
  : outcome string :=
  base <-? index (PyStr.rsplit1 "/" location) 0 ;
  Ret (base ++ fmt path).

(** [direction == 'out'], for a text that may be [None]. *)
Definition is_out (direction : option string) : bool :=
  match direction with
  | Some d => String.eqb d "out"
  | None => false
  end.

(** One round of the loop over the arguments of an action (lines
    137-143); the two lists are [arguments_in] and [arguments_out]. *)
Definition argument_body (acc : list (option string) * list (option string))
           (action_argument : ET.Element)
  : M (list (option string) * list (option string)) :=
  let '(arguments_in, arguments_out) := acc in
  action_argument_name <- lift (find_text action_argument "name" scpd_ns) ;;
  action_argument_direction <-
    lift (find_text action_argument "direction" scpd_ns) ;;
  print ("    - " ++ fmt action_argument_name ++ " ("
         ++ fmt action_argument_direction ++ ")") ;;
  if is_out action_argument_direction
  then ret (arguments_in, (arguments_out ++ [action_argument_name])%list)
  else ret ((arguments_in ++ [action_argument_name])%list, arguments_out).

(** The test of line 145 and the call it guards (lines 145-149). *)
Definition invoke_if_eligible (control_url : string)
           (service_type action_name : option string)
           (arguments_in : list (option string)) : M unit :=
  is_get <- lift (attr action_name "startswith"
                       (fun n => PyStr.startswith n "Get")) ;;
  if (is_get && (length arguments_in =? 0)%nat)%bool
  then
    soap_response <- perform_soap_request control_url (fmt service_type)
                       (fmt action_name) "" ;;
    if truthy soap_response
    then print ("SOAP Response for " ++ fmt action_name ++ ": "
                ++ fmt soap_response)
    else ret tt
  else ret tt.

(** One round of the loop over the actions of a service (lines
    131-149). *)
Definition action_body (control_url : string) (service_type : option string)
           (action : ET.Element) : M unit :=
  action_name <- lift (find_text action "name" scpd_ns) ;;
  print ("  - " ++ fmt action_name) ;;
  let arguments := ET.findall_desc action "argument" scpd_ns in
  acc <- for_fold arguments ([], []) argument_body ;;
  invoke_if_eligible control_url service_type action_name (fst acc).

(** What the loop over the services reads of one service (lines 111-113):
    [service_type], [control_path] and [scpd_path]. *)
Definition read_service (service : ET.Element)
  : outcome (option string * option string * option string) :=
  service_type <-? find_text service "serviceType" device_ns ;
  control_path <-? find_text service "controlURL" device_ns ;
  scpd_path <-? find_text service "SCPDURL" device_ns ;
  Ret (service_type, control_path, scpd_path).

(** The rest of the round, once the three texts are read (lines
    114-149). *)
Definition service_rest (location : string)
           (record : option string * option string * option string) : M unit :=
  let '(service_type, control_path, scpd_path) := record in
  print ("Service Type: " ++ fmt service_type) ;;
  print ("Control URL: " ++ fmt scpd_path) ;;
  print ("Control URL: " ++ fmt control_path) ;;
  scpd_url <- lift (join_url location scpd_path) ;;
  control_url <- lift (join_url location control_path) ;;
  scpd_response <- requests_get scpd_url 5 ;;
  lift (raise_for_status scpd_response) ;;
  scpd_root <- lift (env_fromstring env (content scpd_response)) ;;
  let actions := ET.findall_desc scpd_root "action" scpd_ns in
  print "Available Actions:" ;;
  for_each actions (action_body control_url service_type).

(** One round of the loop over the services (lines 111-149). *)
Definition service_body (location : string) (service : ET.Element) : M unit :=
  record <- lift (read_service service) ;;
  service_rest location record.

(** [root.findall(".//serviceList/service", namespaces)] (line 108) *)
Definition services_of (root : ET.Element) : list ET.Element :=
  ET.findall_desc_child root "serviceList" "service" device_ns.

(** From the fetch of the device description to the end of the [try]
    block (lines 95-149). *)
Definition describe_device (location : string) : M unit :=
  print ("Device description XML location: " ++ location) ;;
  xml_response <- requests_get location 5 ;;
  print ("Request to " ++ location ++ " returned status code: "
         ++ PyStr.of_Z (status_code xml_response)) ;;
  print ("Response headers: " ++ headers xml_response) ;;
  lift (raise_for_status xml_response) ;;
  root <- lift (env_fromstring env (content xml_response)) ;;
  for_each (services_of root) (service_body location).

(** From the reply of the gateway on (lines 86-149). *)
Definition after_discovery (response : string) : M unit :=
  found <- lift (extract_location response) ;;
  match found with
  | None => print "No location header found in the response."
  | Some location => describe_device location
  end.

(** The [except] clauses of [get_upnp_actions] (lines 151-154). *)
Definition actions_handlers (e : exn) : option (M unit) :=
  if class_eqb (class e) RequestException
  then Some (print ("Error while connecting to gateway: " ++ message e))
  else if class_eqb (class e) ParseError
  then Some (print ("Error parsing XML: " ++ message e))
  else None.

Definition get_upnp_actions : M unit :=
  gateway_ip <- get_default_gateway ;;
  if negb (truthy gateway_ip)
  then print "Could not determine the default gateway."
  else
    let port := 1900%Z in
    try_except
      (response <- get_upnp_description (fmt gateway_ip) port ;;
       if negb (truthy response)
       then ret tt
       else after_discovery (fmt response))
      actions_handlers.

End Run.

(** What a run has done between two states. *)
Definition emitted {W} (st st' : state W) : list event :=
  skipn (length (log st)) (log st').

Definition is_post (e : event) : bool :=
  match e with HttpPost _ _ _ _ => true | _ => false end.

Definition is_get (e : event) : bool :=
  match e with HttpGet _ _ => true | _ => false end.

(** What the loop over the arguments reads of one argument (lines 137-138):
    the text of its [name] and of its [direction]. *)
Definition argument_reads (action_argument : ET.Element)
           (p : option string * option string) : Prop :=
  find_text action_argument "name" scpd_ns = Ret (fst p)
  /\ find_text action_argument "direction" scpd_ns = Ret (snd p).

(** The line printed for an argument (line 139). *)
Definition argument_line (p : option string * option string) : event :=
  Print ("    - " ++ fmt (fst p) ++ " (" ++ fmt (snd p) ++ ")").

(** ** A gateway to run the script against *)

Module Fixture.

(** A world without memory: the gateway address, the datagram received (or
    the exception of [recvfrom]), the pages of the HTTP server, its answer
    to a POST and the documents the parser knows. *)
Record tables := Tables {
  gateway : option string;
  socket_error : option exn;
  sendto_error : option exn;
  datagram : outcome string;
  pages : list (string * outcome response);
  post_answer : outcome response;
  documents : list (string * ET.Element)
}.

Fixpoint lookup {A} (key : string) (table : list (string * A)) : option A :=
  match table with
  | [] => None
  | (k, v) :: rest => if String.eqb k key then Some v else lookup key rest
  end.

(** A macOS host whose [netstat -rn] shows the default route through
    [gateway], or no default route. *)
Definition host_of (gateway : option string) : Gateway.Host := {|
  Gateway.system := "Darwin";
  Gateway.route_lines :=
    Raise (Exn OtherException "[Errno 2] No such file or directory: '/proc/net/route'");
  Gateway.netstat_lines :=
    Ret (match gateway with
         | Some address =>
             [ "Routing tables"; "Internet:";
               "default            " ++ address ++ "        UGScg          en0" ]
         | None => [ "Routing tables"; "Internet:" ]
         end);
  Gateway.int16 := Gateway.hex_int
|}.

Definition env_of (t : tables) : Env unit := {|
  env_host := fun w => (host_of (gateway t), w);
  env_socket := fun w => (socket_error t, w);
  env_sendto := fun _ _ _ w => (sendto_error t, w);
  env_recvfrom := fun _ w => (datagram t, w);
  env_encode := fun s => s;
  env_decode := fun s => Ret s;
  env_get := fun url w =>
    (match lookup url (pages t) with
     | Some r => r
     | None => Raise (Exn RequestException "Connection refused")
     end, w);
  env_post := fun _ _ _ w => (post_answer t, w);
  env_fromstring := fun text =>
    match lookup text (documents t) with
    | Some e => Ret e
    | None => Raise (Exn ParseError "syntax error: line 1, column 0")
    end
|}.

Definition start : state unit := State tt [] [] 3.

Definition ok (url body : string) : response :=
  Response 200 "OK" url "{'Content-Type': 'text/xml'}" body body.

Definition not_found (url : string) : response :=
  Response 404 "Not Found" url "{}" "" "".

Definition dev (name : string) (text : option string)
           (children : list ET.Element) : ET.Element :=
  ET.Elem (ET.qname "urn:schemas-upnp-org:device-1-0" name) text children.

Definition svc (name : string) (text : option string)
           (children : list ET.Element) : ET.Element :=
  ET.Elem (ET.qname "urn:schemas-upnp-org:service-1-0" name) text children.

Definition service (type control scpd : string) : ET.Element :=
  dev "service" None
      [ dev "serviceType" (Some type) [];
        dev "controlURL" (Some control) [];
        dev "SCPDURL" (Some scpd) [] ].

Definition argument (name direction : string) : ET.Element :=
  svc "argument" None
      [ svc "name" (Some name) []; svc "direction" (Some direction) [] ].

Definition action (name : string) (arguments : list ET.Element)
  : ET.Element :=
  svc "action" None
      [ svc "name" (Some name) []; svc "argumentList" None arguments ].

Definition scpd (actions : list ET.Element) : ET.Element :=
  svc "scpd" None [ svc "actionList" None actions ].

Definition description (services : list ET.Element) : ET.Element :=
  dev "root" None
      [ dev "device" None
            [ dev "friendlyName" (Some "Gateway") [];
              dev "serviceList" None services ] ].

Definition wan_ip : string := "urn:schemas-upnp-org:service:WANIPConnection:1".
Definition wan_ppp : string := "urn:schemas-upnp-org:service:WANPPPConnection:1".

Definition GetExternalIPAddress : ET.Element :=
  action "GetExternalIPAddress" [ argument "NewExternalIPAddress" "out" ].

Definition SetConnectionType : ET.Element :=
  action "SetConnectionType" [ argument "NewConnectionType" "in" ].

Definition GetSpecificPortMappingEntry : ET.Element :=
  action "GetSpecificPortMappingEntry" [ argument "NewExternalPort" "in" ].

(** An action whose only argument has a direction that is neither [in]
    nor [out]. *)
Definition GetWarnings : ET.Element :=
  action "GetWarnings" [ argument "NewLevel" "inout" ].

Definition reply_with (header : string) : string :=
  "HTTP/1.1 200 OK" ++ PyStr.CRLF ++ "ST: upnp:rootdevice" ++ PyStr.CRLF
  ++ header ++ PyStr.CRLF ++ PyStr.CRLF.

Definition desc_url : string := "http://192.168.1.1:5000/desc.xml".

(** The gateway of the end-to-end scenario: one service, one action. *)
Definition gateway1 : tables := {|
  gateway := Some "192.168.1.1";
  socket_error := None;
  sendto_error := None;
  datagram := Ret (reply_with ("Location: " ++ desc_url));
  pages :=
    [ (desc_url, Ret (ok desc_url "<root/>"));
      ("http://192.168.1.1:5000/scpd.xml",
       Ret (ok "http://192.168.1.1:5000/scpd.xml" "<scpd/>")) ];
  post_answer := Ret (ok "http://192.168.1.1:5000/control" "<s:Envelope/>");
  documents :=
    [ ("<root/>", description [ service wan_ip "/control" "/scpd.xml" ]);
      ("<scpd/>", scpd [ GetExternalIPAddress ]) ]
|}.

(** The same gateway, answering the discovery with another datagram. *)
Definition answering (reply : outcome string) : tables :=
  Tables (gateway gateway1) None None reply (pages gateway1)
         (post_answer gateway1) (documents gateway1).

Definition is_print (e : event) : bool :=
  match e with Print _ => true | _ => false end.

Definition scpd1_url : string := "http://192.168.1.1:5000/scpd1.xml".
Definition scpd2_url : string := "http://192.168.1.1:5000/scpd2.xml".

(** A gateway with two services, whose HTTP server answers [scpd1] for the
    first SCPD and serves the second. *)
Definition two_services (scpd1 : outcome response) : tables := {|
  gateway := Some "192.168.1.1";
  socket_error := None;
  sendto_error := None;
  datagram := Ret (reply_with ("Location: " ++ desc_url));
  pages :=
    [ (desc_url, Ret (ok desc_url "<root/>"));
      (scpd1_url, scpd1);
      (scpd2_url, Ret (ok scpd2_url "<scpd/>")) ];
  post_answer := Ret (ok "http://192.168.1.1:5000/control2" "<s:Envelope/>");
  documents :=
    [ ("<root/>",
       description [ service wan_ppp "/control1" "/scpd1.xml";
                     service wan_ip "/control2" "/scpd2.xml" ]);
      ("<scpd/>", scpd [ GetExternalIPAddress ]) ]
|}.

(** A service element without [controlURL]. *)
Definition incomplete_service : ET.Element :=
  dev "service" None
      [ dev "serviceType" (Some wan_ppp) [];
        dev "SCPDURL" (Some "/scpd1.xml") [] ].

(** A gateway whose description lists [incomplete_service] before a
    complete service. *)
Definition with_incomplete_service : tables := {|
  gateway := Some "192.168.1.1";
  socket_error := None;
  sendto_error := None;
  datagram := Ret (reply_with ("Location: " ++ desc_url));
  pages :=
    [ (desc_url, Ret (ok desc_url "<root/>"));
      (scpd2_url, Ret (ok scpd2_url "<scpd/>")) ];
  post_answer := Ret (ok "http://192.168.1.1:5000/control2" "<s:Envelope/>");
  documents :=
    [ ("<root/>",
       description [ incomplete_service;
                     service wan_ip "/control2" "/scpd2.xml" ]);
      ("<scpd/>", scpd [ GetExternalIPAddress ]) ]
|}.

End Fixture.

(** The text of the first child of [service] named [name] is [t]. *)
Definition child_text (service : ET.Element) (name : string)
           (t : option string) : Prop :=
  exists child, ET.find service name device_ns = Some child /\ ET.text child = t.

(** [service] has the three children, with these texts. *)
Definition service_has (service : ET.Element)
           (record : option string * option string * option string) : Prop :=
  let '(service_type, control_path, scpd_path) := record in
  child_text service "serviceType" service_type
  /\ child_text service "controlURL" control_path
  /\ child_text service "SCPDURL" scpd_path.

(** [l1] is [l2] with some elements left out, the order kept. *)
Inductive subseq {A : Type} : list A -> list A -> Prop :=
| subseq_nil : subseq [] []
| subseq_skip (x : A) (l1 l2 : list A) : subseq l1 l2 -> subseq l1 (x :: l2)
| subseq_take (x : A) (l1 l2 : list A) : subseq l1 l2 -> subseq (x :: l1) (x :: l2).

(** The [service] children of the [serviceList] elements among [elements],
    list after list. *)
Definition services_among (elements : list ET.Element) : list ET.Element :=
  flat_map (fun sl => filter (ET.has_tag device_ns "service") (ET.children sl))
           (filter (ET.has_tag device_ns "serviceList") elements).

(** No [serviceList] element among [elements] has a [serviceList] below
    it. *)
Definition lists_not_nested (elements : list ET.Element) : Prop :=
  forall sl,
    In sl elements -> ET.has_tag device_ns "serviceList" sl = true ->
    ET.findall_desc sl "serviceList" device_ns = [].

(** ** Invariants of a run *)

(** [R] relates the state before and the state after [c], however [c]
    ends. *)
Definition holds_over {W A : Type} (R : state W -> state W -> Prop) (c : M W A)
  : Prop :=
  forall st, R st (snd (c st)).

(** Between the two states the log has grown by events that all satisfy
    [P]. *)
Definition emits_only {W : Type} (P : event -> Prop) (st st' : state W) : Prop :=
  exists evs, log st' = (log st ++ evs)%list /\ Forall P evs.

(** Every socket open in the second state was open in the first. *)
Definition no_new_socket {W : Type} (st st' : state W) : Prop :=
  incl (open_socks st') (open_socks st).

(** An HTTP request of the script: a GET with a timeout of 5 seconds, or
    the SOAP request, with no argument, of an action whose name starts with
    [Get], with a timeout of 5 seconds. *)
Definition guarded_request (e : event) : Prop :=
  match e with
  | HttpGet _ timeout => timeout = 5%Z
  | HttpPost _ hs body timeout =>
      timeout = 5%Z
      /\ exists service_type name,
           PyStr.startswith name "Get" = true
           /\ hs = soap_headers service_type name
           /\ body = soap_body service_type name ""
  | _ => True
  end.

(** ** More gateways *)

Module Scenario.

(** A host on which [socket.socket] is refused. *)
Definition no_socket : Fixture.tables :=
  Fixture.Tables (Some "192.168.1.1")
                 (Some (Exn OtherException "[Errno 13] Permission denied"))
                 None (Raise (Exn SocketTimeout "timed out")) [] 
                 (Raise (Exn RequestException "Connection refused")) [].

(** A host without a default gateway. *)
Definition no_gateway : Fixture.tables :=
  Fixture.Tables None None None (Raise (Exn SocketTimeout "timed out")) []
                 (Raise (Exn RequestException "Connection refused")) [].

(** The gateway of the end-to-end scenario, answering every POST with
    [answer]. *)
Definition posting (answer : outcome response) : Fixture.tables :=
  Fixture.Tables (Fixture.gateway Fixture.gateway1) None None
                 (Fixture.datagram Fixture.gateway1)
                 (Fixture.pages Fixture.gateway1) answer
                 (Fixture.documents Fixture.gateway1).


Definition control_url : string := "http://192.168.1.1:5000/control".

(** A Linux host whose routing table cannot be opened, and the world around
    it. *)
Definition unreadable_host : Gateway.Host := {|
  Gateway.system := "Linux";
  Gateway.route_lines :=
    Raise (Exn OtherException "[Errno 13] Permission denied: '/proc/net/route'");
  Gateway.netstat_lines := Ret [];
  Gateway.int16 := Gateway.hex_int
|}.

Definition unreadable_table : Env unit := {|
  env_host := fun w => (unreadable_host, w);
  env_socket := env_socket (Fixture.env_of Fixture.gateway1);
  env_sendto := env_sendto (Fixture.env_of Fixture.gateway1);
  env_recvfrom := env_recvfrom (Fixture.env_of Fixture.gateway1);
  env_encode := env_encode (Fixture.env_of Fixture.gateway1);
  env_decode := env_decode (Fixture.env_of Fixture.gateway1);
  env_get := env_get (Fixture.env_of Fixture.gateway1);
  env_post := env_post (Fixture.env_of Fixture.gateway1);
  env_fromstring := env_fromstring (Fixture.env_of Fixture.gateway1)
|}.

(** An action whose only argument has the direction [Out], with a
    capital. *)
Definition GetStatusInfo : ET.Element :=
  Fixture.action "GetStatusInfo" [ Fixture.argument "NewConnectionStatus" "Out" ].

(** An action element without a [name] child. *)
Definition nameless_action : ET.Element :=
  Fixture.svc "action" None [ Fixture.svc "argumentList" None [] ].

(** An action element whose [name] child is empty. *)
Definition empty_name_action : ET.Element :=
  Fixture.svc "action" None [ Fixture.svc "name" None [] ].

(** The gateway of the end-to-end scenario, whose SCPD declares
    [actions]. *)
Definition declaring (actions : list ET.Element) : Fixture.tables :=
  Fixture.Tables (Fixture.gateway Fixture.gateway1) None None
                 (Fixture.datagram Fixture.gateway1)
                 (Fixture.pages Fixture.gateway1)
                 (Fixture.post_answer Fixture.gateway1)
                 [ ("<root/>",
                    Fixture.description
                      [ Fixture.service Fixture.wan_ip "/control" "/scpd.xml" ]);
                   ("<scpd/>", Fixture.scpd actions) ].

Definition layer3 : string := "urn:schemas-upnp-org:service:Layer3Forwarding:1".

Definition scpd3_url : string := "http://192.168.1.1:5000/scpd3.xml".

(** A description whose [serviceList] holds, between two services, an
    embedded device with a [serviceList] of its own. *)
Definition nested_description : ET.Element :=
  Fixture.dev "root" None
    [ Fixture.dev "device" None
        [ Fixture.dev "serviceList" None
            [ Fixture.service Fixture.wan_ppp "/control1" "/scpd1.xml";
              Fixture.dev "device" None
                [ Fixture.dev "serviceList" None
                    [ Fixture.service Fixture.wan_ip "/control2" "/scpd2.xml" ] ];
              Fixture.service layer3 "/control3" "/scpd3.xml" ] ] ].

(** A gateway that serves [nested_description] and the three SCPDs. *)
Definition nested_lists : Fixture.tables := {|
  Fixture.gateway := Some "192.168.1.1";
  Fixture.socket_error := None;
  Fixture.sendto_error := None;
  Fixture.datagram := Ret (Fixture.reply_with ("Location: " ++ Fixture.desc_url));
  Fixture.pages :=
    [ (Fixture.desc_url, Ret (Fixture.ok Fixture.desc_url "<root/>"));
      (Fixture.scpd1_url, Ret (Fixture.ok Fixture.scpd1_url "<scpd/>"));
      (Fixture.scpd2_url, Ret (Fixture.ok Fixture.scpd2_url "<scpd/>"));
      (scpd3_url, Ret (Fixture.ok scpd3_url "<scpd/>")) ];
  Fixture.post_answer :=
    Ret (Fixture.ok "http://192.168.1.1:5000/control" "<s:Envelope/>");
  Fixture.documents :=
    [ ("<root/>", nested_description);
      ("<scpd/>", Fixture.scpd [ Fixture.SetConnectionType ]) ]
|}.

End Scenario.

(** What the loop over the actions reads of one action: its name and, of
    each of its arguments, the name and the direction. *)
Definition action_reads (action : ET.Element)
           (p : string * list (option string * option string)) : Prop :=
  find_text action "name" scpd_ns = Ret (Some (fst p))
  /\ Forall2 argument_reads (ET.findall_desc action "argument" scpd_ns) (snd p).

(** The test of line 145 on what was read of an action. *)
Definition passes_test (p : string * list (option string * option string)) : bool :=
  PyStr.startswith (fst p) "Get" && forallb (fun a => is_out (snd a)) (snd p).

(** The SOAP request for an action. *)
Definition soap_post (control_url : string) (service_type : option string)
           (p : string * list (option string * option string)) : event :=
  HttpPost control_url (soap_headers (fmt service_type) (fst p))
           (soap_body (fmt service_type) (fst p) "") 5.

(** ** The way to the services *)

(** [location.rsplit('/', 1)[0]] *)
Definition url_base (location : string) : string :=
  match PyStr.rcut "/" location with
  | Some (h, _) => h
  | None => location
  end.

(** The state of a run once the device description at [location] has been
    fetched, with the answer [xml], from the state [st2] in which the reply
    of the gateway was received. *)
Definition described {W : Type} (st2 : state W) (location : string)
           (xml : response) (w3 : W) : state W :=
  State w3
        (log st2
         ++ [ Print ("Device description XML location: " ++ location);
              HttpGet location 5;
              Print ("Request to " ++ location ++ " returned status code: "
                     ++ PyStr.of_Z (status_code xml));
              Print ("Response headers: " ++ headers xml) ])%list
        (open_socks st2) (next_fd st2).

(** What a round of the loop over the services does first: it prints the
    three texts it read and fetches the SCPD. *)
Definition service_events (location : string)
           (record : option string * option string * option string)
  : list event :=
  let '(service_type, control_path, scpd_path) := record in
  [ Print ("Service Type: " ++ fmt service_type);
    Print ("Control URL: " ++ fmt scpd_path);
    Print ("Control URL: " ++ fmt control_path);
    HttpGet (url_base location ++ fmt scpd_path) 5 ].

(** The fetch of the SCPD of a service. *)
Definition scpd_fetch (location : string)
           (record : option string * option string * option string) : event :=
  HttpGet (url_base location ++ fmt (snd record)) 5.

(** The state of a round once the SCPD of the service is fetched and
    parsed, and the actions are announced. *)
Definition announced {W : Type} (st4 : state W) (location : string)
           (record : option string * option string * option string) (w5 : W)
  : state W :=
  State w5
        (log st4 ++ service_events location record
         ++ [Print "Available Actions:"])%list
        (open_socks st4) (next_fd st4).

(** The line of an [except] clause of [get_upnp_actions] (lines 152 and
    154). *)
Definition reports_failure (e : event) : bool :=
  match e with
  | Print line =>
      PyStr.startswith line "Error while connecting to gateway: "
      || PyStr.startswith line "Error parsing XML: "
  | _ => false
  end.

(** ** Tactics *)

(** Brings a log built by successive [emit]s to the form [l ++ [e1; ...]]. *)
Ltac flat_log := repeat (rewrite <- app_assoc; simpl app).

(** Unfolds the state passing of [send_udp_request]. *)
Ltac unfold_udp :=
  unfold send_udp_request, udp_handlers, udp_finally, socket_socket,
    try_finally, try_except, settimeout, sendto, recvfrom, sock_close, print,
    bind, lift, emit, ret, raise;
  cbn [world log open_socks next_fd].

(** Unfolds one layer of state passing. *)
Ltac unfold_m :=
  unfold bind, lift, print, emit, ret, raise;
  cbn [world log open_socks next_fd].

(** ** Properties of the string operations *)

Section StringFacts.

Import PyStr.

Lemma lower_app (a b : string) : lower (a ++ b) = lower a ++ lower b.
Proof.
  induction a as [|c a IH]; simpl; [reflexivity | now rewrite IH].
Qed.

Lemma startswith_app (p s : string) : startswith (p ++ s) p = true.
Proof.
  unfold startswith.
  induction p as [|c p IH]; simpl.
  - now destruct s.
  - destruct (ascii_dec c c) as [_|ne]; [exact IH | now elim ne].
Qed.

Lemma lower_char_space (c : ascii) :
  Ascii.eqb c " " = true -> Ascii.eqb (lower_char c) " " = true.
Proof.
  intros H. apply Ascii.eqb_eq in H. now subst c.
Qed.

(** Lowering a string neither adds nor removes a space. *)
Lemma mem_space_lower (s : string) :
  mem " " (lower s) = false -> mem " " s = false.
Proof.
  induction s as [|c s IH]; simpl; [reflexivity|].
  intros H. apply orb_false_iff in H as [Hc Hs].
  apply orb_false_iff. split; [|now apply IH].
  destruct (Ascii.eqb c " ") eqn:E; [|reflexivity].
  apply lower_char_space in E. congruence.
Qed.

Lemma cut_app (c : ascii) (h r : string) :
  mem c h = false -> cut c (h ++ String c r) = Some (h, r).
Proof.
  induction h as [|a h IH]; simpl.
  - intros _. now rewrite Ascii.eqb_refl.
  - intros H. apply orb_false_iff in H as [Ha Hh].
    rewrite Ha, (IH Hh). reflexivity.
Qed.

Lemma cut_absent (c : ascii) (s : string) :
  mem c s = false -> cut c s = None.
Proof.
  induction s as [|a s IH]; simpl; [reflexivity|].
  intros H. apply orb_false_iff in H as [Ha Hs].
  now rewrite Ha, (IH Hs).
Qed.

Lemma lstrip_spaces (p s : string) :
  all_space p = true -> lstrip (p ++ s) = lstrip s.
Proof.
  induction p as [|a p IH]; simpl; [reflexivity|].
  intros H. apply andb_true_iff in H as [Ha Hp].
  now rewrite Ha, (IH Hp).
Qed.

Lemma lstrip_all_space (p : string) : all_space p = true -> lstrip p = "".
Proof.
  induction p as [|a p IH]; simpl; [reflexivity|].
  intros H. apply andb_true_iff in H as [Ha Hp].
  now rewrite Ha, (IH Hp).
Qed.

Lemma rstrip_all_space (p : string) : all_space p = true -> rstrip p = "".
Proof.
  induction p as [|a p IH]; simpl; [reflexivity|].
  intros H. apply andb_true_iff in H as [Ha Hp].
  now rewrite (IH Hp), Ha.
Qed.

Lemma rstrip_spaces (s p : string) :
  all_space p = true -> rstrip (s ++ p) = rstrip s.
Proof.
  intros Hp. induction s as [|a s IH]; simpl.
  - now apply rstrip_all_space.
  - now rewrite IH.
Qed.

Lemma lstrip_app (u p : string) :
  lstrip u <> "" -> lstrip (u ++ p) = lstrip u ++ p.
Proof.
  induction u as [|a u IH]; simpl; [congruence|].
  destruct (is_space a); [exact IH | reflexivity].
Qed.

(** Padding a trimmed text with whitespace on both sides and stripping
    gives the text back. *)
Lemma strip_padded (pad1 u pad2 : string) :
  all_space pad1 = true -> all_space pad2 = true -> strip u = u ->
  strip (pad1 ++ u ++ pad2) = u.
Proof.
  intros H1 H2 Hu. unfold strip in *.
  rewrite (lstrip_spaces _ _ H1).
  destruct (string_dec (lstrip u) "") as [E|E].
  - rewrite E in Hu. simpl in Hu. subst u. simpl.
    now rewrite (lstrip_all_space _ H2).
  - rewrite lstrip_app by assumption.
    now rewrite rstrip_spaces.
Qed.

End StringFacts.

(** ** The location of the device description *)

Lemma find_location_skip (before rest : list string) :
  Forall (fun l => is_location_line l = false) before ->
  find_location (before ++ rest) = find_location rest.
Proof.
  induction 1 as [|l before Hl _ IH]; simpl; [reflexivity|].
  now rewrite Hl.
Qed.

Lemma find_location_absent (lines : list string) :
  Forall (fun l => is_location_line l = false) lines ->
  find_location lines = Ret None.
Proof.
  intros H. rewrite <- (app_nil_r lines). now rewrite find_location_skip.
Qed.

Lemma header_is_location_line (hdr rest : string) :
  PyStr.lower hdr = "location:" -> is_location_line (hdr ++ rest) = true.
Proof.
  intros H. unfold is_location_line.
  rewrite lower_app, H. apply startswith_app.
Qed.

Lemma header_has_no_space (hdr : string) :
  PyStr.lower hdr = "location:" -> PyStr.mem " " hdr = false.
Proof.
  intros H. apply mem_space_lower. now rewrite H.
Qed.

(** C3, as the code has it.  When the first line that starts with
    [location:], in any letter case, has a space right after the header name,
    the location is what follows that first space, stripped of whitespace on
    both sides, whatever the case of the header name; so a URL that follows
    the space, padded with any whitespace, is extracted exactly. *)
Theorem location_after_first_space
        (reply : string) (before after : list string) (hdr rest : string) :
  PyStr.split_crlf reply = (before ++ (hdr ++ " " ++ rest)%string :: after)%list ->
  Forall (fun l => is_location_line l = false) before ->
  PyStr.lower hdr = "location:" ->
  extract_location reply = Ret (Some (PyStr.strip rest))
  /\ (forall pad1 url pad2 : string,
         rest = pad1 ++ url ++ pad2 ->
         PyStr.all_space pad1 = true -> PyStr.all_space pad2 = true ->
         PyStr.strip url = url ->
         extract_location reply = Ret (Some url)).
Proof.
  intros Hsplit Hbefore Hhdr.
  assert (E : extract_location reply = Ret (Some (PyStr.strip rest))).
  { unfold extract_location. rewrite Hsplit, find_location_skip by assumption.
    simpl find_location.
    rewrite header_is_location_line by assumption.
    unfold PyStr.split1. simpl append.
    rewrite cut_app by now apply header_has_no_space.
    reflexivity. }
  split; [exact E|].
  intros pad1 url pad2 Hrest H1 H2 Hurl.
  rewrite E, Hrest, strip_padded by assumption. reflexivity.
Qed.

Lemma location_after_first_space_witness :
  let url := "http://192.168.1.1:5000/desc.xml" in
  extract_location (Fixture.reply_with ("LoCaTiOn:   " ++ url ++ " "))
  = Ret (Some url).
Proof.
  intros url.
  apply (location_after_first_space
           (Fixture.reply_with ("LoCaTiOn:   " ++ url ++ " "))
           ["HTTP/1.1 200 OK"; "ST: upnp:rootdevice"] [""; ""]
           "LoCaTiOn:" ("  " ++ url ++ " ")) with (pad1 := "  ") (pad2 := " ").
  - reflexivity.
  - repeat constructor.
  - reflexivity.
  - reflexivity.
  - reflexivity.
  - reflexivity.
  - reflexivity.
Defined.

(** C3 as stated fails: with a tab between the header name and the URL the
    subscript raises, and with a tab before and a space after the URL the
    location comes out empty. *)
Lemma location_after_tab_counterexample :
  let url := "http://192.168.1.1:5000/desc.xml" in
  let tabbed := "Location:" ++ String PyStr.TAB url in
  extract_location (Fixture.reply_with tabbed)
  = Raise (Exn IndexError "list index out of range")
  /\ extract_location (Fixture.reply_with tabbed) <> Ret (Some url)
  /\ extract_location (Fixture.reply_with (tabbed ++ " ")) = Ret (Some "").
Proof.
  repeat split; try reflexivity. discriminate.
Qed.

(** C10.  When the first line that starts with [location:] holds no space
    character, the subscript [[1]] raises [IndexError]: no location comes
    out, the [else] branch of the loop is not taken, and no [except] clause
    of [get_upnp_actions] catches the exception. *)
Theorem location_without_space_raises
        (reply : string) (before after : list string) (line : string) :
  PyStr.split_crlf reply = (before ++ line :: after)%list ->
  Forall (fun l => is_location_line l = false) before ->
  is_location_line line = true ->
  PyStr.mem " " line = false ->
  extract_location reply = Raise (Exn IndexError "list index out of range")
  /\ (forall (W : Type) (env : Env W) (st : state W),
         try_except (after_discovery env reply) actions_handlers st
         = (Raise (Exn IndexError "list index out of range"), st)).
Proof.
  intros Hsplit Hbefore Hline Hspace.
  assert (E : extract_location reply
              = Raise (Exn IndexError "list index out of range")).
  { unfold extract_location. rewrite Hsplit, find_location_skip by assumption.
    simpl. rewrite Hline. unfold PyStr.split1.
    now rewrite cut_absent. }
  split; [exact E|].
  intros W env st. unfold try_except, after_discovery, bind, lift.
  now rewrite E.
Qed.

Lemma location_without_space_raises_witness :
  let url := "http://192.168.1.1:5000/desc.xml" in
  extract_location (Fixture.reply_with ("LOCATION:" ++ url))
  = Raise (Exn IndexError "list index out of range")
  /\ extract_location (Fixture.reply_with ("Location:" ++ String PyStr.TAB url))
     = Raise (Exn IndexError "list index out of range").
Proof.
  intros url. split.
  - apply (location_without_space_raises
             (Fixture.reply_with ("LOCATION:" ++ url))
             ["HTTP/1.1 200 OK"; "ST: upnp:rootdevice"] [""; ""]
             ("LOCATION:" ++ url)).
    + reflexivity.
    + repeat constructor.
    + reflexivity.
    + reflexivity.
  - apply (location_without_space_raises
             (Fixture.reply_with ("Location:" ++ String PyStr.TAB url))
             ["HTTP/1.1 200 OK"; "ST: upnp:rootdevice"] [""; ""]
             ("Location:" ++ String PyStr.TAB url)).
    + reflexivity.
    + repeat constructor.
    + reflexivity.
    + reflexivity.
Defined.

(** ** Logs *)

Lemma emitted_app {W} (st st' : state W) (evs : list event) :
  log st' = (log st ++ evs)%list -> emitted st st' = evs.
Proof.
  intros H. unfold emitted. rewrite H.
  rewrite skipn_app, skipn_all, Nat.sub_diag. reflexivity.
Qed.

Lemma emitted_same {W} (st st' : state W) :
  log st' = log st -> emitted st st' = [].
Proof.
  intros H. apply emitted_app. now rewrite app_nil_r.
Qed.


(** ** The discovery exchange *)

Section Discovery.

Context {W : Type} (env : Env W).

(** A lookup that returns an address has printed nothing. *)
Lemma gateway_found (st : state W) (gw : string) (w1 : W) :
  env_gateway env (world st) = (Some gw, w1) ->
  get_default_gateway env st
  = (Ret (Some gw), State w1 (log st) (open_socks st) (next_fd st)).
Proof.
  unfold env_gateway, get_default_gateway, Gateway.get_default_gateway.
  destruct (env_host env (world st)) as [host w].
  match goal with
  | |- context [match ?body with Ret _ => _ | Raise _ => _ end] =>
      destruct body as [gateway|e]
  end; cbn [snd]; intros H; [|discriminate].
  injection H as -> ->. now rewrite app_nil_r.
Qed.

(** Once the gateway has answered, the run goes on with the reply, inside
    the [try] block of [get_upnp_actions]. *)
Lemma get_upnp_actions_discovered (st st2 : state W) (gw reply : string) (w1 : W) :
  env_gateway env (world st) = (Some gw, w1) ->
  PyStr.truthy gw = true ->
  get_upnp_description env gw 1900
    (State w1 (log st) (open_socks st) (next_fd st)) = (Ret (Some reply), st2) ->
  get_upnp_actions env st
  = if PyStr.truthy reply
    then try_except (after_discovery env reply) actions_handlers st2
    else (Ret tt, st2).
Proof.
  intros Hgw Htrue Hreply.
  unfold get_upnp_actions, bind at 1.
  rewrite (gateway_found st gw w1 Hgw).
  change (truthy (Some gw)) with (PyStr.truthy gw).
  rewrite Htrue. change (negb true) with false. cbv beta iota.
  unfold try_except at 1, bind at 1. change (fmt (Some gw)) with gw.
  rewrite Hreply.
  change (truthy (Some reply)) with (PyStr.truthy reply).
  destruct (PyStr.truthy reply); reflexivity.
Qed.

End Discovery.

(** C7, as the code has it.  When the gateway answers a reply that is not
    empty and has no line starting with [location:], in any letter case, the
    run prints that no location header was found and returns: it fetches
    nothing and goes no further. *)
Theorem missing_location_reported
        {W : Type} (env : Env W) (st st2 : state W) (gw reply : string) (w1 : W) :
  env_gateway env (world st) = (Some gw, w1) ->
  PyStr.truthy gw = true ->
  get_upnp_description env gw 1900
    (State w1 (log st) (open_socks st) (next_fd st)) = (Ret (Some reply), st2) ->
  reply <> "" ->
  Forall (fun l => is_location_line l = false) (PyStr.split_crlf reply) ->
  get_upnp_actions env st
  = (Ret tt,
     State (world st2)
           (log st2 ++ [Print "No location header found in the response."])
           (open_socks st2) (next_fd st2)).
Proof.
  intros Hgw Htrue Hreply Hne Hlines.
  rewrite (get_upnp_actions_discovered env st st2 gw reply w1) by assumption.
  destruct reply as [|c reply]; [now elim Hne|]. simpl PyStr.truthy. cbv iota.
  unfold try_except, after_discovery, bind, lift, extract_location.
  rewrite find_location_absent by assumption. reflexivity.
Qed.

Lemma missing_location_reported_witness :
  let env := Fixture.env_of (Fixture.answering (Ret (Fixture.reply_with "Server: x"))) in
  filter Fixture.is_print (log (snd (get_upnp_actions env Fixture.start)))
  = [Print "No location header found in the response."].
Proof.
  intros env.
  rewrite (missing_location_reported env Fixture.start
             (snd (get_upnp_description env "192.168.1.1" 1900 Fixture.start))
             "192.168.1.1" (Fixture.reply_with "Server: x") tt).
  - reflexivity.
  - reflexivity.
  - reflexivity.
  - reflexivity.
  - discriminate.
  - repeat constructor.
Defined.

(** C7 as stated fails on the empty reply: it has no location line, and the
    run returns without printing anything. *)
Lemma empty_reply_counterexample :
  let env := Fixture.env_of (Fixture.answering (Ret "")) in
  Forall (fun l => is_location_line l = false) (PyStr.split_crlf "")
  /\ fst (get_upnp_actions env Fixture.start) = Ret tt
  /\ filter Fixture.is_print (log (snd (get_upnp_actions env Fixture.start))) = []
  /\ filter is_get (log (snd (get_upnp_actions env Fixture.start))) = [].
Proof.
  repeat split. repeat constructor.
Qed.

(** ** The UDP socket *)


(** C9.  Every socket that [send_udp_request] opens is closed when it
    returns or raises: closing it is the last thing done and the descriptor
    is no longer among the open ones.  In particular the exchange ends so
    after a successful receive, after a receive timeout and after an error
    of [sendto] or [recvfrom]. *)
Theorem udp_socket_released
        {W : Type} (env : Env W) (ip : string) (port : Z) (message : string)
        (st : state W) :
  let fd := next_fd st in
  let payload := env_encode env message in
  (forall r st',
      send_udp_request env ip port message st = (r, st') ->
      forall s, In (SocketOpen s) (emitted st st') ->
                last (emitted st st') (Print "") = SocketClose s
                /\ ~ In s (open_socks st'))
  /\ (forall w1 w2 w3 data text,
         env_socket env (world st) = (None, w1) ->
         env_sendto env payload ip port w1 = (None, w2) ->
         env_recvfrom env 65507 w2 = (Ret data, w3) ->
         env_decode env data = Ret text ->
         send_udp_request env ip port message st
         = (Ret (Some text),
            State w3
                  (log st ++ [SocketOpen fd; SetTimeout fd 5;
                              SendTo fd payload ip port; RecvFrom fd 65507;
                              SocketClose fd])
                  (remove Nat.eq_dec fd (open_socks st)) (S fd)))
  /\ (forall w1 w2 w3 e,
         env_socket env (world st) = (None, w1) ->
         env_sendto env payload ip port w1 = (None, w2) ->
         env_recvfrom env 65507 w2 = (Raise e, w3) ->
         class e = SocketTimeout ->
         send_udp_request env ip port message st
         = (Ret None,
            State w3
                  (log st ++ [SocketOpen fd; SetTimeout fd 5;
                              SendTo fd payload ip port; RecvFrom fd 65507;
                              Print "No response from the gateway.";
                              SocketClose fd])
                  (remove Nat.eq_dec fd (open_socks st)) (S fd)))
  /\ (forall w1 w2 w3 e,
         env_socket env (world st) = (None, w1) ->
         env_sendto env payload ip port w1 = (None, w2) ->
         env_recvfrom env 65507 w2 = (Raise e, w3) ->
         class e <> SocketTimeout ->
         send_udp_request env ip port message st
         = (Ret None,
            State w3
                  (log st ++ [SocketOpen fd; SetTimeout fd 5;
                              SendTo fd payload ip port; RecvFrom fd 65507;
                              Print ("Error sending UDP request: " ++ Py.message e);
                              SocketClose fd])
                  (remove Nat.eq_dec fd (open_socks st)) (S fd)))
  /\ (forall w1 w2 e,
         env_socket env (world st) = (None, w1) ->
         env_sendto env payload ip port w1 = (Some e, w2) ->
         class e <> SocketTimeout ->
         send_udp_request env ip port message st
         = (Ret None,
            State w2
                  (log st ++ [SocketOpen fd; SetTimeout fd 5;
                              SendTo fd payload ip port;
                              Print ("Error sending UDP request: " ++ Py.message e);
                              SocketClose fd])
                  (remove Nat.eq_dec fd (open_socks st)) (S fd))).
Proof.
  intros fd payload.
  assert (Hclass : forall e, class e <> SocketTimeout ->
                             class_eqb (class e) SocketTimeout = false).
  { intros e H. destruct (class e); try reflexivity. now elim H. }
  split; [|repeat split].
  - intros r st' Hrun s Hopen.
    revert Hrun. unfold_udp.
    destruct (env_socket env (world st)) as [[e|] w1].
    { (* no socket was opened *)
      cbn [world log open_socks next_fd].
      destruct (class_eqb (class e) SocketTimeout);
        cbn [world log open_socks next_fd]; intros Hrun;
        injection Hrun as _ <-;
        rewrite (emitted_app st _ [Print _]) in Hopen by reflexivity;
        destruct Hopen as [Hopen|[]]; discriminate. }
    cbn [world log open_socks next_fd].
    destruct (env_sendto env (env_encode env message) ip port w1) as [[e|] w2];
      cbn [world log open_socks next_fd].
    2: destruct (env_recvfrom env 65507 w2) as [[data|e] w3];
      cbn [world log open_socks next_fd].
    2: destruct (env_decode env data) as [text|e];
      cbn [world log open_socks next_fd].
    1,3,4: destruct (class_eqb (class e) SocketTimeout);
      cbn [world log open_socks next_fd].
    all: intros Hrun; injection Hrun as _ <-;
      revert Hopen; cbn [open_socks log]; flat_log;
      (erewrite emitted_app by (cbn [log]; reflexivity));
      cbn [In]; intros Hopen;
      repeat (destruct Hopen as [Hopen|Hopen]; try discriminate Hopen);
      try contradiction;
      injection Hopen as <-;
      (split; [reflexivity|]);
      change (~ In (next_fd st)
                (remove Nat.eq_dec (next_fd st) (next_fd st :: open_socks st)));
      apply remove_In.
  - intros w1 w2 w3 data text H1 H2 H3 H4.
    rewrite <- (remove_cons Nat.eq_dec fd (open_socks st)). unfold_udp.
    rewrite H1. cbn [world log open_socks next_fd]. fold payload. rewrite H2.
    cbn [world log open_socks next_fd]. rewrite H3, H4.
    cbn [world log open_socks next_fd]. flat_log.
    reflexivity.
  - intros w1 w2 w3 e H1 H2 H3 H4.
    rewrite <- (remove_cons Nat.eq_dec fd (open_socks st)). unfold_udp.
    rewrite H1. cbn [world log open_socks next_fd]. fold payload. rewrite H2.
    cbn [world log open_socks next_fd]. rewrite H3, H4.
    cbn [world log open_socks next_fd class_eqb]. flat_log.
    reflexivity.
  - intros w1 w2 w3 e H1 H2 H3 H4.
    rewrite <- (remove_cons Nat.eq_dec fd (open_socks st)). unfold_udp.
    rewrite H1. cbn [world log open_socks next_fd]. fold payload. rewrite H2.
    cbn [world log open_socks next_fd]. rewrite H3, (Hclass e H4).
    cbn [world log open_socks next_fd]. flat_log.
    reflexivity.
  - intros w1 w2 e H1 H2 H3.
    rewrite <- (remove_cons Nat.eq_dec fd (open_socks st)). unfold_udp.
    rewrite H1. cbn [world log open_socks next_fd]. fold payload. rewrite H2.
    cbn [world log open_socks next_fd]. rewrite (Hclass e H3).
    cbn [world log open_socks next_fd]. flat_log.
    reflexivity.
Qed.

Lemma udp_socket_released_witness :
  let ok := Fixture.env_of Fixture.gateway1 in
  let timeout :=
    Fixture.env_of (Fixture.answering (Raise (Exn SocketTimeout "timed out"))) in
  let failing :=
    Fixture.env_of
      (Fixture.answering (Raise (Exn OtherException "[Errno 111] Connection refused"))) in
  let run env := send_udp_request env "192.168.1.1" 1900 "M-SEARCH" Fixture.start in
  (fst (run ok) = Ret (Some (Fixture.reply_with ("Location: " ++ Fixture.desc_url)))
   /\ open_socks (snd (run ok)) = [])
  /\ (fst (run timeout) = Ret None /\ open_socks (snd (run timeout)) = [])
  /\ (fst (run failing) = Ret None /\ open_socks (snd (run failing)) = [])
  /\ ~ In 3 (open_socks (snd (run ok))).
Proof.
  intros ok timeout failing run.
  destruct (udp_socket_released ok "192.168.1.1" 1900 "M-SEARCH" Fixture.start)
    as (Hall & Hok & _).
  destruct (udp_socket_released timeout "192.168.1.1" 1900 "M-SEARCH" Fixture.start)
    as (_ & _ & Htimeout & _).
  destruct (udp_socket_released failing "192.168.1.1" 1900 "M-SEARCH" Fixture.start)
    as (_ & _ & _ & Hfailing & _).
  split; [split | split; [split | split; [split|]]].
  - unfold run. now rewrite (Hok tt tt tt _ _ eq_refl eq_refl eq_refl eq_refl).
  - unfold run. now rewrite (Hok tt tt tt _ _ eq_refl eq_refl eq_refl eq_refl).
  - unfold run. now rewrite (Htimeout tt tt tt _ eq_refl eq_refl eq_refl eq_refl).
  - unfold run. now rewrite (Htimeout tt tt tt _ eq_refl eq_refl eq_refl eq_refl).
  - unfold run.
    rewrite (Hfailing tt tt tt _ eq_refl eq_refl eq_refl); [reflexivity | discriminate].
  - unfold run.
    rewrite (Hfailing tt tt tt _ eq_refl eq_refl eq_refl); [reflexivity | discriminate].
  - apply (Hall (fst (run ok)) (snd (run ok))).
    + reflexivity.
    + vm_compute. left. reflexivity.
Defined.

(** ** Arguments and their directions *)


Lemma argument_body_reads
      {W : Type} (st : state W) (arguments_in arguments_out : list (option string))
      (action_argument : ET.Element) (p : option string * option string) :
  argument_reads action_argument p ->
  argument_body (arguments_in, arguments_out) action_argument st
  = (Ret (if is_out (snd p)
          then (arguments_in, (arguments_out ++ [fst p])%list)
          else ((arguments_in ++ [fst p])%list, arguments_out)),
     State (world st) (log st ++ [argument_line p]) (open_socks st) (next_fd st)).
Proof.
  intros [Hname Hdir]. unfold argument_body. unfold_m.
  rewrite Hname, Hdir. unfold_m.
  destruct (is_out (snd p)); reflexivity.
Qed.

Lemma is_out_iff (d : option string) : is_out d = true <-> d = Some "out".
Proof.
  destruct d as [d|]; simpl.
  - rewrite String.eqb_eq. split; [now intros ->| now intros [= ->]].
  - split; discriminate.
Qed.

(** C6, as the code has it.  An argument whose direction is exactly [out]
    goes to [arguments_out]; an argument with any other direction, unknown
    values and a missing text included, goes to [arguments_in]; in both
    cases the argument is printed and nothing is raised. *)
Theorem direction_other_than_out_is_input
        {W : Type} (st : state W) (arguments_in arguments_out : list (option string))
        (action_argument : ET.Element) (name direction : option string) :
  argument_reads action_argument (name, direction) ->
  let st' :=
    State (world st)
          (log st ++ [Print ("    - " ++ fmt name ++ " (" ++ fmt direction ++ ")")])
          (open_socks st) (next_fd st) in
  (direction <> Some "out" ->
   argument_body (arguments_in, arguments_out) action_argument st
   = (Ret ((arguments_in ++ [name])%list, arguments_out), st'))
  /\ (direction = Some "out" ->
      argument_body (arguments_in, arguments_out) action_argument st
      = (Ret (arguments_in, (arguments_out ++ [name])%list), st')).
Proof.
  intros Hreads st'.
  rewrite (argument_body_reads st _ _ _ _ Hreads). cbn [fst snd].
  split; intros Hdir.
  - destruct (is_out direction) eqn:E; [|reflexivity].
    apply is_out_iff in E. contradiction.
  - apply is_out_iff in Hdir. now rewrite Hdir.
Qed.

Lemma direction_other_than_out_is_input_witness :
  argument_body ([], []) (Fixture.argument "NewLevel" "IN") Fixture.start
  = (Ret ([Some "NewLevel"], []),
     State tt [Print "    - NewLevel (IN)"] [] 3).
Proof.
  apply (direction_other_than_out_is_input
           Fixture.start [] [] (Fixture.argument "NewLevel" "IN")
           (Some "NewLevel") (Some "IN")).
  - split; reflexivity.
  - discriminate.
Defined.

(** C6 as stated fails: the direction [inout] is no parse error, and the
    argument is counted as an input. *)
Lemma unknown_direction_counterexample :
  let action_argument := Fixture.argument "NewLevel" "inout" in
  argument_reads action_argument (Some "NewLevel", Some "inout")
  /\ fst (argument_body ([], []) action_argument Fixture.start)
     = Ret ([Some "NewLevel"], []).
Proof.
  repeat split.
Qed.

Lemma arguments_loop
      {W : Type} (arguments : list ET.Element)
      (parsed : list (option string * option string)) :
  Forall2 argument_reads arguments parsed ->
  forall (st : state W) (arguments_in arguments_out : list (option string)),
    for_fold arguments (arguments_in, arguments_out) argument_body st
    = (Ret ((arguments_in
             ++ map fst (filter (fun p => negb (is_out (snd p))) parsed))%list,
            (arguments_out
             ++ map fst (filter (fun p => is_out (snd p)) parsed))%list),
       State (world st) (log st ++ map argument_line parsed)
             (open_socks st) (next_fd st)).
Proof.
  induction 1 as [|a p arguments parsed Hreads _ IH]; intros st ins outs.
  - simpl. unfold ret. rewrite !app_nil_r. now destruct st.
  - cbn [for_fold]. unfold bind at 1.
    rewrite (argument_body_reads st _ _ _ _ Hreads).
    destruct (is_out (snd p)) eqn:E; rewrite IH;
      cbn [world log open_socks next_fd map filter]; rewrite E;
      cbn [negb map]; flat_log; rewrite ?app_nil_r; reflexivity.
Qed.

(** The inputs of an action are the arguments whose direction is not
    [out]; there are none when every direction is [out]. *)
Lemma no_input_iff (parsed : list (option string * option string)) :
  (length (map fst (filter (fun p => negb (is_out (snd p))) parsed)) =? 0)%nat = true
  <-> Forall (fun p => snd p = Some "out") parsed.
Proof.
  induction parsed as [|p parsed IH]; simpl.
  - split; [constructor | reflexivity].
  - destruct (is_out (snd p)) eqn:E; simpl.
    + rewrite IH. apply is_out_iff in E.
      split; [now constructor | now inversion 1].
    + split; [discriminate|].
      inversion 1 as [|? ? Hp _]. apply is_out_iff in Hp. congruence.
Qed.

(** ** SOAP calls *)

Section Soap.

Context {W : Type} (env : Env W).

(** A call of [perform_soap_request] sends one POST and prints at most
    one line after it. *)
Lemma perform_soap_request_log
      (control_url service_type action_name arguments : string) (st : state W) :
  exists r w tail,
    perform_soap_request env control_url service_type action_name arguments st
    = (r, State w
                (log st
                 ++ HttpPost control_url (soap_headers service_type action_name)
                      (soap_body service_type action_name arguments) 5 :: tail)
                (open_socks st) (next_fd st))
    /\ filter is_post tail = []
    /\ (forall text, r = Ret (Some text) -> tail = []).
Proof.
  unfold perform_soap_request, soap_handlers, try_except, requests_post.
  unfold_m.
  destruct (env_post env control_url _ _ (world st)) as [[resp|e] w].
  - destruct (raise_for_status resp) as [[]|e] eqn:Hstatus.
    + exists (Ret (Some (text resp))), w, []. repeat split.
    + assert (Hclass : class e = RequestException).
      { revert Hstatus. unfold raise_for_status.
        repeat match goal with
               | |- context [if ?b then _ else _] => destruct b
               end; intros [= <-] || discriminate; reflexivity. }
      rewrite Hclass. cbn [class_eqb].
      exists (Ret None), w, [Print ("Error during SOAP request: " ++ message e)].
      cbn [log]. flat_log. repeat split. discriminate.
  - destruct (class_eqb (class e) RequestException).
    + exists (Ret None), w, [Print ("Error during SOAP request: " ++ message e)].
      cbn [log]. flat_log. repeat split. discriminate.
    + exists (Raise e), w, []. repeat split.
Qed.

Lemma invoke_if_eligible_log
      (control_url : string) (service_type : option string) (name : string)
      (arguments_in : list (option string)) (st : state W) :
  exists r w evs,
    invoke_if_eligible env control_url service_type (Some name) arguments_in st
    = (r, State w (log st ++ evs) (open_socks st) (next_fd st))
    /\ filter is_post evs
       = if (PyStr.startswith name "Get" && (length arguments_in =? 0)%nat)%bool
         then [HttpPost control_url (soap_headers (fmt service_type) name)
                        (soap_body (fmt service_type) name "") 5]
         else [].
Proof.
  unfold invoke_if_eligible, attr. unfold bind at 1, lift at 1.
  destruct (PyStr.startswith name "Get" && (length arguments_in =? 0)%nat)%bool.
  - unfold bind at 1. cbn [fmt].
    destruct (perform_soap_request_log control_url (fmt service_type) name "" st)
      as (r & w & tail & -> & Htail & _).
    destruct r as [soap_response|e].
    + destruct (truthy soap_response); unfold_m.
      * eexists _, _, _. split.
        { rewrite <- app_assoc. reflexivity. }
        rewrite filter_app. cbn [filter is_post]. now rewrite Htail.
      * eexists _, _, _. split; [reflexivity|].
        cbn [filter is_post]. now rewrite Htail.
    + eexists _, _, _. split; [reflexivity|].
      cbn [filter is_post]. now rewrite Htail.
  - exists (Ret tt), (world st), []. rewrite app_nil_r. unfold ret.
    split; [now destruct st | reflexivity].
Qed.

Lemma filter_post_argument_lines
      (parsed : list (option string * option string)) :
  filter is_post (map argument_line parsed) = [].
Proof.
  induction parsed; simpl; auto.
Qed.

(** What one round of the loop over the actions sends. *)
Lemma action_body_posts
      (control_url : string) (service_type : option string)
      (action : ET.Element) (name : string)
      (parsed : list (option string * option string)) (st : state W) :
  find_text action "name" scpd_ns = Ret (Some name) ->
  Forall2 argument_reads (ET.findall_desc action "argument" scpd_ns) parsed ->
  filter is_post
         (emitted st (snd (action_body env control_url service_type action st)))
  = if (PyStr.startswith name "Get"
        && (length (map fst (filter (fun p => negb (is_out (snd p))) parsed))
            =? 0)%nat)%bool
    then [HttpPost control_url (soap_headers (fmt service_type) name)
                   (soap_body (fmt service_type) name "") 5]
    else [].
Proof.
  intros Hname Hargs. unfold action_body.
  unfold bind at 1, lift at 1. rewrite Hname.
  unfold bind at 1, print at 1, emit at 1.
  unfold bind at 1. rewrite (arguments_loop _ _ Hargs).
  cbn [fst world log open_socks next_fd app].
  set (st1 := State _ _ _ _).
  destruct (invoke_if_eligible_log control_url service_type name
              (map fst (filter (fun p => negb (is_out (snd p))) parsed)) st1)
    as (r & w & evs & -> & Hevs).
  cbn [snd]. subst st1. cbn [log].
  erewrite emitted_app by (cbn [log]; rewrite <- !app_assoc; reflexivity).
  cbn [app filter is_post].
  rewrite filter_app, filter_post_argument_lines. exact Hevs.
Qed.

End Soap.

(** ** Which actions are invoked *)

(** C1, as the code has it.  A round of the loop over the actions sends a
    SOAP request if and only if the name of the action starts with [Get] and
    every argument of the action has the direction [out]: an argument with
    any other direction counts as an input.  So [GetExternalIPAddress] with
    one [out] argument is invoked, and [SetConnectionType] and
    [GetSpecificPortMappingEntry] with one [in] argument are not. *)
Theorem invoked_iff_get_without_inputs
        {W : Type} (env : Env W) (control_url : string)
        (service_type : option string) (action : ET.Element) (name : string)
        (parsed : list (option string * option string)) (st : state W) :
  find_text action "name" scpd_ns = Ret (Some name) ->
  Forall2 argument_reads (ET.findall_desc action "argument" scpd_ns) parsed ->
  let sent a :=
    filter is_post
           (emitted st (snd (action_body env control_url service_type a st))) in
  (sent action <> []
   <-> PyStr.startswith name "Get" = true
       /\ Forall (fun p => snd p = Some "out") parsed)
  /\ sent Fixture.GetExternalIPAddress
     = [HttpPost control_url
                 (soap_headers (fmt service_type) "GetExternalIPAddress")
                 (soap_body (fmt service_type) "GetExternalIPAddress" "") 5]
  /\ sent Fixture.SetConnectionType = []
  /\ sent Fixture.GetSpecificPortMappingEntry = [].
Proof.
  intros Hname Hargs sent. split; [|split; [|split]].
  - unfold sent.
    rewrite (action_body_posts env _ _ _ _ _ _ Hname Hargs).
    rewrite <- no_input_iff, <- andb_true_iff.
    destruct (PyStr.startswith name "Get" && _)%bool.
    + split; [reflexivity | discriminate].
    + split; [now intros H; elim H | discriminate].
  - unfold sent.
    now rewrite (action_body_posts env _ _ _ "GetExternalIPAddress"
                   [(Some "NewExternalIPAddress", Some "out")])
      by (repeat constructor).
  - unfold sent.
    now rewrite (action_body_posts env _ _ _ "SetConnectionType"
                   [(Some "NewConnectionType", Some "in")])
      by (repeat constructor).
  - unfold sent.
    now rewrite (action_body_posts env _ _ _ "GetSpecificPortMappingEntry"
                   [(Some "NewExternalPort", Some "in")])
      by (repeat constructor).
Qed.

Lemma invoked_iff_get_without_inputs_witness :
  let env := Fixture.env_of Fixture.gateway1 in
  let sent a :=
    filter is_post
           (emitted Fixture.start
                    (snd (action_body env "http://192.168.1.1:5000/control"
                                      (Some Fixture.wan_ip) a Fixture.start))) in
  sent Fixture.GetExternalIPAddress <> []
  /\ sent Fixture.SetConnectionType = []
  /\ sent Fixture.GetSpecificPortMappingEntry = [].
Proof.
  intros env sent.
  destruct (invoked_iff_get_without_inputs
              env "http://192.168.1.1:5000/control" (Some Fixture.wan_ip)
              Fixture.GetExternalIPAddress "GetExternalIPAddress"
              [(Some "NewExternalIPAddress", Some "out")] Fixture.start)
    as (Hiff & _ & Hset & Hspecific).
  - reflexivity.
  - repeat constructor.
  - split; [|split; assumption].
    apply Hiff. split; [reflexivity | repeat constructor].
Defined.

(** C1 as stated fails: [GetWarnings] starts with [Get] and has no argument
    with the direction [in] (its only argument has the direction [inout]),
    and it is not invoked. *)
Lemma unknown_direction_not_invoked_counterexample :
  let env := Fixture.env_of Fixture.gateway1 in
  let st' :=
    snd (action_body env "http://192.168.1.1:5000/control"
                     (Some Fixture.wan_ip) Fixture.GetWarnings Fixture.start) in
  find_text Fixture.GetWarnings "name" scpd_ns = Ret (Some "GetWarnings")
  /\ PyStr.startswith "GetWarnings" "Get" = true
  /\ map (fun a => find_text a "direction" scpd_ns)
         (ET.findall_desc Fixture.GetWarnings "argument" scpd_ns)
     = [Ret (Some "inout")]
  /\ filter is_post (emitted Fixture.start st') = [].
Proof.
  repeat split.
Qed.

(** ** The SOAP request of an eligible action *)

(** C2.  For an action whose name starts with [Get] and whose arguments all
    have the direction [out], the round of the loop sends exactly one POST,
    to the control URL, with a timeout of 5 seconds.  Its headers are
    [Content-Type: text/xml; charset=utf-8] and [SOAPAction], the service
    type and the action name joined by [#] between double quotes.  Its body
    is the XML declaration and a SOAP 1.1 envelope whose body holds one
    element: the action name, in the namespace of the service type, with
    whitespace alone between its tags. *)
Theorem eligible_action_sends_one_request
        {W : Type} (env : Env W) (control_url : string)
        (service_type : option string) (action : ET.Element) (name : string)
        (parsed : list (option string * option string)) (st : state W) :
  find_text action "name" scpd_ns = Ret (Some name) ->
  Forall2 argument_reads (ET.findall_desc action "argument" scpd_ns) parsed ->
  PyStr.startswith name "Get" = true ->
  Forall (fun p => snd p = Some "out") parsed ->
  exists body w1 w2 w3 w4 w5 w6,
    filter is_post
           (emitted st (snd (action_body env control_url service_type action st)))
    = [HttpPost control_url
                [("Content-Type", "text/xml; charset=utf-8");
                 ("SOAPAction", DQ ++ fmt service_type ++ "#" ++ name ++ DQ)]
                body 5]
    /\ body
       = "<?xml version=" ++ DQ ++ "1.0" ++ DQ ++ "?>" ++ w1
         ++ "<s:Envelope xmlns:s=" ++ DQ
         ++ "http://schemas.xmlsoap.org/soap/envelope/" ++ DQ
         ++ " s:encodingStyle=" ++ DQ
         ++ "http://schemas.xmlsoap.org/soap/encoding/" ++ DQ ++ ">" ++ w2
         ++ "<s:Body>" ++ w3
         ++ "<u:" ++ name ++ " xmlns:u=" ++ DQ ++ fmt service_type ++ DQ ++ ">"
         ++ w4
         ++ "</u:" ++ name ++ ">" ++ w5
         ++ "</s:Body>" ++ w6
         ++ "</s:Envelope>"
    /\ Forall (fun w => PyStr.all_space w = true) [w1; w2; w3; w4; w5; w6].
Proof.
  intros Hname Hargs Hget Hout.
  exists (soap_body (fmt service_type) name "").
  exists (NL ++ "    "), (NL ++ "        "), (NL ++ "            ").
  exists (NL ++ "                " ++ NL ++ "            ").
  exists (NL ++ "        "), (NL ++ "    ").
  split; [|split].
  - rewrite (action_body_posts env _ _ _ _ _ _ Hname Hargs), Hget.
    apply no_input_iff in Hout. rewrite Hout. reflexivity.
  - reflexivity.
  - repeat constructor.
Qed.

Lemma eligible_action_sends_one_request_witness :
  let env := Fixture.env_of Fixture.gateway1 in
  exists body,
    filter is_post
           (emitted Fixture.start
                    (snd (action_body env "http://192.168.1.1:5000/control"
                                      (Some Fixture.wan_ip)
                                      Fixture.GetExternalIPAddress Fixture.start)))
    = [HttpPost "http://192.168.1.1:5000/control"
                [("Content-Type", "text/xml; charset=utf-8");
                 ("SOAPAction",
                  DQ ++ Fixture.wan_ip ++ "#GetExternalIPAddress" ++ DQ)]
                body 5].
Proof.
  intros env.
  destruct (eligible_action_sends_one_request
              env "http://192.168.1.1:5000/control" (Some Fixture.wan_ip)
              Fixture.GetExternalIPAddress "GetExternalIPAddress"
              [(Some "NewExternalIPAddress", Some "out")] Fixture.start)
    as (body & _ & _ & _ & _ & _ & _ & Hsent & _).
  - reflexivity.
  - repeat constructor.
  - reflexivity.
  - repeat constructor.
  - exists body. exact Hsent.
Defined.

(** C2 as stated fails: [GetStatusInfo] starts with [Get] and has no
    argument with the direction [in] (its only argument has the direction
    [Out]), so it is eligible by the wording of the claim; the round sends
    no SOAP request for it. *)
Lemma eligible_by_wording_counterexample :
  let env := Fixture.env_of Fixture.gateway1 in
  let st' :=
    snd (action_body env Scenario.control_url (Some Fixture.wan_ip)
                     Scenario.GetStatusInfo Fixture.start) in
  find_text Scenario.GetStatusInfo "name" scpd_ns = Ret (Some "GetStatusInfo")
  /\ PyStr.startswith "GetStatusInfo" "Get" = true
  /\ filter (fun direction =>
               match direction with
               | Ret (Some "in") => true
               | _ => false
               end)
            (map (fun a => find_text a "direction" scpd_ns)
                 (ET.findall_desc Scenario.GetStatusInfo "argument" scpd_ns))
     = []
  /\ filter is_post (emitted Fixture.start st') = [].
Proof.
  repeat split.
Qed.

(** ** The services of the device description *)

Lemma find_text_child (service : ET.Element) (name : string) (t : option string) :
  child_text service name t -> find_text service name device_ns = Ret t.
Proof.
  intros (child & Hfind & Htext). unfold find_text. rewrite Hfind.
  simpl. now rewrite Htext.
Qed.

Lemma read_service_complete
      (service : ET.Element)
      (record : option string * option string * option string) :
  service_has service record -> read_service service = Ret record.
Proof.
  destruct record as [[service_type control_path] scpd_path].
  intros (H1 & H2 & H3). unfold read_service.
  rewrite (find_text_child _ _ _ H1), (find_text_child _ _ _ H2),
    (find_text_child _ _ _ H3).
  reflexivity.
Qed.

Lemma for_each_records
      {W : Type} (env : Env W) (location : string) (services : list ET.Element)
      (records : list (option string * option string * option string)) :
  Forall2 (fun s r => read_service s = Ret r) services records ->
  forall st : state W,
    for_each services (service_body env location) st
    = for_each records (service_rest env location) st.
Proof.
  induction 1 as [|s r services records Hread _ IH]; intros st; [reflexivity|].
  cbn [for_each]. unfold bind at 1 2. unfold service_body.
  unfold bind at 1, lift. rewrite Hread. cbv beta iota.
  destruct (service_rest env location r st) as [[[]|e] st1];
    [apply IH | reflexivity].
Qed.

(** *** Document order *)

Lemma subseq_nil_l {A : Type} (l : list A) : subseq [] l.
Proof.
  induction l; constructor; assumption.
Qed.

Lemma subseq_refl {A : Type} (l : list A) : subseq l l.
Proof.
  induction l; constructor; assumption.
Qed.

Lemma subseq_app {A : Type} (a b c d : list A) :
  subseq a b -> subseq c d -> subseq (a ++ c) (b ++ d).
Proof.
  intros Hab Hcd. induction Hab; simpl; try constructor; assumption.
Qed.

Lemma subseq_trans {A : Type} (a b c : list A) :
  subseq a b -> subseq b c -> subseq a c.
Proof.
  intros Hab Hbc. revert a Hab.
  induction Hbc as [|x b c _ IH|x b c _ IH]; intros a Hab.
  - exact Hab.
  - constructor. now apply IH.
  - inversion Hab; subst; constructor; now apply IH.
Qed.

Lemma subseq_filter {A : Type} (f : A -> bool) (l : list A) :
  subseq (filter f l) l.
Proof.
  induction l as [|x l IH]; simpl; [constructor|].
  destruct (f x); constructor; assumption.
Qed.

(** Induction on an element, with the property known of its children. *)
Lemma Element_forest_ind (P : ET.Element -> Prop) :
  (forall tag text children, Forall P children -> P (ET.Elem tag text children)) ->
  forall e, P e.
Proof.
  intros H. fix IH 1. intros [tag text children]. apply H.
  induction children as [|c children IHc]; constructor; [apply IH | exact IHc].
Qed.

(** The children of elements are met, in their order, when the elements
    are walked in document order. *)
Lemma children_in_order (cs : list ET.Element) : subseq cs (flat_map ET.iter cs).
Proof.
  induction cs as [|[tag text children] cs IH]; simpl; [constructor|].
  apply subseq_take. change cs with ([] ++ cs)%list at 1.
  apply subseq_app; [apply subseq_nil_l | exact IH].
Qed.

Lemma services_among_app (a b : list ET.Element) :
  services_among (a ++ b) = (services_among a ++ services_among b)%list.
Proof.
  unfold services_among. now rewrite filter_app, flat_map_app.
Qed.

Lemma lists_not_nested_app (a b : list ET.Element) :
  lists_not_nested (a ++ b) -> lists_not_nested a /\ lists_not_nested b.
Proof.
  intros H. split; intros sl Hin; apply H; apply in_or_app; auto.
Qed.

Lemma services_in_order_forest (cs : list ET.Element) :
  Forall (fun c => lists_not_nested (ET.iter c) ->
                   subseq (services_among (ET.iter c)) (ET.iter c)) cs ->
  lists_not_nested (flat_map ET.iter cs) ->
  subseq (services_among (flat_map ET.iter cs)) (flat_map ET.iter cs).
Proof.
  induction 1 as [|c cs Hc _ IH]; intros Hnest; [constructor|].
  cbn [flat_map] in *. apply lists_not_nested_app in Hnest as [Hn1 Hn2].
  rewrite services_among_app. apply subseq_app; auto.
Qed.

Lemma services_in_order_tree (e : ET.Element) :
  lists_not_nested (ET.iter e) ->
  subseq (services_among (ET.iter e)) (ET.iter e).
Proof.
  induction e as [tag text children IH] using Element_forest_ind.
  intros Hnest. cbn [ET.iter].
  change (ET.Elem tag text children :: flat_map ET.iter children)
    with ([ET.Elem tag text children] ++ flat_map ET.iter children)%list.
  rewrite services_among_app.
  change ([ET.Elem tag text children] ++ flat_map ET.iter children)%list
    with (ET.Elem tag text children :: flat_map ET.iter children).
  apply subseq_skip.
  destruct (ET.has_tag device_ns "serviceList" (ET.Elem tag text children)) eqn:E.
  - assert (Hempty : ET.findall_desc (ET.Elem tag text children)
                                     "serviceList" device_ns = []).
    { apply Hnest; [left; reflexivity | exact E]. }
    unfold services_among at 2.
    change (filter (ET.has_tag device_ns "serviceList") (flat_map ET.iter children))
      with (ET.findall_desc (ET.Elem tag text children) "serviceList" device_ns).
    rewrite Hempty. cbn [flat_map]. rewrite app_nil_r.
    unfold services_among. cbn [filter]. rewrite E. cbn [flat_map ET.children].
    rewrite app_nil_r.
    eapply subseq_trans; [apply subseq_filter | apply children_in_order].
  - unfold services_among at 1. cbn [filter]. rewrite E. cbn [flat_map app].
    apply services_in_order_forest; [exact IH|].
    intros sl Hin. apply Hnest. right. exact Hin.
Qed.

(** When no [serviceList] lies inside another, the services come in
    document order. *)
Lemma services_in_document_order (root : ET.Element) :
  lists_not_nested (ET.descendants root) ->
  subseq (services_of root) (ET.descendants root).
Proof.
  intros Hnest.
  change (services_of root) with (services_among (ET.descendants root)).
  unfold ET.descendants in *.
  apply services_in_order_forest; [|exact Hnest].
  apply Forall_forall. intros c _. apply services_in_order_tree.
Qed.

(** ** Failures inside the loop over the services *)

Lemma for_each_app
      {W A : Type} (before rest : list A) (body : A -> M W unit) (st st1 : state W) :
  for_each before body st = (Ret tt, st1) ->
  for_each (before ++ rest) body st = for_each rest body st1.
Proof.
  revert st. induction before as [|x before IH]; intros st H.
  - simpl in H. unfold ret in H. now injection H as <-.
  - cbn [for_each app] in *. unfold bind in *.
    destruct (body x st) as [[[]|e] st0]; [now apply IH | discriminate].
Qed.

(** A round that raises ends the loop: the elements after it are not
    looked at. *)
Lemma for_each_raises
      {W A : Type} (x : A) (rest : list A) (body : A -> M W unit)
      (st st1 : state W) (e : exn) :
  body x st = (Raise e, st1) ->
  for_each (x :: rest) body st = (Raise e, st1).
Proof.
  intros H. cbn [for_each]. unfold bind. now rewrite H.
Qed.

(** A [service] element that misses one of the three children makes the
    loop raise [AttributeError] where it stands; the handlers of
    [get_upnp_actions] do not catch it. *)
Lemma incomplete_service_in_loop
      {W : Type} (env : Env W) (location : string)
      (before rest : list ET.Element) (service : ET.Element)
      (st st1 : state W) :
  for_each before (service_body env location) st = (Ret tt, st1) ->
  ET.find service "serviceType" device_ns = None
  \/ ET.find service "controlURL" device_ns = None
  \/ ET.find service "SCPDURL" device_ns = None ->
  let error := Exn AttributeError "'NoneType' object has no attribute 'text'" in
  read_service service = Raise error
  /\ try_except (for_each (before ++ service :: rest) (service_body env location))
                actions_handlers st
     = (Raise error, st1).
Proof.
  intros Hbefore Hmissing error.
  assert (Hread : read_service service = Raise error).
  { unfold read_service, find_text, attr.
    destruct (ET.find service "serviceType" device_ns);
      destruct (ET.find service "controlURL" device_ns);
      destruct (ET.find service "SCPDURL" device_ns);
      try reflexivity.
    destruct Hmissing as [H|[H|H]]; discriminate. }
  split; [exact Hread|].
  unfold try_except. rewrite (for_each_app _ _ _ _ _ Hbefore).
  rewrite (for_each_raises _ _ _ _ st1 error); [reflexivity|].
  unfold service_body, bind, lift. now rewrite Hread.
Qed.

(** C5 as stated fails: on a description whose first service has no
    [controlURL] the run ends with an [AttributeError] that nothing catches,
    and the last lines printed are those of the fetch of the description. *)
Lemma incomplete_service_counterexample :
  let env := Fixture.env_of Fixture.with_incomplete_service in
  let run := get_upnp_actions env Fixture.start in
  fst run = Raise (Exn AttributeError "'NoneType' object has no attribute 'text'")
  /\ filter Fixture.is_print (log (snd run))
     = [ Print "Device description XML location: http://192.168.1.1:5000/desc.xml";
         Print "Request to http://192.168.1.1:5000/desc.xml returned status code: 200";
         Print "Response headers: {'Content-Type': 'text/xml'}" ].
Proof.
  split; reflexivity.
Qed.

(** A round that raises a [RequestException] or a [ParseError] ends the
    loop, and the handler of [get_upnp_actions] prints the error. *)
Lemma loop_failure_caught
      {W : Type} (env : Env W) (location : string)
      (before rest : list ET.Element) (service : ET.Element)
      (st st1 st2 : state W) (e : exn) :
  for_each before (service_body env location) st = (Ret tt, st1) ->
  service_body env location service st1 = (Raise e, st2) ->
  class e = RequestException \/ class e = ParseError ->
  try_except (for_each (before ++ service :: rest) (service_body env location))
             actions_handlers st
  = (Ret tt,
     State (world st2)
           (log st2
            ++ [Print ((if class_eqb (class e) RequestException
                        then "Error while connecting to gateway: "
                        else "Error parsing XML: ") ++ message e)])
           (open_socks st2) (next_fd st2)).
Proof.
  intros Hbefore Hbody Hclass.
  unfold try_except. rewrite (for_each_app _ _ _ _ _ Hbefore).
  rewrite (for_each_raises _ _ _ _ _ _ Hbody).
  unfold actions_handlers.
  destruct Hclass as [H|H]; rewrite H; reflexivity.
Qed.

(** C4 as stated fails: the first SCPD answers 404, and the second service,
    whose SCPD is served and whose action would be invoked, is never
    fetched. *)
Lemma scpd_failure_counterexample :
  let env :=
    Fixture.env_of (Fixture.two_services (Ret (Fixture.not_found Fixture.scpd1_url))) in
  let run := get_upnp_actions env Fixture.start in
  let second := Fixture.service Fixture.wan_ip "/control2" "/scpd2.xml" in
  fst run = Ret tt
  /\ filter is_get (log (snd run))
     = [HttpGet Fixture.desc_url 5; HttpGet Fixture.scpd1_url 5]
  /\ filter is_post (log (snd run)) = []
  /\ filter is_post
            (log (snd (service_body env Fixture.desc_url second Fixture.start)))
     <> [].
Proof.
  repeat split. discriminate.
Qed.

(** ** A whole run *)

(** The gateway answers the discovery with the location of its
    description, which lists one service whose SCPD declares
    [GetExternalIPAddress] with one [out] argument: the run fetches the
    description and the SCPD, posts one SOAP request to the control URL,
    prints the answer and leaves no socket open. *)
Example end_to_end :
  let run := get_upnp_actions (Fixture.env_of Fixture.gateway1) Fixture.start in
  fst run = Ret tt
  /\ filter is_get (log (snd run))
     = [ HttpGet "http://192.168.1.1:5000/desc.xml" 5;
         HttpGet "http://192.168.1.1:5000/scpd.xml" 5 ]
  /\ filter is_post (log (snd run))
     = [ HttpPost "http://192.168.1.1:5000/control"
                  (soap_headers Fixture.wan_ip "GetExternalIPAddress")
                  (soap_body Fixture.wan_ip "GetExternalIPAddress" "") 5 ]
  /\ last (log (snd run)) (Print "")
     = Print "SOAP Response for GetExternalIPAddress: <s:Envelope/>"
  /\ open_socks (snd run) = [].
Proof.
  repeat split.
Qed.

(** ** Invariants carried through a run *)

Section Invariant.

Context {W : Type} (R : state W -> state W -> Prop).
Hypothesis R_refl : forall st, R st st.
Hypothesis R_trans : forall a b c, R a b -> R b c -> R a c.

Lemma holds_ret {A : Type} (a : A) : holds_over R (ret a).
Proof.
  intros st. apply R_refl.
Qed.

Lemma holds_raise {A : Type} (e : exn) : holds_over R (raise (A := A) e).
Proof.
  intros st. apply R_refl.
Qed.

Lemma holds_lift {A : Type} (x : outcome A) : holds_over R (lift x).
Proof.
  intros st. apply R_refl.
Qed.

Lemma holds_bind {A B : Type} (c : M W A) (k : A -> M W B) :
  holds_over R c -> (forall a, holds_over R (k a)) -> holds_over R (bind c k).
Proof.
  intros Hc Hk st. unfold bind. specialize (Hc st).
  destruct (c st) as [[a|e] st1]; cbn [snd] in *.
  - eapply R_trans; [exact Hc | apply Hk].
  - exact Hc.
Qed.

Lemma holds_try_except {A : Type} (body : M W A) (handler : exn -> option (M W A)) :
  holds_over R body ->
  (forall e h, handler e = Some h -> holds_over R h) ->
  holds_over R (try_except body handler).
Proof.
  intros Hbody Hhandler st. unfold try_except. specialize (Hbody st).
  destruct (body st) as [[a|e] st1]; cbn [snd] in *; [exact Hbody|].
  destruct (handler e) as [h|] eqn:E; [|exact Hbody].
  eapply R_trans; [exact Hbody | now apply (Hhandler e h)].
Qed.

Lemma holds_try_finally {A : Type} (body : M W A) (final : M W unit) :
  holds_over R body -> holds_over R final ->
  holds_over R (try_finally body final).
Proof.
  intros Hbody Hfinal st. unfold try_finally. specialize (Hbody st).
  destruct (body st) as [r st1]. specialize (Hfinal st1). cbn [snd] in *.
  destruct (final st1) as [[[]|e] st2]; cbn [snd] in *;
    eapply R_trans; eassumption.
Qed.

Lemma holds_for_each {A : Type} (l : list A) (body : A -> M W unit) :
  (forall x, holds_over R (body x)) -> holds_over R (for_each l body).
Proof.
  intros Hbody. induction l as [|x l IH]; cbn [for_each].
  - apply holds_ret.
  - apply holds_bind; [apply Hbody | intros _; exact IH].
Qed.

Lemma holds_for_fold {A S : Type} (l : list A) (body : S -> A -> M W S) :
  (forall acc x, holds_over R (body acc x)) ->
  forall acc, holds_over R (for_fold l acc body).
Proof.
  intros Hbody. induction l as [|x l IH]; intros acc; cbn [for_fold].
  - apply holds_ret.
  - apply holds_bind; [apply Hbody | intros acc'; apply IH].
Qed.

(** When the invariant holds over the calls into the outside, as the
    script makes them, it holds over the script. *)

Context (env : Env W).
Hypothesis R_print : forall line, holds_over R (print (W := W) line).
Hypothesis R_gateway : holds_over R (get_default_gateway env).
Hypothesis R_discovery :
  forall gateway_ip, holds_over R (get_upnp_description env gateway_ip 1900).
Hypothesis R_get : forall url, holds_over R (requests_get env url 5).
Hypothesis R_post :
  forall control_url service_type name,
    PyStr.startswith name "Get" = true ->
    holds_over R (requests_post env control_url (soap_body service_type name "")
                                (soap_headers service_type name) 5).

Lemma holds_perform_soap_request (control_url service_type name : string) :
  PyStr.startswith name "Get" = true ->
  holds_over R (perform_soap_request env control_url service_type name "").
Proof.
  intros Hget. unfold perform_soap_request.
  apply holds_try_except.
  - apply holds_bind; [now apply R_post|]. intros response.
    apply holds_bind; [apply holds_lift | intros _; apply holds_ret].
  - intros e h. unfold soap_handlers.
    destruct (class_eqb (class e) RequestException); [|discriminate].
    intros [= <-]. apply holds_bind; [apply R_print | intros _; apply holds_ret].
Qed.

Lemma holds_invoke_if_eligible
      (control_url : string) (service_type action_name : option string)
      (arguments_in : list (option string)) :
  holds_over R (invoke_if_eligible env control_url service_type action_name
                                   arguments_in).
Proof.
  intros st. unfold invoke_if_eligible. unfold bind at 1, lift at 1, attr.
  destruct action_name as [name|]; [|apply R_refl].
  destruct (PyStr.startswith name "Get") eqn:E; cbn [andb]; [|apply R_refl].
  destruct (length arguments_in =? 0)%nat; [|apply R_refl].
  apply holds_bind.
  - now apply holds_perform_soap_request.
  - intros soap_response.
    destruct (truthy soap_response); [apply R_print | apply holds_ret].
Qed.

Lemma holds_argument_body
      (acc : list (option string) * list (option string))
      (action_argument : ET.Element) :
  holds_over R (argument_body (W := W) acc action_argument).
Proof.
  unfold argument_body. destruct acc as [arguments_in arguments_out].
  apply holds_bind; [apply holds_lift | intros action_argument_name].
  apply holds_bind; [apply holds_lift | intros action_argument_direction].
  apply holds_bind; [apply R_print | intros _].
  destruct (is_out action_argument_direction); apply holds_ret.
Qed.

Lemma holds_action_body
      (control_url : string) (service_type : option string) (action : ET.Element) :
  holds_over R (action_body env control_url service_type action).
Proof.
  unfold action_body.
  apply holds_bind; [apply holds_lift | intros action_name].
  apply holds_bind; [apply R_print | intros _].
  apply holds_bind; [apply holds_for_fold, holds_argument_body | intros acc].
  apply holds_invoke_if_eligible.
Qed.

Lemma holds_service_body (location : string) (service : ET.Element) :
  holds_over R (service_body env location service).
Proof.
  unfold service_body.
  apply holds_bind; [apply holds_lift | intros [[service_type control_path] scpd_path]].
  unfold service_rest.
  do 3 (apply holds_bind; [apply R_print | intros _]).
  apply holds_bind; [apply holds_lift | intros scpd_url].
  apply holds_bind; [apply holds_lift | intros control_url].
  apply holds_bind; [apply R_get | intros scpd_response].
  apply holds_bind; [apply holds_lift | intros _].
  apply holds_bind; [apply holds_lift | intros scpd_root].
  apply holds_bind; [apply R_print | intros _].
  apply holds_for_each. intros action. apply holds_action_body.
Qed.

Lemma holds_after_discovery (response : string) :
  holds_over R (after_discovery env response).
Proof.
  unfold after_discovery.
  apply holds_bind; [apply holds_lift | intros [location|]]; [|apply R_print].
  unfold describe_device.
  apply holds_bind; [apply R_print | intros _].
  apply holds_bind; [apply R_get | intros xml_response].
  do 2 (apply holds_bind; [apply R_print | intros _]).
  apply holds_bind; [apply holds_lift | intros _].
  apply holds_bind; [apply holds_lift | intros root].
  apply holds_for_each. intros service. apply holds_service_body.
Qed.

(** The invariant holds over the whole run. *)
Lemma holds_get_upnp_actions : holds_over R (get_upnp_actions env).
Proof.
  unfold get_upnp_actions.
  apply holds_bind; [apply R_gateway | intros gateway_ip].
  destruct (negb (truthy gateway_ip)); [apply R_print|].
  apply holds_try_except.
  - apply holds_bind; [apply R_discovery | intros response].
    destruct (negb (truthy response)); [apply holds_ret | apply holds_after_discovery].
  - intros e h. unfold actions_handlers.
    destruct (class_eqb (class e) RequestException); [intros [= <-]; apply R_print|].
    destruct (class_eqb (class e) ParseError); [intros [= <-]; apply R_print|].
    discriminate.
Qed.

End Invariant.

(** *** The requests of a run *)

Section Requests.

Context {W : Type} (env : Env W).

Let R : state W -> state W -> Prop := emits_only guarded_request.

Lemma emits_only_refl (P : event -> Prop) (st : state W) : emits_only P st st.
Proof.
  exists []. split; [now rewrite app_nil_r | constructor].
Qed.

Lemma emits_only_trans (P : event -> Prop) (a b c : state W) :
  emits_only P a b -> emits_only P b c -> emits_only P a c.
Proof.
  intros (evs1 & H1 & P1) (evs2 & H2 & P2). exists (evs1 ++ evs2)%list. split.
  - now rewrite H2, H1, app_assoc.
  - apply Forall_app. now split.
Qed.

(** One event that is no HTTP request keeps the invariant. *)
Lemma emits_one (e : event) :
  guarded_request e -> holds_over R (emit (W := W) e).
Proof.
  intros He st. exists [e]. split; [reflexivity | now constructor].
Qed.

Lemma requests_of_discovery (gateway_ip : string) :
  holds_over R (get_upnp_description env gateway_ip 1900).
Proof.
  assert (Hrefl := emits_only_refl guarded_request).
  assert (Htrans := emits_only_trans guarded_request).
  intros st. unfold get_upnp_description, send_udp_request.
  assert (Hopen : R st (snd (socket_socket env st))).
  { unfold socket_socket.
    destruct (env_socket env (world st)) as [[e|] w]; cbn [snd].
    - exists []. split; [now rewrite app_nil_r | constructor].
    - exists [SocketOpen (next_fd st)]. split; [reflexivity | now repeat constructor]. }
  destruct (socket_socket env st) as [created st1]. cbn [snd] in Hopen.
  eapply Htrans; [exact Hopen|].
  apply (holds_try_finally R Htrans).
  - apply (holds_try_except R Htrans).
    + apply (holds_bind R Htrans); [apply (holds_lift R Hrefl) | intros fd].
      apply (holds_bind R Htrans); [now apply emits_one | intros _].
      apply (holds_bind R Htrans); [|intros _].
      { intros s. unfold sendto.
        destruct (env_sendto env _ _ _ (world s)) as [[e|] w];
          (eexists [_]; split; [reflexivity | now repeat constructor]). }
      apply (holds_bind R Htrans); [|intros response].
      { intros s. unfold recvfrom.
        destruct (env_recvfrom env _ (world s)) as [r w].
        eexists [_]; split; [reflexivity | now repeat constructor]. }
      apply (holds_bind R Htrans); [apply (holds_lift R Hrefl) | intros decoded].
      apply (holds_ret R Hrefl).
    + intros e h. unfold udp_handlers.
      destruct (class_eqb (class e) SocketTimeout); intros [= <-];
        (apply (holds_bind R Htrans);
         [now apply emits_one | intros _; apply (holds_ret R Hrefl)]).
  - destruct created as [fd|e]; cbn [udp_finally].
    + intros s. exists [SocketClose fd]. split; [reflexivity | now repeat constructor].
    + apply (holds_raise R Hrefl).
Qed.

(** X1.  Whatever the outside answers, every HTTP request of a run has a
    timeout of 5 seconds, and every POST is the SOAP request, without
    arguments, of an action whose name starts with [Get]. *)
Theorem run_sends_only_guarded_requests (st : state W) :
  Forall guarded_request (emitted st (snd (get_upnp_actions env st))).
Proof.
  destruct (holds_get_upnp_actions
              R (emits_only_refl guarded_request)
              (emits_only_trans guarded_request) env) with (st := st)
    as (evs & Hlog & Hevs).
  - intros line. now apply emits_one.
  - intros s. unfold get_default_gateway, Gateway.get_default_gateway.
    destruct (env_host env (world s)) as [host w].
    match goal with
    | |- context [match ?body with Ret _ => _ | Raise _ => _ end] =>
        destruct body
    end; eexists; (split; [reflexivity | now repeat constructor]).
  - apply requests_of_discovery.
  - intros url s. unfold requests_get.
    destruct (env_get env url (world s)) as [r w].
    eexists [_]; split; [reflexivity | now repeat constructor].
  - intros control_url service_type name Hget s. unfold requests_post.
    destruct (env_post env control_url _ _ (world s)) as [r w].
    eexists [_]; split; [reflexivity|].
    constructor; [|constructor]. split; [reflexivity|].
    exists service_type, name. now repeat split.
  - now rewrite (emitted_app _ _ _ Hlog).
Qed.

End Requests.

(** *** The sockets of a run *)

Section Sockets.

Context {W : Type} (env : Env W).

Lemma no_new_socket_refl (st : state W) : no_new_socket st st.
Proof.
  apply incl_refl.
Qed.

Lemma no_new_socket_trans (a b c : state W) :
  no_new_socket a b -> no_new_socket b c -> no_new_socket a c.
Proof.
  unfold no_new_socket. intros Hab Hbc. eapply incl_tran; eassumption.
Qed.

Lemma sockets_of_discovery (gateway_ip : string) :
  holds_over no_new_socket (get_upnp_description env gateway_ip 1900).
Proof.
  intros st. unfold get_upnp_description, no_new_socket. unfold_udp.
  assert (Hclosed : incl (remove Nat.eq_dec (next_fd st)
                                 (next_fd st :: open_socks st)) (open_socks st)).
  { intros fd Hin. apply in_remove in Hin as [[Heq|Hin] Hne];
      [now elim Hne | exact Hin]. }
  destruct (env_socket env (world st)) as [[e|] w1];
    cbn [world log open_socks next_fd].
  { destruct (class_eqb (class e) SocketTimeout); apply incl_refl. }
  destruct (env_sendto env _ gateway_ip 1900 w1) as [[e|] w2];
    cbn [world log open_socks next_fd].
  2: destruct (env_recvfrom env 65507 w2) as [[data|e] w3];
    cbn [world log open_socks next_fd].
  2: destruct (env_decode env data) as [text|e];
    cbn [world log open_socks next_fd].
  1,3,4: destruct (class_eqb (class e) SocketTimeout);
    cbn [world log open_socks next_fd].
  all: exact Hclosed.
Qed.

(** X2.  Whatever the outside answers, a run leaves open no socket that
    was not open before it. *)
Theorem run_leaves_no_socket_open (st : state W) :
  incl (open_socks (snd (get_upnp_actions env st))) (open_socks st).
Proof.
  apply (holds_get_upnp_actions no_new_socket no_new_socket_refl
                                no_new_socket_trans env).
  - intros line s. apply incl_refl.
  - intros s. unfold get_default_gateway.
    destruct (env_host env (world s)) as [host w].
    destruct (Gateway.get_default_gateway host) as [printed gateway].
    apply incl_refl.
  - apply sockets_of_discovery.
  - intros url s. unfold requests_get.
    destruct (env_get env url (world s)) as [r w]. apply incl_refl.
  - intros control_url service_type name _ s. unfold requests_post.
    destruct (env_post env control_url _ _ (world s)) as [r w]. apply incl_refl.
Qed.

End Sockets.

(** ** How the discovery exchange ends *)

Lemma class_eqb_eq (a b : exn_class) : class_eqb a b = true <-> a = b.
Proof.
  destruct a, b; simpl; split; congruence.
Qed.

(** X3.  [send_udp_request] raises only when [socket.socket] itself
    fails; with a socket it returns, and it returns a text exactly when
    [sendto], [recvfrom] and the decoding all succeed, the text being the
    decoded datagram.  Every other failure gives [None]. *)
Theorem send_udp_request_returns
        {W : Type} (env : Env W) (ip : string) (port : Z) (message : string)
        (st : state W) (w1 : W) :
  env_socket env (world st) = (None, w1) ->
  (exists v, fst (send_udp_request env ip port message st) = Ret v)
  /\ (forall text,
         fst (send_udp_request env ip port message st) = Ret (Some text)
         <-> exists w2 w3 data,
               env_sendto env (env_encode env message) ip port w1 = (None, w2)
               /\ env_recvfrom env 65507 w2 = (Ret data, w3)
               /\ env_decode env data = Ret text).
Proof.
  intros Hsocket. unfold_udp. rewrite Hsocket.
  cbn [world log open_socks next_fd].
  destruct (env_sendto env (env_encode env message) ip port w1)
    as [[e|] w2] eqn:Hsend; cbn [world log open_socks next_fd].
  2: destruct (env_recvfrom env 65507 w2) as [[data|e] w3] eqn:Hrecv;
    cbn [world log open_socks next_fd].
  2: destruct (env_decode env data) as [text0|e] eqn:Hdecode;
    cbn [world log open_socks next_fd].
  1,3,4: destruct (class_eqb (class e) SocketTimeout);
    cbn [world log open_socks next_fd fst].
  all: split; [eexists; reflexivity|]; intros text; cbn [fst]; split.
  all: try discriminate.
  all: try (intros (w2' & w3' & data' & H1 & H2 & H3); congruence).
  intros [= <-]. now exists w2, w3, data.
Qed.

Lemma send_udp_request_returns_witness :
  fst (send_udp_request (Fixture.env_of Fixture.gateway1) "192.168.1.1" 1900
                        "M-SEARCH" Fixture.start)
  = Ret (Some (Fixture.reply_with ("Location: " ++ Fixture.desc_url))).
Proof.
  apply (send_udp_request_returns
           (Fixture.env_of Fixture.gateway1) "192.168.1.1" 1900 "M-SEARCH"
           Fixture.start tt eq_refl).
  exists tt, tt, (Fixture.reply_with ("Location: " ++ Fixture.desc_url)).
  repeat split.
Defined.

(** X4.  When [socket.socket] raises, [send_udp_request] prints the error
    and then fails in its [finally] clause, on the unbound [sock]; no
    [except] clause of [get_upnp_actions] catches that [UnboundLocalError],
    so the run ends with it. *)
Theorem socket_failure_ends_run
        {W : Type} (env : Env W) (st : state W) (gw : string) (w1 w2 : W)
        (e : exn) :
  env_gateway env (world st) = (Some gw, w1) ->
  PyStr.truthy gw = true ->
  env_socket env w1 = (Some e, w2) ->
  get_upnp_actions env st
  = (Raise (Exn UnboundLocalError
                "cannot access local variable 'sock' where it is not associated with a value"),
     State w2
           (log st
            ++ [Print (if class_eqb (class e) SocketTimeout
                       then "No response from the gateway."
                       else "Error sending UDP request: " ++ message e)])
           (open_socks st) (next_fd st)).
Proof.
  intros Hgw Htrue Hsocket.
  unfold get_upnp_actions, bind at 1.
  rewrite (gateway_found env st gw w1 Hgw).
  change (truthy (Some gw)) with (PyStr.truthy gw).
  rewrite Htrue. change (negb true) with false. cbv beta iota.
  unfold try_except at 1, bind at 1, get_upnp_description.
  unfold_udp. rewrite Hsocket. cbn [world log open_socks next_fd].
  destruct (class_eqb (class e) SocketTimeout); reflexivity.
Qed.

Lemma socket_failure_ends_run_witness :
  fst (get_upnp_actions (Fixture.env_of Scenario.no_socket) Fixture.start)
  = Raise (Exn UnboundLocalError
               "cannot access local variable 'sock' where it is not associated with a value").
Proof.
  now rewrite (socket_failure_ends_run
                 (Fixture.env_of Scenario.no_socket) Fixture.start "192.168.1.1"
                 tt tt (Exn OtherException "[Errno 13] Permission denied")
                 eq_refl eq_refl eq_refl).
Defined.

(** X5.  When the lookup of the gateway gives no address, the run prints,
    after what the lookup itself printed, that it could not determine the
    gateway, and touches neither socket nor network.  With a gateway that
    does not answer ([recvfrom] raises), the run closes the socket and
    returns without any HTTP request. *)
Theorem run_without_reply
        {W : Type} (env : Env W) (st : state W) :
  (forall host printed g w1,
      env_host env (world st) = (host, w1) ->
      Gateway.get_default_gateway host = (printed, g) ->
      truthy g = false ->
      get_upnp_actions env st
      = (Ret tt,
         State w1
               (log st ++ printed
                ++ [Print "Could not determine the default gateway."])
               (open_socks st) (next_fd st)))
  /\ (forall gw w1 w2 w3 w4 e,
         env_gateway env (world st) = (Some gw, w1) ->
         PyStr.truthy gw = true ->
         env_socket env w1 = (None, w2) ->
         env_sendto env (env_encode env (msearch gw 1900)) gw 1900 w2 = (None, w3) ->
         env_recvfrom env 65507 w3 = (Raise e, w4) ->
         let fd := next_fd st in
         get_upnp_actions env st
         = (Ret tt,
            State w4
                  (log st
                   ++ [SocketOpen fd; SetTimeout fd 5;
                       SendTo fd (env_encode env (msearch gw 1900)) gw 1900;
                       RecvFrom fd 65507;
                       Print (if class_eqb (class e) SocketTimeout
                              then "No response from the gateway."
                              else "Error sending UDP request: " ++ message e);
                       SocketClose fd])
                  (remove Nat.eq_dec fd (open_socks st)) (S fd))).
Proof.
  split.
  - intros host printed g w1 Hhost Hlookup Hfalse.
    unfold get_upnp_actions, bind at 1, get_default_gateway.
    rewrite Hhost, Hlookup, Hfalse. cbn [negb]. unfold print, emit.
    cbn [world log open_socks next_fd]. now rewrite <- app_assoc.
  - intros gw w1 w2 w3 w4 e Hgw Htrue Hsocket Hsend Hrecv fd.
    rewrite <- (remove_cons Nat.eq_dec fd (open_socks st)).
    unfold get_upnp_actions, bind at 1.
    rewrite (gateway_found env st gw w1 Hgw).
    change (truthy (Some gw)) with (PyStr.truthy gw).
    rewrite Htrue. change (negb true) with false. cbv beta iota.
    unfold try_except at 1, bind at 1, get_upnp_description.
    change (fmt (Some gw)) with gw.
    unfold_udp. rewrite Hsocket. cbn [world log open_socks next_fd].
    rewrite Hsend. cbn [world log open_socks next_fd].
    rewrite Hrecv. cbn [world log open_socks next_fd].
    destruct (class_eqb (class e) SocketTimeout);
      cbn [world log open_socks next_fd truthy negb]; flat_log; reflexivity.
Qed.

Lemma run_without_reply_witness :
  get_upnp_actions (Fixture.env_of Scenario.no_gateway) Fixture.start
  = (Ret tt, State tt [Print "Could not determine the default gateway."] [] 3)
  /\ get_upnp_actions Scenario.unreadable_table Fixture.start
     = (Ret tt,
        State tt
              [ Print "Error fetching default gateway: [Errno 13] Permission denied: '/proc/net/route'";
                Print "Could not determine the default gateway." ] [] 3)
  /\ filter is_get
            (log (snd (get_upnp_actions
                         (Fixture.env_of
                            (Fixture.answering (Raise (Exn SocketTimeout "timed out"))))
                         Fixture.start)))
     = [].
Proof.
  split; [|split].
  - apply (proj1 (run_without_reply (Fixture.env_of Scenario.no_gateway)
                                    Fixture.start)
                 (Fixture.host_of None) [] None tt eq_refl eq_refl eq_refl).
  - apply (proj1 (run_without_reply Scenario.unreadable_table Fixture.start)
                 Scenario.unreadable_host
                 [Print "Error fetching default gateway: [Errno 13] Permission denied: '/proc/net/route'"]
                 None tt eq_refl eq_refl eq_refl).
  - now rewrite (proj2 (run_without_reply
                          (Fixture.env_of
                             (Fixture.answering (Raise (Exn SocketTimeout "timed out"))))
                          Fixture.start)
                       "192.168.1.1" tt tt tt tt (Exn SocketTimeout "timed out")
                       eq_refl eq_refl eq_refl eq_refl eq_refl).
Defined.

(** X6.  A run never ends with a [RequestException] or a [ParseError]:
    the [except] clauses catch both, wherever they are raised. *)
Theorem run_never_raises_request_or_parse_error
        {W : Type} (env : Env W) (st : state W) (e : exn) :
  fst (get_upnp_actions env st) = Raise e ->
  class e <> RequestException /\ class e <> ParseError.
Proof.
  unfold get_upnp_actions, bind at 1, get_default_gateway.
  destruct (env_host env (world st)) as [host w1].
  destruct (Gateway.get_default_gateway host) as [printed gateway_ip].
  destruct (negb (truthy gateway_ip)); [discriminate|].
  cbv zeta. unfold try_except.
  match goal with |- context [let (_, _) := ?body ?s in _] =>
    destruct (body s) as [[[]|e0] st1]
  end; [discriminate|].
  unfold actions_handlers.
  destruct (class_eqb (class e0) RequestException) eqn:E1; [discriminate|].
  destruct (class_eqb (class e0) ParseError) eqn:E2; [discriminate|].
  cbn [fst]. intros [= <-]. split; intros H; rewrite H in *; discriminate.
Qed.

Lemma run_never_raises_request_or_parse_error_witness :
  class (Exn AttributeError "'NoneType' object has no attribute 'text'")
  <> RequestException
  /\ class (Exn AttributeError "'NoneType' object has no attribute 'text'")
     <> ParseError.
Proof.
  apply (run_never_raises_request_or_parse_error
           (Fixture.env_of Fixture.with_incomplete_service) Fixture.start).
  reflexivity.
Defined.

(** ** SOAP requests and their failures *)

Lemma raise_for_status_ok (r : response) :
  (status_code r < 400 \/ 600 <= status_code r)%Z -> raise_for_status r = Ret tt.
Proof.
  intros H. unfold raise_for_status.
  destruct ((400 <=? status_code r) && (status_code r <? 500))%Z eqn:E1;
    [apply andb_true_iff in E1 as [A B]; lia|].
  destruct ((500 <=? status_code r) && (status_code r <? 600))%Z eqn:E2;
    [apply andb_true_iff in E2 as [A B]; lia|].
  reflexivity.
Qed.

Lemma raise_for_status_error (r : response) :
  (400 <= status_code r < 600)%Z ->
  exists msg, raise_for_status r = Raise (Exn RequestException msg).
Proof.
  intros H. unfold raise_for_status.
  destruct ((400 <=? status_code r) && (status_code r <? 500))%Z eqn:E1;
    [eexists; reflexivity|].
  destruct ((500 <=? status_code r) && (status_code r <? 600))%Z eqn:E2;
    [eexists; reflexivity|].
  apply andb_false_iff in E1, E2. lia.
Qed.

(** X7.  [perform_soap_request] sends one POST and never a second one.
    It returns the text of the answer when the status is outside 400..599;
    on such a status, or when the POST raises a [RequestException], it
    prints the error and returns [None]; any other exception of the POST
    passes through. *)
Theorem perform_soap_request_outcomes
        {W : Type} (env : Env W)
        (control_url service_type action_name arguments : string) (st : state W) :
  let hs := soap_headers service_type action_name in
  let body := soap_body service_type action_name arguments in
  let post := HttpPost control_url hs body 5 in
  let run := perform_soap_request env control_url service_type action_name
                                  arguments st in
  (forall r w,
      env_post env control_url hs body (world st) = (Ret r, w) ->
      (status_code r < 400 \/ 600 <= status_code r)%Z ->
      run = (Ret (Some (text r)),
             State w (log st ++ [post]) (open_socks st) (next_fd st)))
  /\ (forall r w,
         env_post env control_url hs body (world st) = (Ret r, w) ->
         (400 <= status_code r < 600)%Z ->
         exists msg,
           run = (Ret None,
                  State w (log st ++ [post; Print ("Error during SOAP request: " ++ msg)])
                        (open_socks st) (next_fd st)))
  /\ (forall e w,
         env_post env control_url hs body (world st) = (Raise e, w) ->
         class e = RequestException ->
         run = (Ret None,
                State w (log st ++ [post; Print ("Error during SOAP request: "
                                                 ++ message e)])
                      (open_socks st) (next_fd st)))
  /\ (forall e w,
         env_post env control_url hs body (world st) = (Raise e, w) ->
         class e <> RequestException ->
         run = (Raise e, State w (log st ++ [post]) (open_socks st) (next_fd st))).
Proof.
  intros hs body post run. subst run.
  unfold perform_soap_request, soap_handlers, try_except, requests_post.
  unfold_m. fold hs body.
  split; [|split; [|split]].
  - intros r w Hpost Hstatus. rewrite Hpost.
    now rewrite (raise_for_status_ok r Hstatus).
  - intros r w Hpost Hstatus. rewrite Hpost.
    destruct (raise_for_status_error r Hstatus) as [msg ->].
    exists msg. cbn [class class_eqb log message]. flat_log. reflexivity.
  - intros e w Hpost Hclass. rewrite Hpost, Hclass.
    cbn [class_eqb log]. flat_log. reflexivity.
  - intros e w Hpost Hclass. rewrite Hpost.
    destruct (class_eqb (class e) RequestException) eqn:E; [|reflexivity].
    apply class_eqb_eq in E. contradiction.
Qed.

Lemma perform_soap_request_outcomes_witness :
  let url := Scenario.control_url in
  fst (perform_soap_request
         (Fixture.env_of (Scenario.posting (Ret (Fixture.ok url "<ok/>"))))
         url Fixture.wan_ip "GetExternalIPAddress" "" Fixture.start)
  = Ret (Some "<ok/>")
  /\ fst (perform_soap_request
            (Fixture.env_of (Scenario.posting (Ret (Fixture.not_found url))))
            url Fixture.wan_ip "GetExternalIPAddress" "" Fixture.start)
     = Ret None
  /\ fst (perform_soap_request
            (Fixture.env_of
               (Scenario.posting (Raise (Exn RequestException "Read timed out."))))
            url Fixture.wan_ip "GetExternalIPAddress" "" Fixture.start)
     = Ret None
  /\ fst (perform_soap_request
            (Fixture.env_of
               (Scenario.posting (Raise (Exn OtherException "codec can't encode"))))
            url Fixture.wan_ip "GetExternalIPAddress" "" Fixture.start)
     = Raise (Exn OtherException "codec can't encode").
Proof.
  intros url. split; [|split; [|split]].
  - destruct (perform_soap_request_outcomes
                (Fixture.env_of (Scenario.posting (Ret (Fixture.ok url "<ok/>"))))
                url Fixture.wan_ip "GetExternalIPAddress" "" Fixture.start)
      as (H & _).
    rewrite (H (Fixture.ok url "<ok/>") tt eq_refl); [reflexivity | cbn; lia].
  - destruct (perform_soap_request_outcomes
                (Fixture.env_of (Scenario.posting (Ret (Fixture.not_found url))))
                url Fixture.wan_ip "GetExternalIPAddress" "" Fixture.start)
      as (_ & H & _).
    destruct (H (Fixture.not_found url) tt eq_refl) as [msg ->];
      [cbn; lia | reflexivity].
  - destruct (perform_soap_request_outcomes
                (Fixture.env_of
                   (Scenario.posting (Raise (Exn RequestException "Read timed out."))))
                url Fixture.wan_ip "GetExternalIPAddress" "" Fixture.start)
      as (_ & _ & H & _).
    now rewrite (H (Exn RequestException "Read timed out.") tt eq_refl eq_refl).
  - destruct (perform_soap_request_outcomes
                (Fixture.env_of
                   (Scenario.posting (Raise (Exn OtherException "codec can't encode"))))
                url Fixture.wan_ip "GetExternalIPAddress" "" Fixture.start)
      as (_ & _ & _ & H).
    rewrite (H (Exn OtherException "codec can't encode") tt eq_refl);
      [reflexivity | discriminate].
Defined.

(** The round of a well-formed action returns when the POST raises
    nothing but a [RequestException]. *)
Lemma action_body_returns
      {W : Type} (env : Env W) (control_url : string)
      (service_type : option string) (action : ET.Element) (name : string)
      (parsed : list (option string * option string)) (st : state W) :
  find_text action "name" scpd_ns = Ret (Some name) ->
  Forall2 argument_reads (ET.findall_desc action "argument" scpd_ns) parsed ->
  (forall hs body e w,
      env_post env control_url hs body (world st) = (Raise e, w) ->
      class e = RequestException) ->
  fst (action_body env control_url service_type action st) = Ret tt.
Proof.
  intros Hname Hargs Hpost.
  unfold action_body. unfold bind at 1, lift at 1. rewrite Hname.
  unfold bind at 1, print at 1, emit at 1.
  unfold bind at 1. rewrite (arguments_loop _ _ Hargs).
  cbn [fst world log open_socks next_fd app].
  unfold invoke_if_eligible, attr. unfold bind at 1, lift at 1.
  destruct (PyStr.startswith name "Get" && _)%bool; [|reflexivity].
  unfold bind at 1, perform_soap_request, soap_handlers, try_except,
    requests_post.
  unfold_m.
  destruct (env_post env control_url _ _ (world st)) as [[r|e] w] eqn:E.
  - destruct (raise_for_status r) as [[]|e] eqn:Hstatus.
    + cbn [fst snd]. destruct (truthy (Some (text r))); reflexivity.
    + assert (Hclass : class e = RequestException).
      { revert Hstatus. unfold raise_for_status.
        repeat match goal with
               | |- context [if ?b then _ else _] => destruct b
               end; intros [= <-] || discriminate; reflexivity. }
      rewrite Hclass. reflexivity.
  - rewrite (Hpost _ _ _ _ E). reflexivity.
Qed.

(** X8.  A SOAP request that fails with a [RequestException] or an error
    status does not stop the loop over the actions: the round of a
    well-formed action returns, and the loop goes on with the next
    action. *)
Theorem soap_failure_keeps_loop
        {W : Type} (env : Env W) (control_url : string)
        (service_type : option string) (action : ET.Element) (name : string)
        (parsed : list (option string * option string)) (st : state W) :
  find_text action "name" scpd_ns = Ret (Some name) ->
  Forall2 argument_reads (ET.findall_desc action "argument" scpd_ns) parsed ->
  (forall hs body e w,
      env_post env control_url hs body (world st) = (Raise e, w) ->
      class e = RequestException) ->
  fst (action_body env control_url service_type action st) = Ret tt
  /\ (forall rest,
         for_each (action :: rest) (action_body env control_url service_type) st
         = for_each rest (action_body env control_url service_type)
                    (snd (action_body env control_url service_type action st))).
Proof.
  intros Hname Hargs Hpost.
  assert (Hret := action_body_returns env control_url service_type action name
                                      parsed st Hname Hargs Hpost).
  split; [exact Hret|].
  intros rest. cbn [for_each]. unfold bind at 1.
  destruct (action_body env control_url service_type action st) as [[[]|e] st1];
    [reflexivity | discriminate].
Qed.

Lemma soap_failure_keeps_loop_witness :
  let env :=
    Fixture.env_of (Scenario.posting (Raise (Exn RequestException "Read timed out."))) in
  fst (action_body env Scenario.control_url (Some Fixture.wan_ip)
                   Fixture.GetExternalIPAddress Fixture.start)
  = Ret tt.
Proof.
  intros env.
  apply (soap_failure_keeps_loop
           env Scenario.control_url (Some Fixture.wan_ip)
           Fixture.GetExternalIPAddress "GetExternalIPAddress"
           [(Some "NewExternalIPAddress", Some "out")] Fixture.start).
  - reflexivity.
  - repeat constructor.
  - intros hs body e w [= <- _]. reflexivity.
Defined.

(** ** URLs of a service *)

Lemma rcut_absent (c : ascii) (s : string) :
  PyStr.mem c s = false -> PyStr.rcut c s = None.
Proof.
  induction s as [|a s IH]; simpl; [reflexivity|].
  intros H. apply orb_false_iff in H as [Ha Hs].
  now rewrite (IH Hs), Ha.
Qed.

Lemma rcut_last (c : ascii) (base file : string) :
  PyStr.mem c file = false ->
  PyStr.rcut c (base ++ String c file) = Some (base, file).
Proof.
  intros Hfile. induction base as [|a base IH]; simpl.
  - now rewrite (rcut_absent c file Hfile), Ascii.eqb_refl.
  - now rewrite IH.
Qed.

(** X9.  The URL of an SCPD or of a control point is the location of the
    device description up to its last slash, that slash left out, followed
    by the path as it stands in the description ([None] for an element
    without text); a location without slash is kept whole.  The join never
    fails. *)
Theorem join_url_drops_last_segment (path : option string) :
  (forall base file,
      PyStr.mem "/" file = false ->
      join_url (base ++ "/" ++ file) path = Ret (base ++ fmt path))
  /\ (forall location,
         PyStr.mem "/" location = false ->
         join_url location path = Ret (location ++ fmt path))
  /\ (forall location, exists joined, join_url location path = Ret joined).
Proof.
  split; [|split].
  - intros base file Hfile. unfold join_url, PyStr.rsplit1.
    simpl append. now rewrite (rcut_last "/" base file Hfile).
  - intros location Hnone. unfold join_url, PyStr.rsplit1.
    now rewrite (rcut_absent "/" location Hnone).
  - intros location. unfold join_url, PyStr.rsplit1.
    destruct (PyStr.rcut "/" location) as [[h t]|]; eexists; reflexivity.
Qed.

Lemma join_url_drops_last_segment_witness :
  join_url "http://192.168.1.1:5000/desc.xml" (Some "/control")
  = Ret "http://192.168.1.1:5000/control"
  /\ join_url "http://192.168.1.1:5000/igd/desc.xml"
              (Some "http://192.168.1.1:5000/control")
     = Ret "http://192.168.1.1:5000/igdhttp://192.168.1.1:5000/control"
  /\ join_url "gateway" None = Ret "gatewayNone".
Proof.
  split; [|split].
  - apply (proj1 (join_url_drops_last_segment (Some "/control"))
                 "http://192.168.1.1:5000" "desc.xml").
    reflexivity.
  - apply (proj1 (join_url_drops_last_segment
                    (Some "http://192.168.1.1:5000/control"))
                 "http://192.168.1.1:5000/igd" "desc.xml").
    reflexivity.
  - apply (proj1 (proj2 (join_url_drops_last_segment None)) "gateway").
    reflexivity.
Defined.

(** ** The arguments of an action *)

(** X10.  The loop over the arguments of an action prints one line per
    argument, in the declared order, and splits the names, in that order,
    into those whose direction is not [out] and those whose direction is
    [out]; no name is lost and nothing else happens. *)
Theorem arguments_split_in_order
        {W : Type} (st : state W) (arguments : list ET.Element)
        (parsed : list (option string * option string)) :
  Forall2 argument_reads arguments parsed ->
  exists arguments_in arguments_out st',
    for_fold arguments ([], []) argument_body st
    = (Ret (arguments_in, arguments_out), st')
    /\ arguments_in = map fst (filter (fun p => negb (is_out (snd p))) parsed)
    /\ arguments_out = map fst (filter (fun p => is_out (snd p)) parsed)
    /\ (length arguments_in + length arguments_out = length arguments)%nat
    /\ emitted st st' = map argument_line parsed
    /\ world st' = world st.
Proof.
  intros Hargs. eexists _, _, _. split; [apply (arguments_loop _ _ Hargs)|].
  cbn [app]. repeat split.
  - rewrite !length_map, (Forall2_length Hargs).
    rewrite <- (filter_length (fun p => is_out (snd p)) parsed). lia.
  - now apply emitted_app.
Qed.

Lemma arguments_split_in_order_witness :
  fst (for_fold [ Fixture.argument "NewExternalPort" "in";
                  Fixture.argument "NewInternalPort" "out";
                  Fixture.argument "NewProtocol" "in" ]
                ([], []) argument_body Fixture.start)
  = Ret ([Some "NewExternalPort"; Some "NewProtocol"], [Some "NewInternalPort"]).
Proof.
  destruct (arguments_split_in_order
              Fixture.start
              [ Fixture.argument "NewExternalPort" "in";
                Fixture.argument "NewInternalPort" "out";
                Fixture.argument "NewProtocol" "in" ]
              [ (Some "NewExternalPort", Some "in");
                (Some "NewInternalPort", Some "out");
                (Some "NewProtocol", Some "in") ])
    as (ins & outs & st' & Hrun & -> & -> & _).
  - repeat constructor.
  - rewrite Hrun. reflexivity.
Defined.

(** ** Failures on the device description *)



(** ** The discovery request *)

Lemma string_app_assoc (a b c : string) : (a ++ b) ++ c = a ++ b ++ c.
Proof.
  induction a as [|x a IH]; simpl; [reflexivity | now rewrite IH].
Qed.

Lemma mem_app (c : ascii) (a b : string) :
  PyStr.mem c (a ++ b) = (PyStr.mem c a || PyStr.mem c b)%bool.
Proof.
  induction a as [|x a IH]; simpl; [reflexivity|].
  now rewrite IH, orb_assoc.
Qed.

Lemma split_crlf_line (a b : string) :
  PyStr.mem PyStr.CR a = false ->
  PyStr.split_crlf (a ++ PyStr.CRLF ++ b) = a :: PyStr.split_crlf b.
Proof.
  intros Ha. induction a as [|c a IH].
  - reflexivity.
  - simpl in Ha. apply orb_false_iff in Ha as [Hc Ha].
    specialize (IH Ha).
    change ((String c a ++ PyStr.CRLF ++ b))
      with (String c (a ++ PyStr.CRLF ++ b)).
    cbn [PyStr.split_crlf]. rewrite IH, Hc. cbn [andb].
    destruct (a ++ PyStr.CRLF ++ b); reflexivity.
Qed.

Lemma split_crlf_last (a : string) :
  PyStr.mem PyStr.CR a = false -> PyStr.split_crlf a = [a].
Proof.
  induction a as [|c a IH]; [reflexivity|].
  simpl PyStr.mem. intros Ha. apply orb_false_iff in Ha as [Hc Ha].
  cbn [PyStr.split_crlf]. rewrite (IH Ha), Hc. cbn [andb].
  destruct a; reflexivity.
Qed.

Lemma digits_without_cr (d : Decimal.uint) :
  PyStr.mem PyStr.CR (NilEmpty.string_of_uint d) = false.
Proof.
  induction d; simpl; auto.
Qed.

Lemma of_Z_without_cr (n : Z) : PyStr.mem PyStr.CR (PyStr.of_Z n) = false.
Proof.
  unfold PyStr.of_Z, NilZero.string_of_int, NilZero.string_of_uint.
  destruct (Z.to_int n) as [d|d]; destruct d; simpl;
    try reflexivity; apply digits_without_cr.
Qed.

(** X13.  For a gateway address without carriage return, the discovery
    datagram read as lines ended by CR LF is the request line, the headers
    [ST], [MX], [MAN] and [HOST], and an empty line; [HOST] names the
    address and the port the datagram is for. *)
Theorem msearch_lines (gateway_ip : string) (port : Z) :
  PyStr.mem PyStr.CR gateway_ip = false ->
  PyStr.split_crlf (msearch gateway_ip port)
  = [ "M-SEARCH * HTTP/1.1";
      "ST: upnp:rootdevice";
      "MX: 2";
      "MAN: " ++ DQ ++ "ssdp:discover" ++ DQ;
      "HOST: " ++ gateway_ip ++ ":" ++ PyStr.of_Z port;
      "";
      "" ].
Proof.
  intros Hip. unfold msearch.
  rewrite split_crlf_line by reflexivity.
  rewrite split_crlf_line by reflexivity.
  rewrite split_crlf_line by reflexivity.
  change ("MAN: " ++ DQ ++ "ssdp:discover" ++ DQ ++ PyStr.CRLF
          ++ "HOST: " ++ gateway_ip ++ ":" ++ PyStr.of_Z port ++ PyStr.CRLF
          ++ PyStr.CRLF)
    with (("MAN: " ++ DQ ++ "ssdp:discover" ++ DQ) ++ PyStr.CRLF
          ++ "HOST: " ++ gateway_ip ++ ":" ++ PyStr.of_Z port ++ PyStr.CRLF
          ++ PyStr.CRLF).
  rewrite split_crlf_line by reflexivity.
  replace ("HOST: " ++ gateway_ip ++ ":" ++ PyStr.of_Z port ++ PyStr.CRLF
           ++ PyStr.CRLF)
    with (("HOST: " ++ gateway_ip ++ ":" ++ PyStr.of_Z port) ++ PyStr.CRLF
          ++ "" ++ PyStr.CRLF ++ "")
    by (cbn [append]; now rewrite !string_app_assoc).
  rewrite split_crlf_line.
  - rewrite split_crlf_line by reflexivity. reflexivity.
  - rewrite !mem_app, Hip, of_Z_without_cr. reflexivity.
Qed.

Lemma msearch_lines_witness :
  nth_error (PyStr.split_crlf (msearch "192.168.1.1" 1900)) 4
  = Some "HOST: 192.168.1.1:1900".
Proof.
  now rewrite (msearch_lines "192.168.1.1" 1900 eq_refl).
Defined.

(** ** The default gateway *)

Section GatewayFacts.

Import Gateway.

Context (int16 : string -> outcome Z).

Lemma scan_route_skip (before rest : list string) :
  Forall (passed_over int16) before ->
  scan_route int16 (before ++ rest) = scan_route int16 rest.
Proof.
  induction 1 as [|line before Hline _ IH]; [reflexivity|].
  destruct Hline as (destination & Hdest & Hskip).
  cbn [app scan_route]. unfold index at 1. rewrite Hdest. cbn [obind].
  destruct (String.eqb destination "00000000") eqn:E; cbn [negb]; [|exact IH].
  destruct Hskip as [Hne | (flags_field & flags & Hfield & Hflags & Hbit)].
  - apply String.eqb_eq in E. contradiction.
  - unfold index at 1. rewrite Hfield. cbn [obind]. rewrite Hflags. cbn [obind].
    rewrite Hbit. exact IH.
Qed.

Lemma scan_netstat_skip (before rest : list string) :
  Forall (fun l => PyStr.startswith l "default" = false
                   \/ (length (split_ws l) <= 1)%nat) before ->
  scan_netstat (before ++ rest) = scan_netstat rest.
Proof.
  induction 1 as [|line before Hline _ IH]; [reflexivity|].
  cbn [app scan_netstat].
  destruct (PyStr.startswith line "default") eqn:E; [|exact IH].
  destruct Hline as [H|H]; [discriminate|].
  destruct (Nat.ltb_spec 1 (length (split_ws line))); [lia | exact IH].
Qed.

End GatewayFacts.

Lemma byte_of_word (g : Z) (k : Z) :
  (0 <= k)%Z -> Z.land (Z.shiftr g k) 255 = ((g / 2 ^ k) mod 256)%Z.
Proof.
  intros Hk. change 255%Z with (Z.ones 8).
  rewrite Z.land_ones by lia. now rewrite Z.shiftr_div_pow2.
Qed.

(** X14.  On Linux the gateway is read off the first line of the routing
    table whose destination is [00000000] and whose flags have the gateway
    bit: the third field, a 32-bit number in hexadecimal, gives the four
    numbers of the address from its lowest byte to its highest.  Lines
    before it with another destination, the header among them, are passed
    over without a look at their other fields. *)
Theorem default_route_gives_gateway
        (host : Gateway.Host) (before after : list string) (line : string)
        (gateway_field flags_field : string) (flags g : Z) :
  Gateway.system host = "Linux" ->
  Gateway.route_lines host = Ret (before ++ line :: after)%list ->
  Forall (Gateway.passed_over (Gateway.int16 host)) before ->
  nth_error (Gateway.split_ws (PyStr.strip line)) 1 = Some "00000000" ->
  nth_error (Gateway.split_ws (PyStr.strip line)) 2 = Some gateway_field ->
  nth_error (Gateway.split_ws (PyStr.strip line)) 3 = Some flags_field ->
  Gateway.int16 host flags_field = Ret flags ->
  Z.land flags 2 <> 0%Z ->
  Gateway.int16 host gateway_field = Ret g ->
  (0 <= g < 2 ^ 32)%Z ->
  Gateway.get_default_gateway host
  = ([], Some (PyStr.of_Z (g mod 256) ++ "."
               ++ PyStr.of_Z (g / 256 mod 256) ++ "."
               ++ PyStr.of_Z (g / 65536 mod 256) ++ "."
               ++ PyStr.of_Z (g / 16777216 mod 256))).
Proof.
  intros Hsys Hlines Hbefore H1 H2 H3 Hflags Hbit Hg Hrange.
  unfold Gateway.get_default_gateway. rewrite Hsys, Hlines.
  cbn [String.eqb Ascii.eqb Bool.eqb obind].
  rewrite scan_route_skip by assumption.
  cbn [Gateway.scan_route]. unfold index. rewrite H1, H3, H2.
  cbn [obind String.eqb Ascii.eqb Bool.eqb negb].
  rewrite Hflags. cbn [obind].
  destruct (Z.eqb_spec (Z.land flags 2) 0) as [E|_]; [contradiction|].
  rewrite Hg. cbn [obind]. unfold Gateway.pack_le32.
  destruct ((0 <=? g) && (g <? 2 ^ 32))%Z eqn:E;
    [|apply andb_false_iff in E; lia].
  cbn [obind Gateway.inet_ntoa map String.concat].
  change 255%Z with (Z.ones 8) at 1. rewrite Z.land_ones by lia.
  rewrite !byte_of_word by lia.
  reflexivity.
Qed.

Lemma default_route_gives_gateway_witness :
  Gateway.get_default_gateway Gateway.linux_host = ([], Some "192.168.1.1").
Proof.
  apply (default_route_gives_gateway
           Gateway.linux_host
           [ Gateway.route_header ++ NL;
             "eth0	0001A8C0	00000000	0001	0	0	100	00FFFFFF	0	0	0" ++ NL ]
           []
           ("eth0	00000000	0101A8C0	0003	0	0	100	00000000	0	0	0" ++ NL)
           "0101A8C0" "0003" 3 16885952).
  - reflexivity.
  - reflexivity.
  - repeat constructor.
    + exists "Destination". split; [reflexivity | left; discriminate].
    + exists "0001A8C0". split; [reflexivity | left; discriminate].
  - reflexivity.
  - reflexivity.
  - reflexivity.
  - reflexivity.
  - discriminate.
  - reflexivity.
  - lia.
Defined.

(** X15.  Any exception while the routing table is read ends the lookup:
    the error is printed and [None] returned, even when a line further down
    holds the default route.  So it is for a table that cannot be opened,
    for a line with fewer than two fields (an empty line) and for a gateway
    field that is no number. *)
Theorem route_error_ends_lookup (host : Gateway.Host) :
  Gateway.system host = "Linux" ->
  let failed msg := ([Print ("Error fetching default gateway: " ++ msg)], None) in
  (forall e,
      Gateway.route_lines host = Raise e ->
      Gateway.get_default_gateway host = failed (message e))
  /\ (forall before line after,
         Gateway.route_lines host = Ret (before ++ line :: after)%list ->
         Forall (Gateway.passed_over (Gateway.int16 host)) before ->
         (length (Gateway.split_ws (PyStr.strip line)) < 2)%nat ->
         Gateway.get_default_gateway host = failed "list index out of range")
  /\ (forall before line after gateway_field flags_field flags e,
         Gateway.route_lines host = Ret (before ++ line :: after)%list ->
         Forall (Gateway.passed_over (Gateway.int16 host)) before ->
         nth_error (Gateway.split_ws (PyStr.strip line)) 1 = Some "00000000" ->
         nth_error (Gateway.split_ws (PyStr.strip line)) 2 = Some gateway_field ->
         nth_error (Gateway.split_ws (PyStr.strip line)) 3 = Some flags_field ->
         Gateway.int16 host flags_field = Ret flags ->
         Z.land flags 2 <> 0%Z ->
         Gateway.int16 host gateway_field = Raise e ->
         Gateway.get_default_gateway host = failed (message e)).
Proof.
  intros Hsys failed. subst failed. unfold Gateway.get_default_gateway.
  rewrite Hsys. cbn [String.eqb Ascii.eqb Bool.eqb].
  split; [|split].
  - intros e Hlines. now rewrite Hlines.
  - intros before line after Hlines Hbefore Hshort. rewrite Hlines.
    cbn [obind]. rewrite scan_route_skip by assumption.
    cbn [Gateway.scan_route]. unfold index at 1.
    destruct (nth_error (Gateway.split_ws (PyStr.strip line)) 1) eqn:E;
      [|reflexivity].
    assert (1 < length (Gateway.split_ws (PyStr.strip line)))%nat
      by (apply nth_error_Some; congruence).
    lia.
  - intros before line after gateway_field flags_field flags e
           Hlines Hbefore H1 H2 H3 Hflags Hbit Hg.
    rewrite Hlines. cbn [obind]. rewrite scan_route_skip by assumption.
    cbn [Gateway.scan_route]. unfold index. rewrite H1, H3, H2.
    cbn [obind String.eqb Ascii.eqb Bool.eqb negb].
    rewrite Hflags. cbn [obind].
    destruct (Z.eqb_spec (Z.land flags 2) 0) as [E|_]; [contradiction|].
    now rewrite Hg.
Qed.

Lemma route_error_ends_lookup_witness :
  Gateway.get_default_gateway Gateway.linux_host_blank_line
  = ([Print "Error fetching default gateway: list index out of range"], None).
Proof.
  apply (proj1 (proj2 (route_error_ends_lookup
                         Gateway.linux_host_blank_line eq_refl))
               [] NL
               ["eth0	00000000	0101A8C0	0003	0	0	100	00000000	0	0	0" ++ NL]).
  - reflexivity.
  - constructor.
  - apply Nat.ltb_lt. reflexivity.
Defined.

(** X16.  On macOS the gateway is the second field of the first line of
    [netstat -rn] that starts with [default] and has at least two fields;
    later [default] lines, such as the IPv6 one, are not looked at. *)
Theorem netstat_default_gives_gateway
        (host : Gateway.Host) (before after : list string) (line gw : string) :
  Gateway.system host = "Darwin" ->
  Gateway.netstat_lines host = Ret (before ++ line :: after)%list ->
  Forall (fun l => PyStr.startswith l "default" = false
                   \/ (length (Gateway.split_ws l) <= 1)%nat) before ->
  PyStr.startswith line "default" = true ->
  nth_error (Gateway.split_ws line) 1 = Some gw ->
  Gateway.get_default_gateway host = ([], Some gw).
Proof.
  intros Hsys Hlines Hbefore Hdefault Hgw.
  unfold Gateway.get_default_gateway. rewrite Hsys, Hlines.
  cbn [String.eqb Ascii.eqb Bool.eqb obind].
  rewrite scan_netstat_skip by assumption.
  cbn [Gateway.scan_netstat]. rewrite Hdefault.
  assert (Hlen : (1 < length (Gateway.split_ws line))%nat)
    by (apply nth_error_Some; congruence).
  destruct (Nat.ltb_spec 1 (length (Gateway.split_ws line))); [|lia].
  unfold index. now rewrite Hgw.
Qed.

Lemma netstat_default_gives_gateway_witness :
  Gateway.get_default_gateway Gateway.darwin_host = ([], Some "192.168.1.1").
Proof.
  apply (netstat_default_gives_gateway
           Gateway.darwin_host
           [ "Routing tables"; ""; "Internet:";
             "Destination        Gateway            Flags        Netif Expire" ]
           [ "127                127.0.0.1          UCS            lo0";
             "default            fe80::1%en0        UGcg           en0" ]
           "default            192.168.1.1        UGScg          en0").
  - reflexivity.
  - reflexivity.
  - repeat constructor.
  - reflexivity.
  - reflexivity.
Defined.

(** X17.  Without a default route the lookup returns [None] and prints
    nothing: on Linux when every line of the table is passed over, on macOS
    when no line starting with [default] has two fields, and on any other
    system without any lookup. *)
Theorem no_default_route_is_silent (host : Gateway.Host) :
  (forall lines,
      Gateway.system host = "Linux" ->
      Gateway.route_lines host = Ret lines ->
      Forall (Gateway.passed_over (Gateway.int16 host)) lines ->
      Gateway.get_default_gateway host = ([], None))
  /\ (forall lines,
         Gateway.system host = "Darwin" ->
         Gateway.netstat_lines host = Ret lines ->
         Forall (fun l => PyStr.startswith l "default" = false
                          \/ (length (Gateway.split_ws l) <= 1)%nat) lines ->
         Gateway.get_default_gateway host = ([], None))
  /\ (Gateway.system host <> "Linux" ->
      Gateway.system host <> "Darwin" ->
      Gateway.get_default_gateway host = ([], None)).
Proof.
  unfold Gateway.get_default_gateway. split; [|split].
  - intros lines Hsys Hlines Hskip. rewrite Hsys, Hlines.
    cbn [String.eqb Ascii.eqb Bool.eqb obind].
    rewrite <- (app_nil_r lines), scan_route_skip by assumption. reflexivity.
  - intros lines Hsys Hlines Hskip. rewrite Hsys, Hlines.
    cbn [String.eqb Ascii.eqb Bool.eqb obind].
    rewrite <- (app_nil_r lines), scan_netstat_skip by assumption. reflexivity.
  - intros Hlinux Hdarwin.
    apply String.eqb_neq in Hlinux, Hdarwin. now rewrite Hlinux, Hdarwin.
Qed.

Lemma no_default_route_is_silent_witness :
  Gateway.get_default_gateway
    {| Gateway.system := "Windows";
       Gateway.route_lines := Raise (Exn OtherException "No such file");
       Gateway.netstat_lines := Ret [];
       Gateway.int16 := Gateway.hex_int |}
  = ([], None).
Proof.
  apply (proj2 (proj2 (no_default_route_is_silent _))); discriminate.
Defined.

(** ** The actions of a service *)

Section ActionsOfService.

Context {W : Type} (env : Env W).
Context (control_url : string) (service_type : option string).

Hypothesis post_fails_softly :
  forall hs body e w w',
    env_post env control_url hs body w = (Raise e, w') ->
    class e = RequestException.

Lemma passes_test_spec (p : string * list (option string * option string)) :
  passes_test p
  = (PyStr.startswith (fst p) "Get"
     && (length (map fst (filter (fun a => negb (is_out (snd a))) (snd p))) =? 0)%nat)%bool.
Proof.
  unfold passes_test. f_equal.
  induction (snd p) as [|a l IH]; [reflexivity|].
  cbn [forallb filter]. destruct (is_out (snd a)); cbn [negb andb]; [exact IH|].
  reflexivity.
Qed.

(** The log only grows during a round. *)
Lemma action_body_extends_log (action : ET.Element) (st : state W) :
  exists evs,
    log (snd (action_body env control_url service_type action st))
    = (log st ++ evs)%list.
Proof.
  destruct (holds_action_body
              (emits_only (fun _ => True))
              (emits_only_refl _) (emits_only_trans _) env) with
    (control_url := control_url) (service_type := service_type)
    (action := action) (st := st) as (evs & Hlog & _).
  - intros line s. exists [Print line]. split; [reflexivity | now repeat constructor].
  - intros cu stype name _ s. unfold requests_post.
    destruct (env_post env cu _ _ (world s)) as [r w].
    eexists [_]. split; [reflexivity | now repeat constructor].
  - now exists evs.
Qed.

Lemma actions_loop_posts (actions : list ET.Element)
      (read : list (string * list (option string * option string))) :
  Forall2 action_reads actions read ->
  forall st : state W,
    fst (for_each actions (action_body env control_url service_type) st) = Ret tt
    /\ exists evs,
         log (snd (for_each actions (action_body env control_url service_type) st))
         = (log st ++ evs)%list
         /\ filter is_post evs
            = map (soap_post control_url service_type) (filter passes_test read).
Proof.
  induction 1 as [|action p actions read [Hname Hargs] _ IH]; intros st.
  - split; [reflexivity|]. exists []. split; [now rewrite app_nil_r | reflexivity].
  - cbn [for_each]. unfold bind at 1 2.
    assert (Hret := action_body_returns env control_url service_type action
                      (fst p) (snd p) st Hname Hargs
                      (fun hs body e w => post_fails_softly hs body e (world st) w)).
    assert (Hposts := action_body_posts env control_url service_type action
                        (fst p) (snd p) st Hname Hargs).
    destruct (action_body_extends_log action st) as (evs1 & Hlog1).
    rewrite (emitted_app _ _ _ Hlog1) in Hposts.
    destruct (action_body env control_url service_type action st)
      as [[[]|e] st1]; [|discriminate].
    cbn [snd] in Hlog1.
    destruct (IH st1) as (Hrest & evs2 & Hlog2 & Hposts2).
    split; [exact Hrest|].
    exists (evs1 ++ evs2)%list. split.
    + now rewrite Hlog2, Hlog1, app_assoc.
    + rewrite filter_app, Hposts, Hposts2. cbn [filter].
      rewrite <- passes_test_spec.
      destruct (passes_test p); reflexivity.
Qed.

End ActionsOfService.

(** X18.  When every action of a service is well formed and the POST
    raises nothing but [RequestException]s, the loop over the actions
    returns and has sent one SOAP request for each action that passes the
    test of line 145, in the order of the actions, and none for the others,
    whatever the answers to the requests were. *)
Theorem eligible_actions_invoked_in_order
        {W : Type} (env : Env W) (control_url : string)
        (service_type : option string) (actions : list ET.Element)
        (read : list (string * list (option string * option string)))
        (st : state W) :
  (forall hs body e w w',
      env_post env control_url hs body w = (Raise e, w') ->
      class e = RequestException) ->
  Forall2 action_reads actions read ->
  let run := for_each actions (action_body env control_url service_type) st in
  fst run = Ret tt
  /\ filter is_post (emitted st (snd run))
     = map (soap_post control_url service_type) (filter passes_test read).
Proof.
  intros Hpost Hread run. subst run.
  destruct (actions_loop_posts env control_url service_type Hpost actions read
                               Hread st) as (Hret & evs & Hlog & Hposts).
  split; [exact Hret|].
  now rewrite (emitted_app _ _ _ Hlog).
Qed.

Lemma eligible_actions_invoked_in_order_witness :
  let env :=
    Fixture.env_of (Scenario.posting (Raise (Exn RequestException "Read timed out."))) in
  filter is_post
         (emitted Fixture.start
                  (snd (for_each [ Fixture.GetExternalIPAddress;
                                   Fixture.SetConnectionType;
                                   Fixture.GetWarnings;
                                   Fixture.GetExternalIPAddress ]
                                 (action_body env Scenario.control_url
                                              (Some Fixture.wan_ip))
                                 Fixture.start)))
  = [ soap_post Scenario.control_url (Some Fixture.wan_ip)
                ("GetExternalIPAddress", []);
      soap_post Scenario.control_url (Some Fixture.wan_ip)
                ("GetExternalIPAddress", []) ].
Proof.
  intros env.
  destruct (eligible_actions_invoked_in_order
              env Scenario.control_url (Some Fixture.wan_ip)
              [ Fixture.GetExternalIPAddress; Fixture.SetConnectionType;
                Fixture.GetWarnings; Fixture.GetExternalIPAddress ]
              [ ("GetExternalIPAddress", [(Some "NewExternalIPAddress", Some "out")]);
                ("SetConnectionType", [(Some "NewConnectionType", Some "in")]);
                ("GetWarnings", [(Some "NewLevel", Some "inout")]);
                ("GetExternalIPAddress", [(Some "NewExternalIPAddress", Some "out")]) ]
              Fixture.start) as (_ & Hposts).
  - intros hs body e w w' [= <- _]. reflexivity.
  - repeat constructor.
  - rewrite Hposts. reflexivity.
Defined.

(** ** Runs that reach the services *)

Lemma join_url_base (location : string) (path : option string) :
  join_url location path = Ret (url_base location ++ fmt path).
Proof.
  unfold join_url, PyStr.rsplit1, url_base.
  destruct (PyStr.rcut "/" location) as [[h t]|]; reflexivity.
Qed.

(** A round that raises anything but a [RequestException] or a
    [ParseError] ends the loop and the run with it. *)
Lemma loop_failure_uncaught
      {W : Type} (env : Env W) (location : string)
      (before rest : list ET.Element) (service : ET.Element)
      (st st1 st2 : state W) (e : exn) :
  for_each before (service_body env location) st = (Ret tt, st1) ->
  service_body env location service st1 = (Raise e, st2) ->
  class e = AttributeError ->
  try_except (for_each (before ++ service :: rest) (service_body env location))
             actions_handlers st
  = (Raise e, st2).
Proof.
  intros Hbefore Hbody Hclass.
  unfold try_except. rewrite (for_each_app _ _ _ _ _ Hbefore).
  rewrite (for_each_raises _ _ _ _ _ _ Hbody).
  unfold actions_handlers. now rewrite Hclass.
Qed.

Section Rounds.

Context {W : Type} (env : Env W) (location : string).

(** What is left of a round once the SCPD is fetched. *)
Let after_fetch (control_url : string) (service_type : option string)
    (scpd_response : response) : M W unit :=
  lift (raise_for_status scpd_response) ;;
  scpd_root <- lift (env_fromstring env (content scpd_response)) ;;
  print "Available Actions:" ;;
  for_each (ET.findall_desc scpd_root "action" scpd_ns)
           (action_body env control_url service_type).

(** A round prints what it read, fetches the SCPD and goes on with the
    answer. *)
Lemma service_body_fetch
      (service : ET.Element) (service_type control_path scpd_path : option string)
      (s : state W) :
  read_service service = Ret (service_type, control_path, scpd_path) ->
  service_body env location service s
  = let '(r, w) := env_get env (url_base location ++ fmt scpd_path) (world s) in
    let s1 :=
      State w
            (log s ++ service_events location (service_type, control_path, scpd_path))
            (open_socks s) (next_fd s) in
    match r with
    | Raise e => (Raise e, s1)
    | Ret scpd_response =>
        after_fetch (url_base location ++ fmt control_path) service_type
                    scpd_response s1
    end.
Proof.
  intros Hread. unfold service_body. unfold bind at 1, lift at 1.
  rewrite Hread. unfold service_rest.
  rewrite !join_url_base.
  unfold bind at 1, print at 1, emit at 1. cbv beta iota.
  unfold bind at 1, print at 1, emit at 1. cbv beta iota.
  unfold bind at 1, print at 1, emit at 1. cbv beta iota.
  unfold bind at 1, lift at 1. cbv beta iota.
  unfold bind at 1, lift at 1. cbv beta iota.
  unfold bind at 1, requests_get. cbn [world log open_socks next_fd].
  destruct (env_get env (url_base location ++ fmt scpd_path) (world s))
    as [[scpd_response|e] w]; cbn [service_events]; flat_log; reflexivity.
Qed.

(** After the fetch a round fetches nothing more. *)
Lemma after_fetch_has_no_get
      (control_url : string) (service_type : option string)
      (scpd_response : response) :
  holds_over (emits_only (fun e => is_get e = false))
             (after_fetch control_url service_type scpd_response).
Proof.
  set (R := emits_only (fun e => is_get e = false)).
  assert (Hrefl := emits_only_refl (W := W) (fun e => is_get e = false)).
  assert (Htrans := emits_only_trans (W := W) (fun e => is_get e = false)).
  assert (Hprint : forall line, holds_over R (print (W := W) line)).
  { intros line s. exists [Print line]. split; [reflexivity | now repeat constructor]. }
  unfold after_fetch.
  apply (holds_bind R Htrans); [apply (holds_lift R Hrefl) | intros _].
  apply (holds_bind R Htrans); [apply (holds_lift R Hrefl) | intros scpd_root].
  apply (holds_bind R Htrans); [apply Hprint | intros _].
  apply (holds_for_each R Hrefl Htrans). intros action.
  apply (holds_action_body R Hrefl Htrans env Hprint).
  intros cu stype name _ s. unfold requests_post.
  destruct (env_post env cu _ _ (world s)) as [r w].
  eexists [_]. split; [reflexivity | now repeat constructor].
Qed.

(** A round starts with the three lines and the fetch of its record, and
    fetches nothing else. *)
Lemma round_fetches
      (service : ET.Element)
      (record : option string * option string * option string) (s : state W) :
  read_service service = Ret record ->
  exists tail,
    log (snd (service_body env location service s))
    = (log s ++ service_events location record ++ tail)%list
    /\ filter is_get tail = [].
Proof.
  destruct record as [[service_type control_path] scpd_path]. intros Hread.
  rewrite (service_body_fetch _ _ _ _ s Hread).
  destruct (env_get env (url_base location ++ fmt scpd_path) (world s))
    as [[scpd_response|e] w]; cbv beta iota zeta.
  - destruct (after_fetch_has_no_get (url_base location ++ fmt control_path)
                                     service_type scpd_response
                                     (State w (log s ++ service_events location
                                                 (service_type, control_path, scpd_path))
                                            (open_socks s) (next_fd s)))
      as (tail & Hlog & Htail).
    exists tail. split.
    + cbn [log] in Hlog. now rewrite Hlog, <- app_assoc.
    + clear Hlog. induction Htail as [|e evs He _ IH]; [reflexivity|].
      cbn [filter]. now rewrite He.
  - exists []. split; [cbn [snd log]; now rewrite app_nil_r | reflexivity].
Qed.

(** The loop fetches the SCPDs of the records in their order, up to the
    round that raises. *)
Lemma loop_fetches
      (services : list ET.Element)
      (records : list (option string * option string * option string)) :
  Forall2 (fun service record => read_service service = Ret record)
          services records ->
  forall s : state W,
  exists n evs,
    (n <= length records)%nat
    /\ (0 < length records -> 0 < n)%nat
    /\ log (snd (for_each services (service_body env location) s))
       = (log s ++ evs)%list
    /\ filter is_get evs = map (scpd_fetch location) (firstn n records)
    /\ (fst (for_each services (service_body env location) s) = Ret tt ->
        n = length records).
Proof.
  induction 1 as [|service record services records Hread _ IH]; intros s.
  - exists 0%nat, []. cbn. rewrite app_nil_r. repeat split; lia.
  - destruct (round_fetches service record s Hread) as (tail & Hlog & Htail).
    assert (Hfirst : filter is_get (service_events location record ++ tail)
                     = [scpd_fetch location record]).
    { rewrite filter_app, Htail.
      now destruct record as [[service_type control_path] scpd_path]. }
    cbn [for_each]. unfold bind at 1 2.
    destruct (service_body env location service s) as [[[]|e] s1]; cbn [snd] in Hlog.
    + destruct (IH s1) as (n & evs & Hn & Hpos & Hlog' & Hevs & Hall).
      exists (S n), (service_events location record ++ tail ++ evs)%list.
      cbn [length firstn map]. repeat split; try lia.
      * rewrite Hlog', Hlog. now rewrite <- !app_assoc.
      * rewrite app_assoc, filter_app, Hfirst, Hevs. reflexivity.
      * intros Hret. now rewrite (Hall Hret).
    + exists 1%nat, (service_events location record ++ tail)%list.
      cbn [length firstn map snd fst]. repeat split; try lia.
      * exact Hlog.
      * exact Hfirst.
      * discriminate.
Qed.

End Rounds.

(** What the round of a malformed action does. *)
Lemma malformed_action_body
      {W : Type} (env : Env W) (control_url : string)
      (service_type : option string) (action : ET.Element) (s : state W) :
  (ET.find action "name" scpd_ns = None ->
   action_body env control_url service_type action s
   = (Raise (Exn AttributeError "'NoneType' object has no attribute 'text'"), s))
  /\ (forall parsed,
         find_text action "name" scpd_ns = Ret None ->
         Forall2 argument_reads (ET.findall_desc action "argument" scpd_ns) parsed ->
         action_body env control_url service_type action s
         = (Raise (Exn AttributeError
                       "'NoneType' object has no attribute 'startswith'"),
            State (world s) (log s ++ Print "  - None" :: map argument_line parsed)
                  (open_socks s) (next_fd s))).
Proof.
  split.
  - intros Hfind. unfold action_body, find_text, bind, lift.
    rewrite Hfind. reflexivity.
  - intros parsed Hname Hargs. unfold action_body.
    unfold bind at 1, lift at 1. rewrite Hname.
    unfold bind at 1, print at 1, emit at 1.
    unfold bind at 1. rewrite (arguments_loop _ _ Hargs).
    cbn [fst world log open_socks next_fd app].
    unfold invoke_if_eligible, attr, bind, lift. flat_log. reflexivity.
Qed.

Section ReachedServices.

Context {W : Type} (env : Env W).
Context (st st2 : state W) (gw reply location : string) (w1 w3 : W).
Context (xml : response) (root : ET.Element).

(** The gateway is found and answers the discovery; its reply names the
    location of the device description, which is fetched and parsed. *)
Hypothesis found_gateway : env_gateway env (world st) = (Some gw, w1).
Hypothesis gateway_not_empty : PyStr.truthy gw = true.
Hypothesis got_reply :
  get_upnp_description env gw 1900
    (State w1 (log st) (open_socks st) (next_fd st)) = (Ret (Some reply), st2).
Hypothesis reply_not_empty : PyStr.truthy reply = true.
Hypothesis found_location : extract_location reply = Ret (Some location).
Hypothesis fetched : env_get env location (world st2) = (Ret xml, w3).
Hypothesis status_ok : (status_code xml < 400 \/ 600 <= status_code xml)%Z.
Hypothesis parsed_root : env_fromstring env (content xml) = Ret root.

(** Such a run is the loop over the services of the description, inside
    the [try] block. *)
Lemma run_reaches_services :
  get_upnp_actions env st
  = try_except (for_each (services_of root) (service_body env location))
               actions_handlers (described st2 location xml w3).
Proof.
  rewrite (get_upnp_actions_discovered env st st2 gw reply w1) by assumption.
  rewrite reply_not_empty. unfold try_except. f_equal.
  unfold after_discovery. unfold bind at 1, lift at 1.
  rewrite found_location. unfold describe_device, requests_get.
  unfold_m. rewrite fetched. cbn [world log open_socks next_fd].
  rewrite (raise_for_status_ok xml status_ok), parsed_root.
  unfold described. flat_log. reflexivity.
Qed.

(** C5, as the code has it.  In a run that reaches the services, when the
    loop comes to a [service] element that misses [serviceType],
    [controlURL] or [SCPDURL], reading it raises [AttributeError]: no record
    comes out and nothing is printed for the element, no [except] clause
    catches the exception, so that the run ends with it, in the state the
    services before had left, and the services after it are not
    processed. *)
Theorem incomplete_service_raises
        (before rest : list ET.Element) (service : ET.Element) (st4 : state W) :
  services_of root = (before ++ service :: rest)%list ->
  for_each before (service_body env location) (described st2 location xml w3)
  = (Ret tt, st4) ->
  ET.find service "serviceType" device_ns = None
  \/ ET.find service "controlURL" device_ns = None
  \/ ET.find service "SCPDURL" device_ns = None ->
  let error := Exn AttributeError "'NoneType' object has no attribute 'text'" in
  read_service service = Raise error
  /\ get_upnp_actions env st = (Raise error, st4).
Proof.
  intros Hservices Hbefore Hmissing error.
  rewrite run_reaches_services, Hservices.
  now apply incomplete_service_in_loop.
Qed.

(** C4, as the code has it.  In a run that reaches the services, when the
    fetch of the SCPD of a service raises a [RequestException] or answers a
    status in 400..599, or when the parser refuses the SCPD with a
    [ParseError], the [except] clause of [get_upnp_actions] prints the error
    and the run is over: after the lines and the fetch of that service
    nothing happens but that print, so the services after it are neither
    fetched nor parsed and none of their actions is invoked. *)
Theorem scpd_failure_ends_run
        (before rest : list ET.Element) (service : ET.Element)
        (service_type control_path scpd_path : option string) (st4 : state W) :
  services_of root = (before ++ service :: rest)%list ->
  for_each before (service_body env location) (described st2 location xml w3)
  = (Ret tt, st4) ->
  read_service service = Ret (service_type, control_path, scpd_path) ->
  let scpd_url := url_base location ++ fmt scpd_path in
  let ended w line :=
    (Ret tt,
     State w
           (log st4
            ++ service_events location (service_type, control_path, scpd_path)
            ++ [Print line])
           (open_socks st4) (next_fd st4)) in
  (forall e w,
      env_get env scpd_url (world st4) = (Raise e, w) ->
      class e = RequestException ->
      get_upnp_actions env st
      = ended w ("Error while connecting to gateway: " ++ message e))
  /\ (forall r w,
         env_get env scpd_url (world st4) = (Ret r, w) ->
         (400 <= status_code r < 600)%Z ->
         exists msg,
           get_upnp_actions env st
           = ended w ("Error while connecting to gateway: " ++ msg))
  /\ (forall r w e,
         env_get env scpd_url (world st4) = (Ret r, w) ->
         (status_code r < 400 \/ 600 <= status_code r)%Z ->
         env_fromstring env (content r) = Raise e ->
         class e = ParseError ->
         get_upnp_actions env st = ended w ("Error parsing XML: " ++ message e)).
Proof.
  intros Hservices Hbefore Hread scpd_url ended. subst scpd_url ended.
  rewrite run_reaches_services, Hservices.
  split; [|split].
  - intros e w Hget Hclass.
    rewrite (loop_failure_caught env location before rest service _ st4
               (State w (log st4 ++ service_events location
                           (service_type, control_path, scpd_path))
                      (open_socks st4) (next_fd st4)) e Hbefore).
    + rewrite Hclass. cbn [class_eqb world log open_socks next_fd].
      now rewrite <- app_assoc.
    + rewrite (service_body_fetch env location _ _ _ _ st4 Hread), Hget.
      reflexivity.
    + now left.
  - intros r w Hget Hstatus.
    destruct (raise_for_status_error r Hstatus) as [msg Hmsg]. exists msg.
    rewrite (loop_failure_caught env location before rest service _ st4
               (State w (log st4 ++ service_events location
                           (service_type, control_path, scpd_path))
                      (open_socks st4) (next_fd st4))
               (Exn RequestException msg) Hbefore).
    + cbn [class class_eqb message world log open_socks next_fd].
      now rewrite <- app_assoc.
    + rewrite (service_body_fetch env location _ _ _ _ st4 Hread), Hget.
      unfold bind at 1, lift at 1. now rewrite Hmsg.
    + now left.
  - intros r w e Hget Hstatus Hparse Hclass.
    rewrite (loop_failure_caught env location before rest service _ st4
               (State w (log st4 ++ service_events location
                           (service_type, control_path, scpd_path))
                      (open_socks st4) (next_fd st4)) e Hbefore).
    + rewrite Hclass. cbn [class_eqb world log open_socks next_fd].
      now rewrite <- app_assoc.
    + rewrite (service_body_fetch env location _ _ _ _ st4 Hread), Hget.
      unfold bind at 1, lift at 1. rewrite (raise_for_status_ok r Hstatus).
      unfold bind at 1, lift at 1. now rewrite Hparse.
    + now right.
Qed.

(** C8, as the code has it.  Let [services_of root], the [service]
    children of the [serviceList] elements of the description, list after
    list, be N elements that have the children [serviceType], [controlURL]
    and [SCPDURL], with the texts of [records].  Then the loop reads of each
    element the text of the three children as it is; the round of an
    element starts with the three lines and the fetch made of the texts
    read; and a run that reaches the services fetches, after the
    description, the SCPDs of the first n records in their order and
    nothing else, where n is at least 1 when N is, and n is N when the run
    returns without the line of an [except] clause.  The order is the
    document order as long as no [serviceList] lies inside another. *)
Theorem services_read_in_order
        (records : list (option string * option string * option string)) :
  Forall2 service_has (services_of root) records ->
  let run := get_upnp_actions env st in
  let events := emitted (described st2 location xml w3) (snd run) in
  Forall2 (fun service record => read_service service = Ret record)
          (services_of root) records
  /\ Forall2 (fun service record =>
                forall s : state W,
                  firstn 4 (emitted s (snd (service_body env location service s)))
                  = service_events location record)
             (services_of root) records
  /\ (exists n,
         (n <= length records)%nat
         /\ (0 < length records -> 0 < n)%nat
         /\ filter is_get events = map (scpd_fetch location) (firstn n records)
         /\ (fst run = Ret tt -> existsb reports_failure events = false ->
             n = length records))
  /\ (lists_not_nested (ET.descendants root) ->
      subseq (services_of root) (ET.descendants root)).
Proof.
  intros Hhas run events.
  assert (Hread : Forall2 (fun service record => read_service service = Ret record)
                          (services_of root) records).
  { induction Hhas as [|service record services records Hs _ IH];
      [constructor|].
    constructor; [now apply read_service_complete | exact IH]. }
  split; [exact Hread|]. split; [|split].
  - clear Hhas.
    induction Hread as [|service record services records Hs _ IH];
      [constructor|].
    constructor; [|exact IH].
    intros s. destruct (round_fetches env location service record s Hs)
      as (tail & Hlog & _).
    rewrite (emitted_app _ _ _ Hlog).
    now destruct record as [[service_type control_path] scpd_path].
  - destruct (loop_fetches env location _ _ Hread (described st2 location xml w3))
      as (n & evs & Hn & Hpos & Hlog & Hevs & Hall).
    exists n. split; [exact Hn|]. split; [exact Hpos|].
    subst events run. rewrite run_reaches_services. unfold try_except.
    destruct (for_each (services_of root) (service_body env location)
                       (described st2 location xml w3)) as [[[]|e] s'];
      cbn [fst snd] in *.
    + rewrite (emitted_app _ _ _ Hlog). split; [exact Hevs|].
      intros _ _. now apply Hall.
    + unfold actions_handlers.
      destruct (class_eqb (class e) RequestException);
        [|destruct (class_eqb (class e) ParseError)];
        unfold print, emit; cbn [fst snd log].
      * rewrite (emitted_app
                   (described st2 location xml w3) _
                   (evs ++ [Print ("Error while connecting to gateway: "
                                   ++ message e)]))
          by (cbn [log]; now rewrite Hlog, <- app_assoc).
        rewrite filter_app, app_nil_r. split; [exact Hevs|].
        intros _. rewrite existsb_app. cbn [existsb reports_failure].
        rewrite startswith_app, orb_true_r. discriminate.
      * rewrite (emitted_app
                   (described st2 location xml w3) _
                   (evs ++ [Print ("Error parsing XML: " ++ message e)]))
          by (cbn [log]; now rewrite Hlog, <- app_assoc).
        rewrite filter_app, app_nil_r. split; [exact Hevs|].
        intros _. rewrite existsb_app. cbn [existsb reports_failure].
        rewrite startswith_app, !orb_true_r. discriminate.
      * rewrite (emitted_app _ _ _ Hlog). split; [exact Hevs|]. discriminate.
  - apply services_in_document_order.
Qed.

(** X12.  In a run that reaches the actions of a service, an action
    element without a [name] child raises [AttributeError] before anything
    is printed for it; an action whose [name] is empty is printed as [None]
    with its arguments and raises [AttributeError] at the test of its name.
    No [except] clause of [get_upnp_actions] catches the exception: the run
    ends with it, and the actions and services after it are not
    processed. *)
Theorem malformed_action_raises
        (before rest : list ET.Element) (service : ET.Element)
        (service_type control_path scpd_path : option string) (st4 : state W)
        (scpd_response : response) (w5 : W) (scpd_root : ET.Element)
        (earlier later : list ET.Element) (action : ET.Element) (st7 : state W) :
  services_of root = (before ++ service :: rest)%list ->
  for_each before (service_body env location) (described st2 location xml w3)
  = (Ret tt, st4) ->
  read_service service = Ret (service_type, control_path, scpd_path) ->
  env_get env (url_base location ++ fmt scpd_path) (world st4)
  = (Ret scpd_response, w5) ->
  (status_code scpd_response < 400 \/ 600 <= status_code scpd_response)%Z ->
  env_fromstring env (content scpd_response) = Ret scpd_root ->
  ET.findall_desc scpd_root "action" scpd_ns = (earlier ++ action :: later)%list ->
  for_each earlier
           (action_body env (url_base location ++ fmt control_path) service_type)
           (announced st4 location (service_type, control_path, scpd_path) w5)
  = (Ret tt, st7) ->
  (ET.find action "name" scpd_ns = None ->
   get_upnp_actions env st
   = (Raise (Exn AttributeError "'NoneType' object has no attribute 'text'"), st7))
  /\ (forall parsed,
         find_text action "name" scpd_ns = Ret None ->
         Forall2 argument_reads (ET.findall_desc action "argument" scpd_ns) parsed ->
         get_upnp_actions env st
         = (Raise (Exn AttributeError
                       "'NoneType' object has no attribute 'startswith'"),
            State (world st7)
                  (log st7 ++ Print "  - None" :: map argument_line parsed)
                  (open_socks st7) (next_fd st7))).
Proof.
  intros Hservices Hbefore Hread Hget Hstatus Hparse Hactions Hearlier.
  assert (Hround : forall e s,
             action_body env (url_base location ++ fmt control_path) service_type
                         action st7 = (Raise e, s) ->
             service_body env location service st4 = (Raise e, s)).
  { intros e s Hbody.
    rewrite (service_body_fetch env location _ _ _ _ st4 Hread), Hget.
    unfold bind at 1, lift at 1. rewrite (raise_for_status_ok _ Hstatus).
    unfold bind at 1, lift at 1. rewrite Hparse.
    unfold bind at 1, print at 1, emit at 1. cbn [world log open_socks next_fd].
    rewrite Hactions. rewrite <- app_assoc.
    change (State w5 _ (open_socks st4) (next_fd st4))
      with (announced st4 location (service_type, control_path, scpd_path) w5).
    rewrite (for_each_app _ _ _ _ _ Hearlier).
    now apply for_each_raises. }
  rewrite run_reaches_services, Hservices.
  destruct (malformed_action_body env (url_base location ++ fmt control_path)
                                  service_type action st7) as [Hnone Hempty].
  split.
  - intros Hfind.
    apply (loop_failure_uncaught env location before rest service _ st4 _ _ Hbefore);
      [|reflexivity].
    apply Hround, Hnone, Hfind.
  - intros parsed Hname Hargs.
    apply (loop_failure_uncaught env location before rest service _ st4 _ _ Hbefore);
      [|reflexivity].
    apply Hround. now apply Hempty.
Qed.

End ReachedServices.

Lemma scpd_failure_ends_run_witness :
  let env :=
    Fixture.env_of (Fixture.two_services (Ret (Fixture.not_found Fixture.scpd1_url))) in
  let run := get_upnp_actions env Fixture.start in
  fst run = Ret tt
  /\ filter is_get (log (snd run))
     = [HttpGet Fixture.desc_url 5; HttpGet Fixture.scpd1_url 5].
Proof.
  intros env run.
  set (reply := Fixture.reply_with ("Location: " ++ Fixture.desc_url)).
  set (xml := Fixture.ok Fixture.desc_url "<root/>").
  set (first := Fixture.service Fixture.wan_ppp "/control1" "/scpd1.xml").
  set (second := Fixture.service Fixture.wan_ip "/control2" "/scpd2.xml").
  set (st2 := snd (get_upnp_description env "192.168.1.1" 1900 Fixture.start)).
  pose proof
       (scpd_failure_ends_run
          env Fixture.start st2 "192.168.1.1" reply Fixture.desc_url tt tt xml
          (Fixture.description [first; second])
          eq_refl eq_refl eq_refl eq_refl eq_refl eq_refl (or_introl eq_refl)
          eq_refl
          [] [second] first (Some Fixture.wan_ppp) (Some "/control1")
          (Some "/scpd1.xml") (described st2 Fixture.desc_url xml tt)
          eq_refl eq_refl eq_refl) as H.
  cbv zeta in H. destruct H as (_ & H & _).
  destruct (H (Fixture.not_found Fixture.scpd1_url) tt eq_refl)
    as [msg Hrun]; [cbn; lia|].
  subst run. rewrite Hrun. split; reflexivity.
Defined.

Lemma incomplete_service_raises_witness :
  let env := Fixture.env_of Fixture.with_incomplete_service in
  let run := get_upnp_actions env Fixture.start in
  fst run = Raise (Exn AttributeError "'NoneType' object has no attribute 'text'")
  /\ filter is_get (log (snd run)) = [HttpGet Fixture.desc_url 5].
Proof.
  intros env run.
  set (reply := Fixture.reply_with ("Location: " ++ Fixture.desc_url)).
  set (xml := Fixture.ok Fixture.desc_url "<root/>").
  set (second := Fixture.service Fixture.wan_ip "/control2" "/scpd2.xml").
  set (st2 := snd (get_upnp_description env "192.168.1.1" 1900 Fixture.start)).
  pose proof
       (incomplete_service_raises
          env Fixture.start st2 "192.168.1.1" reply Fixture.desc_url tt tt xml
          (Fixture.description [Fixture.incomplete_service; second])
          eq_refl eq_refl eq_refl eq_refl eq_refl eq_refl (or_introl eq_refl)
          eq_refl
          [] [second] Fixture.incomplete_service
          (described st2 Fixture.desc_url xml tt)
          eq_refl eq_refl (or_intror (or_introl eq_refl))) as H.
  cbv zeta in H. destruct H as [_ Hrun].
  subst run. rewrite Hrun. split; reflexivity.
Defined.

Lemma services_read_in_order_witness :
  let env :=
    Fixture.env_of
      (Fixture.two_services (Ret (Fixture.ok Fixture.scpd1_url "<scpd/>"))) in
  let run := get_upnp_actions env Fixture.start in
  filter is_get (log (snd run))
  = [ HttpGet Fixture.desc_url 5;
      HttpGet Fixture.scpd1_url 5;
      HttpGet Fixture.scpd2_url 5 ].
Proof.
  intros env run.
  set (reply := Fixture.reply_with ("Location: " ++ Fixture.desc_url)).
  set (xml := Fixture.ok Fixture.desc_url "<root/>").
  set (first := Fixture.service Fixture.wan_ppp "/control1" "/scpd1.xml").
  set (second := Fixture.service Fixture.wan_ip "/control2" "/scpd2.xml").
  set (st2 := snd (get_upnp_description env "192.168.1.1" 1900 Fixture.start)).
  assert (Hhas : Forall2 service_has
                         (services_of (Fixture.description [first; second]))
                         [ (Some Fixture.wan_ppp, Some "/control1", Some "/scpd1.xml");
                           (Some Fixture.wan_ip, Some "/control2", Some "/scpd2.xml") ]).
  { repeat constructor; eexists; (split; [reflexivity | reflexivity]). }
  pose proof
       (services_read_in_order
          env Fixture.start st2 "192.168.1.1" reply Fixture.desc_url tt tt xml
          (Fixture.description [first; second])
          eq_refl eq_refl eq_refl eq_refl eq_refl eq_refl (or_introl eq_refl)
          eq_refl _ Hhas) as H.
  cbv zeta in H. destruct H as (_ & _ & (n & _ & _ & Hget & Hall) & _).
  rewrite (Hall eq_refl eq_refl) in Hget. subst run.
  assert (Hlog : log (snd (get_upnp_actions env Fixture.start))
                 = (log (described st2 Fixture.desc_url xml tt)
                    ++ emitted (described st2 Fixture.desc_url xml tt)
                               (snd (get_upnp_actions env Fixture.start)))%list)
    by reflexivity.
  rewrite Hlog, filter_app, Hget. reflexivity.
Defined.

Lemma malformed_action_raises_witness :
  let run actions :=
    get_upnp_actions (Fixture.env_of (Scenario.declaring actions)) Fixture.start in
  fst (run [Scenario.nameless_action; Fixture.GetExternalIPAddress])
  = Raise (Exn AttributeError "'NoneType' object has no attribute 'text'")
  /\ fst (run [Fixture.SetConnectionType; Scenario.empty_name_action;
               Fixture.GetExternalIPAddress])
     = Raise (Exn AttributeError "'NoneType' object has no attribute 'startswith'").
Proof.
  intros run.
  set (reply := Fixture.reply_with ("Location: " ++ Fixture.desc_url)).
  set (xml := Fixture.ok Fixture.desc_url "<root/>").
  set (service := Fixture.service Fixture.wan_ip "/control" "/scpd.xml").
  set (record := (Some Fixture.wan_ip, Some "/control", Some "/scpd.xml")).
  set (scpd_url := "http://192.168.1.1:5000/scpd.xml").
  unfold run. clear run. split.
  - set (actions := [Scenario.nameless_action; Fixture.GetExternalIPAddress]).
    set (env := Fixture.env_of (Scenario.declaring actions)).
    set (st2 := snd (get_upnp_description env "192.168.1.1" 1900 Fixture.start)).
    rewrite (proj1 (malformed_action_raises
                      env Fixture.start st2 "192.168.1.1" reply Fixture.desc_url
                      tt tt xml (Fixture.description [service])
                      eq_refl eq_refl eq_refl eq_refl eq_refl eq_refl
                      (or_introl eq_refl) eq_refl
                      [] [] service (Some Fixture.wan_ip) (Some "/control")
                      (Some "/scpd.xml") (described st2 Fixture.desc_url xml tt)
                      (Fixture.ok scpd_url "<scpd/>") tt (Fixture.scpd actions)
                      [] [Fixture.GetExternalIPAddress] Scenario.nameless_action
                      (announced (described st2 Fixture.desc_url xml tt)
                                 Fixture.desc_url record tt)
                      eq_refl eq_refl eq_refl eq_refl (or_introl eq_refl)
                      eq_refl eq_refl eq_refl)
                   eq_refl).
    reflexivity.
  - set (actions := [Fixture.SetConnectionType; Scenario.empty_name_action;
                     Fixture.GetExternalIPAddress]).
    set (env := Fixture.env_of (Scenario.declaring actions)).
    set (st2 := snd (get_upnp_description env "192.168.1.1" 1900 Fixture.start)).
    set (st6 := announced (described st2 Fixture.desc_url xml tt)
                          Fixture.desc_url record tt).
    rewrite (proj2 (malformed_action_raises
                      env Fixture.start st2 "192.168.1.1" reply Fixture.desc_url
                      tt tt xml (Fixture.description [service])
                      eq_refl eq_refl eq_refl eq_refl eq_refl eq_refl
                      (or_introl eq_refl) eq_refl
                      [] [] service (Some Fixture.wan_ip) (Some "/control")
                      (Some "/scpd.xml") (described st2 Fixture.desc_url xml tt)
                      (Fixture.ok scpd_url "<scpd/>") tt (Fixture.scpd actions)
                      [Fixture.SetConnectionType] [Fixture.GetExternalIPAddress]
                      Scenario.empty_name_action
                      (snd (for_each [Fixture.SetConnectionType]
                                     (action_body env "http://192.168.1.1:5000/control"
                                                  (Some Fixture.wan_ip))
                                     st6))
                      eq_refl eq_refl eq_refl eq_refl (or_introl eq_refl)
                      eq_refl eq_refl eq_refl)
                   [] eq_refl (Forall2_nil _)).
    reflexivity.
Defined.

Lemma subseq_length {A : Type} (l1 l2 : list A) :
  subseq l1 l2 -> (length l1 <= length l2)%nat.
Proof.
  induction 1; cbn [length]; lia.
Qed.

(** A list has no other subsequence of its length than itself. *)
Lemma subseq_same_length {A : Type} (l1 l2 : list A) :
  subseq l1 l2 -> length l1 = length l2 -> l1 = l2.
Proof.
  induction 1 as [|x l1 l2 Hsub IH|x l1 l2 Hsub IH]; cbn [length]; intros Hlen.
  - reflexivity.
  - apply subseq_length in Hsub. lia.
  - f_equal. apply IH. lia.
Qed.

Lemma subseq_filter_mono {A : Type} (f : A -> bool) (l1 l2 : list A) :
  subseq l1 l2 -> subseq (filter f l1) (filter f l2).
Proof.
  induction 1 as [|x l1 l2 _ IH|x l1 l2 _ IH]; cbn [filter].
  - apply subseq_nil.
  - destruct (f x); [now apply subseq_skip | exact IH].
  - destruct (f x); [now apply subseq_take | exact IH].
Qed.

(** C8 as stated fails: in this description the [serviceList] holds a
    service, an embedded device with a [serviceList] of its own, and a
    second service.  Every service has the three children, and the
    document has them in the order WANPPPConnection, WANIPConnection,
    Layer3Forwarding; [findall] gives the third before the second, and the
    run fetches their SCPDs in that order. *)
Lemma nested_service_lists_counterexample :
  let root := Scenario.nested_description in
  let s1 := Fixture.service Fixture.wan_ppp "/control1" "/scpd1.xml" in
  let s2 := Fixture.service Fixture.wan_ip "/control2" "/scpd2.xml" in
  let s3 := Fixture.service Scenario.layer3 "/control3" "/scpd3.xml" in
  let run := get_upnp_actions (Fixture.env_of Scenario.nested_lists) Fixture.start in
  filter (ET.has_tag device_ns "service") (ET.descendants root) = [s1; s2; s3]
  /\ services_of root = [s1; s3; s2]
  /\ Forall2 service_has (services_of root)
             [ (Some Fixture.wan_ppp, Some "/control1", Some "/scpd1.xml");
               (Some Scenario.layer3, Some "/control3", Some "/scpd3.xml");
               (Some Fixture.wan_ip, Some "/control2", Some "/scpd2.xml") ]
  /\ ~ subseq (services_of root) (ET.descendants root)
  /\ fst run = Ret tt
  /\ filter is_get (log (snd run))
     = [ HttpGet Fixture.desc_url 5;
         HttpGet Fixture.scpd1_url 5;
         HttpGet Scenario.scpd3_url 5;
         HttpGet Fixture.scpd2_url 5 ].
Proof.
  intros root s1 s2 s3 run.
  split; [reflexivity|]. split; [reflexivity|].
  split; [repeat constructor; eexists; (split; [reflexivity | reflexivity])|].
  split; [|split; reflexivity].
  intros H.
  apply (subseq_filter_mono (ET.has_tag device_ns "service")) in H.
  apply subseq_same_length in H; [|reflexivity].
  discriminate H.
Qed.
